(** * SparkMonitor: the JupyterLab front-end monitor

    A shallow embedding of [JupyterLabSparkMonitor]
    (src/lab-extension/jupyterlab-sparkmonitor.ts) and of the second
    revision of the same class that the repository carries, together with
    the JavaScript pieces it leans on: JSON values, [JSON.parse], the
    console, the Lumino panel layout and the notebook store (the sink). *)

From Stdlib Require Import ZArith NArith Bool List Ascii String Lia.
From stdpp Require Import base option gmap strings.
Import ListNotations.
Local Open Scope string_scope.
Local Open Scope Z_scope.
Set Warnings "-register-all".

(** ** JavaScript values *)

Module JS.

(** A JSON value.  A number is kept as the decimal it denotes,
    [JNumber m e] standing for [m * 10^e]; an object keeps its members in
    source order.  A string is a sequence of code units; the units above
    127 are stored in their UTF-8 form, which keeps comparison with the
    ASCII literals of the program exact. *)
Inductive JValue : Type :=
| JNull
| JBool (b : bool)
| JNumber (m e : Z)
| JString (s : string)
| JArray (items : list JValue)
| JObject (members : list (string * JValue)).

(** A JavaScript value as the monitor meets it: [None] is [undefined]. *)
Definition JSVal : Type := option JValue.

(** ToBoolean: [undefined], [null], [false], zero and the empty string are
    falsy, every other value is truthy. *)
Definition truthy (v : JSVal) : bool :=
  match v with
  | None => false
  | Some JNull => false
  | Some (JBool b) => b
  | Some (JNumber m _) => negb (m =? 0)
  | Some (JString s) => negb (String.eqb s "")
  | Some (JArray _) => true
  | Some (JObject _) => true
  end.

(** [v === lit] for a string literal [lit]. *)
Definition strict_eq_string (v : JSVal) (lit : string) : bool :=
  match v with
  | Some (JString s) => String.eqb s lit
  | _ => false
  end.

(** The errors the monitor can meet. *)
Inductive Exn : Type :=
| SyntaxError
| TypeError.

(** Own-property lookup in an object literal: the last member with the key
    wins, as in [JSON.parse]. *)
Fixpoint own_property (members : list (string * JValue)) (k : string) : JSVal :=
  match members with
  | [] => None
  | (k', v) :: rest =>
      match own_property rest k with
      | Some w => Some w
      | None => if String.eqb k' k then Some v else None
      end
  end.

(** [data.msgtype].  Reading a property of [null] throws; a primitive or an
    array has no such property; an object answers with its own member. *)
Definition get_msgtype (data : JValue) : Exn + JSVal :=
  match data with
  | JNull => inl TypeError
  | JObject members => inr (own_property members "msgtype")
  | _ => inr None
  end.

End JS.

(** ** [JSON.parse]

    The parser reads its text one code unit at a time and keeps the open
    arrays and objects on a stack, so it is total by recursion on the text:
    no text can exhaust it.  The grammar is the one of ECMA-404, which is
    what [JSON.parse] accepts. *)

Module JSON.
Import JS.

(** An open container: an array with the items read so far, an object that
    waits for a key, an object that waits for the value of [key]. *)
Inductive Frame : Type :=
| FArr (items : list JValue)
| FObj (members : list (string * JValue))
| FObjV (members : list (string * JValue)) (key : string).

(** Where the scanner stands inside a number. *)
Inductive NumState : Type :=
| NMinus | NZero | NInt | NDot | NFrac | NExp | NExpSign | NExpDigits.

Record NumAcc : Type := mkNumAcc {
  n_neg : bool;      (* a leading minus was read *)
  n_mant : Z;        (* the digits of the integer and fraction parts *)
  n_scale : Z;       (* how many of them follow the point *)
  n_eneg : bool;     (* the exponent is negative *)
  n_exp : Z          (* the digits of the exponent *)
}.

Inductive Mode : Type :=
| MValue                                   (* a value starts here *)
| MArrFirst                                (* after [ : a value or ] *)
| MObjFirst                                (* after { : a key or } *)
| MKey                                     (* after , in an object: a key *)
| MColon                                   (* after a key: the colon *)
| MAfter (v : JValue)                      (* a value is complete *)
| MStr (acc : string)                      (* inside a string *)
| MEsc (acc : string)                      (* after a backslash *)
| MHex (acc : string) (todo : nat) (code : N)  (* inside \uXXXX *)
| MNum (st : NumState) (acc : NumAcc)      (* inside a number *)
| MLit (rest : string) (v : JValue).       (* inside true, false, null *)

Definition is_ws (c : ascii) : bool :=
  let n := N_of_ascii c in
  ((n =? 9) || (n =? 10) || (n =? 13) || (n =? 32))%N.

Definition digit_of (c : ascii) : option Z :=
  let n := Z.of_N (N_of_ascii c) in
  if (48 <=? n) && (n <=? 57) then Some (n - 48) else None.

Definition hex_of (c : ascii) : option N :=
  let n := N_of_ascii c in
  (if (48 <=? n) && (n <=? 57) then Some (n - 48)
   else if (65 <=? n) && (n <=? 70) then Some (n - 55)
   else if (97 <=? n) && (n <=? 102) then Some (n - 87)
   else None)%N.

Definition snoc (acc : string) (c : ascii) : string := acc ++ String c "".

(** The code unit of a [\uXXXX] escape, appended in UTF-8 form. *)
Definition snoc_unit (acc : string) (n : N) : string :=
  (if n <? 128 then snoc acc (ascii_of_N n)
   else if n <? 2048 then
     snoc (snoc acc (ascii_of_N (192 + n / 64))) (ascii_of_N (128 + n mod 64))
   else
     snoc (snoc (snoc acc (ascii_of_N (224 + n / 4096)))
                (ascii_of_N (128 + (n / 64) mod 64)))
          (ascii_of_N (128 + n mod 64)))%N.

Definition num_value (a : NumAcc) : JValue :=
  JNumber (if n_neg a then - n_mant a else n_mant a)
          ((if n_eneg a then - n_exp a else n_exp a) - n_scale a).

Definition num_accepting (st : NumState) : bool :=
  match st with
  | NZero | NInt | NFrac | NExpDigits => true
  | _ => false
  end.

Definition is_e (c : ascii) : bool :=
  Ascii.eqb c "e" || Ascii.eqb c "E".

(** One more code unit inside a number; [None] when the unit does not
    continue it. *)
Definition num_step (st : NumState) (a : NumAcc) (c : ascii)
  : option (NumState * NumAcc) :=
  let mant d := mkNumAcc (n_neg a) (n_mant a * 10 + d) (n_scale a) (n_eneg a) (n_exp a) in
  let frac d := mkNumAcc (n_neg a) (n_mant a * 10 + d) (n_scale a + 1) (n_eneg a) (n_exp a) in
  let expo d := mkNumAcc (n_neg a) (n_mant a) (n_scale a) (n_eneg a) (n_exp a * 10 + d) in
  match st with
  | NMinus =>
      match digit_of c with
      | Some 0 => Some (NZero, a)
      | Some d => Some (NInt, mant d)
      | None => None
      end
  | NZero =>
      if Ascii.eqb c "." then Some (NDot, a)
      else if is_e c then Some (NExp, a) else None
  | NInt =>
      match digit_of c with
      | Some d => Some (NInt, mant d)
      | None =>
          if Ascii.eqb c "." then Some (NDot, a)
          else if is_e c then Some (NExp, a) else None
      end
  | NDot =>
      match digit_of c with
      | Some d => Some (NFrac, frac d)
      | None => None
      end
  | NFrac =>
      match digit_of c with
      | Some d => Some (NFrac, frac d)
      | None => if is_e c then Some (NExp, a) else None
      end
  | NExp =>
      match digit_of c with
      | Some d => Some (NExpDigits, expo d)
      | None =>
          if Ascii.eqb c "+" then Some (NExpSign, a)
          else if Ascii.eqb c "-"
               then Some (NExpSign, mkNumAcc (n_neg a) (n_mant a) (n_scale a) true (n_exp a))
               else None
      end
  | NExpSign | NExpDigits =>
      match digit_of c with
      | Some d => Some (NExpDigits, expo d)
      | None => None
      end
  end.

Definition PState : Type := (list Frame * Mode)%type.

(** A string is complete: it is a key when the innermost open container is
    an object that waits for one, a value otherwise. *)
Definition close_string (stack : list Frame) (s : string) : option PState :=
  match stack with
  | FObj members :: below => Some (FObjV members s :: below, MColon)
  | _ => Some (stack, MAfter (JString s))
  end.

(** The unit [c] follows the complete value [v]. *)
Definition after_value (stack : list Frame) (v : JValue) (c : ascii)
  : option PState :=
  if is_ws c then Some (stack, MAfter v)
  else if Ascii.eqb c "," then
    match stack with
    | FArr items :: below => Some (FArr (items ++ [v]) :: below, MValue)
    | FObjV members key :: below =>
        Some (FObj (members ++ [(key, v)]) :: below, MKey)
    | _ => None
    end
  else if Ascii.eqb c "]" then
    match stack with
    | FArr items :: below => Some (below, MAfter (JArray (items ++ [v])))
    | _ => None
    end
  else if Ascii.eqb c "}" then
    match stack with
    | FObjV members key :: below =>
        Some (below, MAfter (JObject (members ++ [(key, v)])))
    | _ => None
    end
  else None.

(** The unit [c] starts a value. *)
Definition start_value (stack : list Frame) (c : ascii) : option PState :=
  let zero := mkNumAcc false 0 0 false 0 in
  if Ascii.eqb c "{" then Some (FObj [] :: stack, MObjFirst)
  else if Ascii.eqb c "[" then Some (FArr [] :: stack, MArrFirst)
  else if Ascii.eqb c "034" then Some (stack, MStr "")
  else if Ascii.eqb c "-" then Some (stack, MNum NMinus (mkNumAcc true 0 0 false 0))
  else if Ascii.eqb c "t" then Some (stack, MLit "rue" (JBool true))
  else if Ascii.eqb c "f" then Some (stack, MLit "alse" (JBool false))
  else if Ascii.eqb c "n" then Some (stack, MLit "ull" JNull)
  else
    match digit_of c with
    | Some 0 => Some (stack, MNum NZero zero)
    | Some d => Some (stack, MNum NInt (mkNumAcc false d 0 false 0))
    | None => None
    end.

(** One step of the parser; [None] is a syntax error. *)
Definition step (st : PState) (c : ascii) : option PState :=
  let '(stack, mode) := st in
  match mode with
  | MValue =>
      if is_ws c then Some st else start_value stack c
  | MArrFirst =>
      if is_ws c then Some st
      else if Ascii.eqb c "]" then
        match stack with
        | FArr items :: below => Some (below, MAfter (JArray items))
        | _ => None
        end
      else start_value stack c
  | MObjFirst =>
      if is_ws c then Some st
      else if Ascii.eqb c "}" then
        match stack with
        | FObj members :: below => Some (below, MAfter (JObject members))
        | _ => None
        end
      else if Ascii.eqb c "034" then Some (stack, MStr "")
      else None
  | MKey =>
      if is_ws c then Some st
      else if Ascii.eqb c "034" then Some (stack, MStr "")
      else None
  | MColon =>
      if is_ws c then Some st
      else if Ascii.eqb c ":" then Some (stack, MValue)
      else None
  | MAfter v => after_value stack v c
  | MStr acc =>
      if Ascii.eqb c "034" then close_string stack acc
      else if Ascii.eqb c "\" then Some (stack, MEsc acc)
      else if (N_of_ascii c <? 32)%N then None
      else Some (stack, MStr (snoc acc c))
  | MEsc acc =>
      if Ascii.eqb c "034" || Ascii.eqb c "\" || Ascii.eqb c "/"
      then Some (stack, MStr (snoc acc c))
      else if Ascii.eqb c "b" then Some (stack, MStr (snoc acc "008"))
      else if Ascii.eqb c "f" then Some (stack, MStr (snoc acc "012"))
      else if Ascii.eqb c "n" then Some (stack, MStr (snoc acc "010"))
      else if Ascii.eqb c "r" then Some (stack, MStr (snoc acc "013"))
      else if Ascii.eqb c "t" then Some (stack, MStr (snoc acc "009"))
      else if Ascii.eqb c "u" then Some (stack, MHex acc 4 0%N)
      else None
  | MHex acc todo code =>
      match hex_of c with
      | Some h =>
          let code' := (code * 16 + h)%N in
          match todo with
          | 1%nat => Some (stack, MStr (snoc_unit acc code'))
          | _ => Some (stack, MHex acc (Nat.pred todo) code')
          end
      | None => None
      end
  | MNum ns acc =>
      match num_step ns acc c with
      | Some (ns', acc') => Some (stack, MNum ns' acc')
      | None =>
          if num_accepting ns then after_value stack (num_value acc) c
          else None
      end
  | MLit rest v =>
      match rest with
      | String c' rest' =>
          if Ascii.eqb c c'
          then Some (stack, match rest' with
                            | EmptyString => MAfter v
                            | _ => MLit rest' v
                            end)
          else None
      | EmptyString => None
      end
  end.

Fixpoint run (st : PState) (text : string) : option PState :=
  match text with
  | EmptyString => Some st
  | String c rest =>
      match step st c with
      | Some st' => run st' rest
      | None => None
      end
  end.

(** The text is over: a single complete value must be all that was read. *)
Definition finish (st : PState) : option JValue :=
  match st with
  | ([], MAfter v) => Some v
  | ([], MNum ns acc) => if num_accepting ns then Some (num_value acc) else None
  | _ => None
  end.

(** [JSON.parse(text)]: the value, or a [SyntaxError]. *)
Definition parse (text : string) : Exn + JValue :=
  match run ([], MValue) text with
  | Some st =>
      match finish st with
      | Some v => inr v
      | None => inl SyntaxError
      end
  | None => inl SyntaxError
  end.

(** JSON texts are written below with an apostrophe wherever the text has
    a double quote. *)
Fixpoint quoted (s : string) : string :=
  match s with
  | EmptyString => EmptyString
  | String c rest =>
      String (if Ascii.eqb c "'" then "034"%char else c) (quoted rest)
  end.

End JSON.


(** ** The notebook as the monitor sees it *)

Module Notebook.

(** [ICellModel]: the editable model of a cell.  [model_ref] is the identity
    of the object, which is what [===] compares. *)
Record ICellModel : Type := mkModel {
  model_ref : nat;
  id : string;
  type : string
}.

Definition same_object (a b : ICellModel) : bool :=
  Nat.eqb (model_ref a) (model_ref b).

(** A Lumino widget, reduced to what the monitor asks of it: its CSS
    classes and, for a React widget, the properties of its element. *)
Record Widget : Type := mkWidget {
  classes : list string;
  props : option (string * string)      (* notebookId, cellId *)
}.

Definition hasClass (name : string) (w : Widget) : bool :=
  existsb (String.eqb name) (classes w).

Definition addClass (name : string) (w : Widget) : Widget :=
  if hasClass name w then w else mkWidget (classes w ++ [name]) (props w).

(** The live widget of a cell. *)
Record Cell : Type := mkCell {
  model : ICellModel;
  (* node.querySelector('.sparkMonitorCellRoot') finds an element *)
  hasMonitorRoot : bool;
  (* (layout as PanelLayout).widgets *)
  layout : list Widget;
  (* outputArea.layout.widgets, when the cell has an output area *)
  outputArea : option (list Widget)
}.

(** [IKernelConnection], reduced to the methods the monitor looks for. *)
Record IKernelConnection : Type := mkKernel {
  has_createComm : bool;
  has_connectToComm : bool
}.

Record NotebookPanel : Type := mkPanel {
  panel_id : string;
  widgets : list Cell;                  (* content.widgets *)
  hasModel : bool;                      (* content.model is defined *)
  (* session, with its kernel, on the older host *)
  session : option (option IKernelConnection);
  (* sessionContext.session, with its kernel *)
  sessionContext_session : option (option IKernelConnection)
}.

Definition set_widgets (ws : list Cell) (p : NotebookPanel) : NotebookPanel :=
  mkPanel (panel_id p) ws (hasModel p) (session p) (sessionContext_session p).

(** [Array.prototype.findIndex]: the first index that satisfies [p], or -1. *)
Fixpoint findIndex {A : Type} (p : A -> bool) (l : list A) : Z :=
  match l with
  | [] => -1
  | x :: rest =>
      if p x then 0
      else let i := findIndex p rest in if i <? 0 then -1 else i + 1
  end.

(** [PanelLayout.insertWidget(index, widget)] for a widget that is not in
    the layout yet: the index is clamped to the bounds of the widgets. *)
Definition insertWidget (index : Z) (w : Widget) (l : list Widget) : list Widget :=
  let j := Z.to_nat (Z.max 0 (Z.min index (Z.of_nat (length l)))) in
  firstn j l ++ w :: skipn j l.

(** The first cell widget whose model is the object [m]. *)
Definition find_cell (m : ICellModel) (l : list Cell) : option Cell :=
  List.find (fun w => same_object (model w) m) l.

(** The in-place update of that widget. *)
Fixpoint alter_cell (m : ICellModel) (f : Cell -> Cell) (l : list Cell) : list Cell :=
  match l with
  | [] => []
  | w :: rest =>
      if same_object (model w) m then f w :: rest
      else w :: alter_cell m f rest
  end.

End Notebook.

(** ** The active-cell tracker *)

Module Tracker.
Import Notebook.

(** Modelled from the spec: the class [CurrentCellTracker] of
    ./current-cell, which is not among the sources.  The spec gives it an
    active cell that may be absent, a count of the cells executed, a
    re-execution flag and a readiness gate; the monitor reads
    [cell.model] of the active cell. *)
Record ActiveCell : Type := mkActive {
  cell_model : ICellModel;
  ordinal : Z
}.

Record CurrentCellTracker : Type := mkTracker {
  activeCell : option ActiveCell;
  numCellsExecuted : Z;
  cellReexecuted : bool;
  isReady : bool
}.

(** Modelled from the spec: a new tracker has seen no execution.  The spec
    gives the flag no initial value; the value a restart gives it is taken. *)
Definition new_tracker : CurrentCellTracker := mkTracker None 0 false false.

(** Modelled from the spec: [getActiveCell] answers with the active cell,
    or with nothing, and has no effect. *)
Definition getActiveCell (t : CurrentCellTracker) : option ActiveCell :=
  activeCell t.

(** Modelled from the spec: [getNumCellsExecuted] answers with the count. *)
Definition getNumCellsExecuted (t : CurrentCellTracker) : Z :=
  numCellsExecuted t.

(** Modelled from the spec: [onCellStarted] records the new active cell and
    adds one to the count. *)
Definition onCellStarted (m : ICellModel) (t : CurrentCellTracker)
  : CurrentCellTracker :=
  mkTracker (Some (mkActive m (numCellsExecuted t + 1)))
            (numCellsExecuted t + 1) (cellReexecuted t) (isReady t).

Definition set_cellReexecuted (b : bool) (t : CurrentCellTracker)
  : CurrentCellTracker :=
  mkTracker (activeCell t) (numCellsExecuted t) b (isReady t).

Definition set_ready (t : CurrentCellTracker) : CurrentCellTracker :=
  mkTracker (activeCell t) (numCellsExecuted t) (cellReexecuted t) true.

End Tracker.

(** ** What the monitor does to the outside *)

Module NotebookStore.
Import JS.

(** A call of a method of the notebook store, the sink of the events.  The
    store is a collaborator outside these sources; its methods are taken to
    return normally. *)
Inductive Call : Type :=
| onCellExecutedAgain (cellId : string)
| onSparkJobStart (cellId : string) (data : JValue)
| onSparkStageSubmitted (cellId : string) (data : JValue)
| onSparkJobEnd (data : JValue)
| onSparkStageCompleted (data : JValue)
| onSparkStageActive (data : JValue)
| onSparkTaskStart (data : JValue)
| onSparkTaskEnd (data : JValue)
| onSparkApplicationStart (data : JValue)
| onSparkExecutorAdded (data : JValue)
| onSparkExecutorRemoved (data : JValue)
| onCellRemoved (cellId : string)
| toggleHideAllDisplays.

End NotebookStore.

Module Effects.
Import JS Notebook.

Inductive Effect : Type :=
| console_log (text : string)
| console_warn (text : string)
| store (call : NotebookStore.Call)
(* ReactWidget.create(React.createElement(CellWidget, {notebookId, cellId})) *)
| react_create (notebookId cellId : string)
(* codeCell.update() *)
| cell_update (m : ICellModel)
(* comm.open({ msgtype }) on the channel object [channel] *)
| comm_open (channel : nat) (msgtype : string).

Definition is_store (e : Effect) : bool :=
  match e with store _ => true | _ => false end.

Definition is_warn (e : Effect) : bool :=
  match e with console_warn _ => true | _ => false end.

Definition is_create (e : Effect) : bool :=
  match e with react_create _ _ => true | _ => false end.

(** The calls the store received, in order. *)
Definition store_calls (t : list Effect) : list NotebookStore.Call :=
  omap (fun e => match e with store c => Some c | _ => None end) t.

(** How many presentation surfaces were created for the cell [cellId]. *)
Definition surfaces_created (cellId : string) (t : list Effect) : nat :=
  length (List.filter (fun e => match e with
                           | react_create _ c => String.eqb c cellId
                           | _ => false
                           end) t).

(** A method: it runs from a state, ends normally or by throwing, leaves a
    state and the effects it had on the outside, in order. *)
Definition M (S A : Type) : Type := S -> (Exn + A) * S * list Effect.

Definition ret {S A} (a : A) : M S A := fun s => (inr a, s, []).

Definition bind {S A B} (m : M S A) (k : A -> M S B) : M S B :=
  fun s =>
    match m s with
    | (inr a, s1, t1) =>
        match k a s1 with
        | (r, s2, t2) => (r, s2, (t1 ++ t2)%list)
        end
    | (inl e, s1, t1) => (inl e, s1, t1)
    end.

Definition throw {S A} (e : Exn) : M S A := fun s => (inl e, s, []).

Definition emit {S} (e : Effect) : M S unit := fun s => (inr tt, s, [e]).

Definition get {S} : M S S := fun s => (inr s, s, []).

Definition modify {S} (f : S -> S) : M S unit := fun s => (inr tt, f s, []).

(** A builtin that returns or throws. *)
Definition lift {S A} (r : Exn + A) : M S A := fun s => (r, s, []).

(** [n] calls in a row. *)
Fixpoint times {S} (n : nat) (c : M S unit) : M S unit :=
  match n with
  | O => ret tt
  | S k => bind c (fun _ => times k c)
  end.

Definition outcome {S A} (r : (Exn + A) * S * list Effect) : Exn + A := r.1.1.
Definition final {S A} (r : (Exn + A) * S * list Effect) : S := r.1.2.
Definition trace {S A} (r : (Exn + A) * S * list Effect) : list Effect := r.2.

End Effects.

Declare Scope js_scope.
Delimit Scope js_scope with js.
Notation "x <- m ;; k" := (Effects.bind m (fun x => k))
  (at level 20, m at level 99, k at level 200, only parsing) : js_scope.
Notation "m ;; k" := (Effects.bind m (fun _ => k))
  (at level 100, k at level 200, only parsing, right associativity) : js_scope.

(** ** The monitor: what the two revisions share *)

Module Monitor.
Import JS Notebook Tracker Effects.
Local Open Scope js_scope.

(** [IComm]: a channel object and the handlers set on it. *)
Record IComm : Type := mkComm {
  channel : nat;
  onMsg : bool;
  onClose : bool
}.

(** [ICommMsgMsg], reduced to [content.data]: its [msgtype], any value, and
    its [msg], which the source takes as a string ([as string]); [None] is
    a message without the field. *)
Record ICommMsgMsg : Type := mkMsg {
  msgtype : JSVal;
  msg : option string
}.

(** The fields of [JupyterLabSparkMonitor].  [gate] is what the
    presentation gate keeps for itself ([cellWidgetMap] in the lab
    extension); [awaitingReady] counts the callbacks that [startComm] left
    on the promise of [ready()]. *)
Record State (G : Type) : Type := mkState {
  notebookPanel : NotebookPanel;
  currentCellTracker : CurrentCellTracker;
  cellExecCountSinceSparkJobStart : Z;
  kernel : option IKernelConnection;
  comm : option IComm;
  gate : G;
  awaitingReady : nat
}.
Arguments mkState {G}.
Arguments notebookPanel {G}.
Arguments currentCellTracker {G}.
Arguments cellExecCountSinceSparkJobStart {G}.
Arguments kernel {G}.
Arguments comm {G}.
Arguments gate {G}.
Arguments awaitingReady {G}.

Section Shared.
Context {G : Type}.
Local Abbreviation St := (State G).

Definition set_notebookPanel (p : NotebookPanel) (s : St) : St :=
  mkState p (currentCellTracker s) (cellExecCountSinceSparkJobStart s)
          (kernel s) (comm s) (gate s) (awaitingReady s).

Definition set_currentCellTracker (t : CurrentCellTracker) (s : St) : St :=
  mkState (notebookPanel s) t (cellExecCountSinceSparkJobStart s)
          (kernel s) (comm s) (gate s) (awaitingReady s).

Definition set_cellExecCountSinceSparkJobStart (n : Z) (s : St) : St :=
  mkState (notebookPanel s) (currentCellTracker s) n
          (kernel s) (comm s) (gate s) (awaitingReady s).

Definition set_comm (c : option IComm) (s : St) : St :=
  mkState (notebookPanel s) (currentCellTracker s)
          (cellExecCountSinceSparkJobStart s) (kernel s) c (gate s)
          (awaitingReady s).

Definition set_gate (g : G) (s : St) : St :=
  mkState (notebookPanel s) (currentCellTracker s)
          (cellExecCountSinceSparkJobStart s) (kernel s) (comm s) g
          (awaitingReady s).

Definition set_awaitingReady (n : nat) (s : St) : St :=
  mkState (notebookPanel s) (currentCellTracker s)
          (cellExecCountSinceSparkJobStart s) (kernel s) (comm s) (gate s) n.

(** [toggleAll()] *)
Definition toggleAll : M St unit :=
  emit (store NotebookStore.toggleHideAllDisplays).

(** [startComm()]: the log line, and the callback left on [ready()]. *)
Definition startComm : M St unit :=
  emit (console_log "SparkMonitor: Starting Comm with kernel.");;
  modify (fun s => set_awaitingReady (S (awaitingReady s)) s).

(** The callback of [startComm], run when [ready()] has resolved.  [made] is
    what the kernel answers this time: a new channel object, or nothing. *)
Definition startComm_then (made : option nat) : M St unit :=
  s <- get;;
  c <- match kernel s with
       | Some k =>
           if has_createComm k then ret made
           else if has_connectToComm k then ret made
           else throw TypeError
       | None => throw TypeError
       end;;
  modify (set_comm (option_map (fun n => mkComm n false false) c));;
  match c with
  | None => emit (console_warn "SparkMonitor: Unable to connect to comm")
  | Some n =>
      emit (comm_open n "openfromfrontend");;
      modify (set_comm (Some (mkComm n true false)));;
      modify (set_comm (Some (mkComm n true true)));;
      emit (console_log "SparkMonitor: Connection with comms established")
  end.

(** The handler connected to [kernel.statusChanged]. *)
Definition onStatusChanged (status : string) : M St unit :=
  if String.eqb status "starting" then
    modify (fun s => set_currentCellTracker
                       (set_cellReexecuted false (currentCellTracker s)) s);;
    startComm
  else ret tt.

(** The handler connected to [cells.changed]. *)
Fixpoint forEach_removed (oldValues : list (option ICellModel)) : M St unit :=
  match oldValues with
  | [] => ret tt
  | cell :: rest =>
      match cell with
      | Some c => emit (store (NotebookStore.onCellRemoved (id c)))
      | None => ret tt
      end;;
      forEach_removed rest
  end.

Definition onCellsChanged (type : string) (oldValues : list (option ICellModel))
  : M St unit :=
  if String.eqb type "remove" then forEach_removed oldValues else ret tt.

(** The constructor: the fields, then [startComm()].  The two handlers are
    connected when the kernel, respectively the model, is there. *)
Definition constructor (notebookPanel : NotebookPanel) (gate0 : G)
  : (Exn + unit) * St * list Effect :=
  let kernel := match session notebookPanel with
                | Some found => found
                | None =>
                    match sessionContext_session notebookPanel with
                    | Some found => found
                    | None => None
                    end
                end in
  startComm (mkState notebookPanel new_tracker 0 kernel None gate0 0%nat).

(** The text [JSON.parse] reads: [msg.content.data.msg], turned into a
    string when the field is missing. *)
Definition parse_argument (m : ICommMsgMsg) : string :=
  match msg m with
  | Some text => text
  | None => "undefined"
  end.

Variable onSparkJobStart : JValue -> M St unit.
Variable onSparkStageSubmitted : JValue -> M St unit.

(** [handleMessage(msg)] *)
Definition handleMessage (m : ICommMsgMsg) : M St unit :=
  (if negb (truthy (msgtype m))
   then emit (console_warn "SparkMonitor: Unknown message")
   else ret tt);;
  if strict_eq_string (msgtype m) "fromscala" then
    data <- lift (JSON.parse (parse_argument m));;
    kind <- lift (get_msgtype data);;
    if strict_eq_string kind "sparkJobStart" then onSparkJobStart data
    else if strict_eq_string kind "sparkJobEnd" then
      emit (store (NotebookStore.onSparkJobEnd data))
    else if strict_eq_string kind "sparkStageSubmitted" then
      onSparkStageSubmitted data
    else if strict_eq_string kind "sparkStageCompleted" then
      emit (store (NotebookStore.onSparkStageCompleted data))
    else if strict_eq_string kind "sparkStageActive" then
      emit (store (NotebookStore.onSparkStageActive data))
    else if strict_eq_string kind "sparkTaskStart" then
      emit (store (NotebookStore.onSparkTaskStart data))
    else if strict_eq_string kind "sparkTaskEnd" then
      emit (store (NotebookStore.onSparkTaskEnd data))
    else if strict_eq_string kind "sparkApplicationStart" then
      emit (store (NotebookStore.onSparkApplicationStart data))
    else if strict_eq_string kind "sparkApplicationEnd" then
      ret tt
    else if strict_eq_string kind "sparkExecutorAdded" then
      emit (store (NotebookStore.onSparkExecutorAdded data))
    else if strict_eq_string kind "sparkExecutorRemoved" then
      emit (store (NotebookStore.onSparkExecutorRemoved data))
    else emit (console_warn "SparkMonitor: Unknown message")
  else ret tt.

(** What reaches the monitor from outside: the signals of the notebook and
    of the kernel, the messages of the channel, the resolution of
    [ready()], and the notebook redrawing its cells.  A message may come on
    any channel object that carries the handler of the monitor, the one it
    holds or an older one. *)
Inductive Event : Type :=
| ExecutionStarted (m : ICellModel)
| TrackerReady
| ReadyCallback (made : option nat)
| StatusChanged (status : string)
| CellsChanged (type : string) (oldValues : list (option ICellModel))
| CommMsg (m : ICommMsgMsg)
| ToggleAll
| Rendered (cells : list Cell).

(** An exception leaves the monitor at the boundary of the callback; the
    fields keep what the callback did before. *)
Definition settle (r : (Exn + unit) * St * list Effect) : St * list Effect :=
  (final r, trace r).

Definition react (ev : Event) (s : St) : St * list Effect :=
  match ev with
  | ExecutionStarted m =>
      (set_currentCellTracker (onCellStarted m (currentCellTracker s)) s, [])
  | TrackerReady =>
      (set_currentCellTracker (set_ready (currentCellTracker s)) s, [])
  | ReadyCallback made =>
      match awaitingReady s with
      | S n =>
          if isReady (currentCellTracker s)
          then settle (startComm_then made (set_awaitingReady n s))
          else (s, [])
      | O => (s, [])
      end
  | StatusChanged status =>
      match kernel s with
      | Some _ => settle (onStatusChanged status s)
      | None => (s, [])
      end
  | CellsChanged type oldValues =>
      if hasModel (notebookPanel s)
      then settle (onCellsChanged type oldValues s)
      else (s, [])
  | CommMsg m => settle (handleMessage m s)
  | ToggleAll => settle (toggleAll s)
  | Rendered cells =>
      (set_notebookPanel (set_widgets cells (notebookPanel s)) s, [])
  end.

(** A run: the events in order, from a state. *)
Fixpoint run (evs : list Event) (s : St) : St * list Effect :=
  match evs with
  | [] => (s, [])
  | ev :: rest =>
      let '(s1, t1) := react ev s in
      let '(s2, t2) := run rest s1 in
      (s2, (t1 ++ t2)%list)
  end.

End Shared.

End Monitor.

(** ** The lab extension: src/lab-extension/jupyterlab-sparkmonitor.ts *)

Module Lab.
Import JS Notebook Tracker Effects Monitor.
Local Open Scope js_scope.

Abbreviation St := (State (gmap string bool)).

(** [cellWidgetMap]: which cells have the monitor widget created.  It is
    a plain JavaScript object used as a map from cell identifiers to
    booleans, kept here as the map of its own properties. *)
Definition cellWidgetMap (s : St) : gmap string bool := gate s.

(** [object[key]] on such an object.  Under the key [__proto__] the object
    answers with its prototype, which is not a boolean; under any other
    key it answers with the property written there (a name it only
    inherits is a function, not a boolean either). *)
Definition read_key (object : gmap string bool) (key : string) : option bool :=
  if String.eqb key "__proto__" then None else object !! key.

(** [object[key] = value] for a boolean [value].  Under the key [__proto__]
    the assignment goes to the setter of the prototype, which ignores a
    value that is not an object; under any other key the property is
    written. *)
Definition write_key (key : string) (value : bool) (object : gmap string bool)
  : gmap string bool :=
  if String.eqb key "__proto__" then object else <[key := value]> object.

Definition set_layout (l : list Widget) (c : Cell) : Cell :=
  mkCell (model c) (hasMonitorRoot c) l (outputArea c).

Definition createElementIfNotExists (cellModel : ICellModel) : M St unit :=
  s <- get;;
  match read_key (cellWidgetMap s) (id cellModel) with
  | Some true => ret tt
  | _ =>
      if String.eqb (type cellModel) "code" then
        match find_cell cellModel (widgets (notebookPanel s)) with
        | Some codeCell =>
            if negb (hasMonitorRoot codeCell) then
              emit (react_create (panel_id (notebookPanel s)) (id cellModel));;
              let widget :=
                addClass "spark-monitor-cell-widget"
                  (mkWidget [] (Some (panel_id (notebookPanel s), id cellModel))) in
              let outputWrapperIndex :=
                findIndex (hasClass "jp-Cell-outputWrapper") (layout codeCell) in
              let insertIndex :=
                if outputWrapperIndex >? 0 then outputWrapperIndex - 1 else 2 in
              modify (fun s =>
                set_notebookPanel
                  (set_widgets
                     (alter_cell cellModel
                        (fun c => set_layout (insertWidget insertIndex widget (layout c)) c)
                        (widgets (notebookPanel s)))
                     (notebookPanel s)) s);;
              emit (cell_update cellModel);;
              modify (fun s =>
                set_gate (write_key (id cellModel) true (cellWidgetMap s)) s)
            else ret tt
        | None => ret tt
        end
      else ret tt
  end.

Definition onSparkJobStart (data : JValue) : M St unit :=
  s <- get;;
  match getActiveCell (currentCellTracker s) with
  | None => emit (console_warn "SparkMonitor: Job started with no running cell.")
  | Some cell =>
      createElementIfNotExists (cell_model cell);;
      s <- get;;
      let newExecution :=
        getNumCellsExecuted (currentCellTracker s)
        >? cellExecCountSinceSparkJobStart s in
      (if newExecution then
         modify (fun s =>
           set_cellExecCountSinceSparkJobStart
             (getNumCellsExecuted (currentCellTracker s)) s);;
         emit (store (NotebookStore.onCellExecutedAgain (id (cell_model cell))))
       else ret tt);;
      emit (store (NotebookStore.onSparkJobStart (id (cell_model cell)) data))
  end.

Definition onSparkStageSubmitted (data : JValue) : M St unit :=
  s <- get;;
  match getActiveCell (currentCellTracker s) with
  | None => emit (console_warn "SparkMonitor: Stage started with no running cell.")
  | Some cell =>
      createElementIfNotExists (cell_model cell);;
      emit (store (NotebookStore.onSparkStageSubmitted (id (cell_model cell)) data))
  end.

Definition handleMessage : ICommMsgMsg -> M St unit :=
  Monitor.handleMessage onSparkJobStart onSparkStageSubmitted.

Definition constructor (notebookPanel : NotebookPanel) :=
  Monitor.constructor notebookPanel (∅ : gmap string bool).

Definition react : Event -> St -> St * list Effect :=
  Monitor.react onSparkJobStart onSparkStageSubmitted.

Definition run : list Event -> St -> St * list Effect :=
  Monitor.run onSparkJobStart onSparkStageSubmitted.

End Lab.

(** ** The other revision of the class (the unnamed source file) *)

Module Rev.
Import JS Notebook Tracker Effects Monitor.
Local Open Scope js_scope.

Abbreviation St := (State unit).

Definition set_outputArea (a : option (list Widget)) (c : Cell) : Cell :=
  mkCell (model c) (hasMonitorRoot c) (layout c) a.

Definition createElementIfNotExists (cellModel : ICellModel) : M St unit :=
  s <- get;;
  if String.eqb (type cellModel) "code" then
    match find_cell cellModel (widgets (notebookPanel s)) with
    | Some codeCell =>
        if negb (hasMonitorRoot codeCell) then
          match outputArea codeCell with
          | None => ret tt
          | Some area =>
              match List.find (hasClass "spark-monitor-cell-widget") area with
              | Some _ => ret tt
              | None =>
                  emit (react_create (panel_id (notebookPanel s)) (id cellModel));;
                  let widget :=
                    addClass "spark-monitor-cell-widget"
                      (mkWidget [] (Some (panel_id (notebookPanel s), id cellModel))) in
                  modify (fun s =>
                    set_notebookPanel
                      (set_widgets
                         (alter_cell cellModel
                            (fun c =>
                               set_outputArea
                                 (option_map (insertWidget 0 widget) (outputArea c)) c)
                            (widgets (notebookPanel s)))
                         (notebookPanel s)) s);;
                  emit (cell_update cellModel)
              end
          end
        else ret tt
    | None => ret tt
    end
  else ret tt.

Definition onSparkJobStart (data : JValue) : M St unit :=
  s <- get;;
  match getActiveCell (currentCellTracker s) with
  | None => emit (console_warn "SparkMonitor: Job started with no running cell.")
  | Some cell =>
      let newExecution :=
        getNumCellsExecuted (currentCellTracker s)
        >? cellExecCountSinceSparkJobStart s in
      (if newExecution then
         modify (fun s =>
           set_cellExecCountSinceSparkJobStart
             (getNumCellsExecuted (currentCellTracker s)) s);;
         emit (store (NotebookStore.onCellExecutedAgain (id (cell_model cell))))
       else ret tt);;
      emit (store (NotebookStore.onSparkJobStart (id (cell_model cell)) data));;
      createElementIfNotExists (cell_model cell)
  end.

Definition onSparkStageSubmitted (data : JValue) : M St unit :=
  s <- get;;
  match getActiveCell (currentCellTracker s) with
  | None => emit (console_warn "SparkMonitor: Stage started with no running cell.")
  | Some cell =>
      emit (store (NotebookStore.onSparkStageSubmitted (id (cell_model cell)) data));;
      createElementIfNotExists (cell_model cell)
  end.

Definition handleMessage : ICommMsgMsg -> M St unit :=
  Monitor.handleMessage onSparkJobStart onSparkStageSubmitted.

Definition constructor (notebookPanel : NotebookPanel) :=
  Monitor.constructor notebookPanel tt.

Definition react : Event -> St -> St * list Effect :=
  Monitor.react onSparkJobStart onSparkStageSubmitted.

Definition run : list Event -> St -> St * list Effect :=
  Monitor.run onSparkJobStart onSparkStageSubmitted.

End Rev.

(** * The words of the statements *)

Module Terms.
Import JS Notebook Tracker Effects Monitor.

(** The gate has something to do: the map does not record the cell, the cell
    is a code cell, its widget is in the notebook and shows no monitor
    root. *)
Definition lab_will_create (m : ICellModel) (s : Lab.St) : bool :=
  match Lab.read_key (Lab.cellWidgetMap s) (id m) with
  | Some true => false
  | _ =>
      String.eqb (type m) "code"
      && match find_cell m (widgets (notebookPanel s)) with
         | Some c => negb (hasMonitorRoot c)
         | None => false
         end
  end.

(** The gate has something to do: the cell is a code cell, its widget is in
    the notebook, shows no monitor root, has an output area and no monitor
    widget in it. *)
Definition rev_will_create (m : ICellModel) (s : Rev.St) : bool :=
  String.eqb (type m) "code"
  && match find_cell m (widgets (notebookPanel s)) with
     | Some c =>
         negb (hasMonitorRoot c)
         && match outputArea c with
            | Some area =>
                match List.find (hasClass "spark-monitor-cell-widget") area with
                | Some _ => false
                | None => true
                end
            | None => false
            end
     | None => false
     end.

(** The calls a job start makes on the store: the reset of the cell when
    the count of executions [n] has passed the saved count [k], then the
    event itself. *)
Definition job_start_calls (cellId : string) (data : JValue) (n k : Z)
  : list Effect :=
  ((if n >? k then [store (NotebookStore.onCellExecutedAgain cellId)] else [])
   ++ [store (NotebookStore.onSparkJobStart cellId data)])%list.

(** The kinds of event the switch of [handleMessage] has a case for. *)
Definition recognized : list string :=
  ["sparkJobStart"; "sparkJobEnd"; "sparkStageSubmitted"; "sparkStageCompleted";
   "sparkStageActive"; "sparkTaskStart"; "sparkTaskEnd"; "sparkApplicationStart";
   "sparkApplicationEnd"; "sparkExecutorAdded"; "sparkExecutorRemoved"].

Definition is_recognized (kind : JSVal) : bool :=
  existsb (strict_eq_string kind) recognized.

(** A single case: the event goes to the store as it is. *)
Definition forwards_plainly (t : list Effect) : Prop :=
  t = [] \/ (exists text, t = [console_warn text])
  \/ (exists call, t = [store call]
                   /\ (forall c d, call <> NotebookStore.onSparkJobStart c d)
                   /\ (forall c d, call <> NotebookStore.onSparkStageSubmitted c d)
                   /\ (forall c, call <> NotebookStore.onCellExecutedAgain c)).

(** The job start that moves the saved count. *)
Definition moved_by_job_start {G : Type} (ev : Event) (s s' : State G) : Prop :=
  exists m data cell,
    ev = CommMsg m
    /\ strict_eq_string (msgtype m) "fromscala" = true
    /\ JSON.parse (parse_argument m) = inr data
    /\ get_msgtype data = inr (Some (JString "sparkJobStart"))
    /\ getActiveCell (currentCellTracker s) = Some cell
    /\ getNumCellsExecuted (currentCellTracker s) > cellExecCountSinceSparkJobStart s
    /\ cellExecCountSinceSparkJobStart s' = getNumCellsExecuted (currentCellTracker s).

(** What the map of the lab extension records has been created: for every
    cell the map marks, the history holds the creation of a surface. *)
Definition recorded (hist : list Effect) (s : Lab.St) : Prop :=
  forall k, Lab.read_key (Lab.cellWidgetMap s) k = Some true ->
            (1 <= surfaces_created k hist)%nat.

End Terms.

(** ** A small notebook to run the monitor on *)

Module Sample.
Import JS Notebook Tracker Effects Monitor.

Definition c1 : ICellModel := mkModel 1 "c1" "code".

Definition cell1 : Cell :=
  mkCell c1 false
    [mkWidget ["jp-Cell-header"] None;
     mkWidget ["jp-Cell-inputWrapper"] None;
     mkWidget ["jp-Cell-outputWrapper"] None]
    (Some []).

Definition panel : NotebookPanel :=
  mkPanel "nb" [cell1] true None (Some (Some (mkKernel true false))).

(** The monitor of each revision, just constructed. *)
Definition lab0 : Lab.St := final (Lab.constructor panel).
Definition rev0 : Rev.St := final (Rev.constructor panel).

(** The envelope the backend sends around a payload. *)
Definition fromscala (text : string) : ICommMsgMsg :=
  mkMsg (Some (JString "fromscala")) (Some (JSON.quoted text)).

Definition job_start : ICommMsgMsg :=
  fromscala "{'msgtype':'sparkJobStart','jobId':1}".

Definition job_start_data : JValue :=
  JObject [("msgtype", JString "sparkJobStart"); ("jobId", JNumber 1 0)].

Definition stage_submitted : ICommMsgMsg :=
  fromscala "{'msgtype':'sparkStageSubmitted','stageId':7}".

Definition stage_submitted_data : JValue :=
  JObject [("msgtype", JString "sparkStageSubmitted"); ("stageId", JNumber 7 0)].

Definition application_end : ICommMsgMsg :=
  fromscala "{'msgtype':'sparkApplicationEnd'}".

Definition spark_foo : ICommMsgMsg :=
  fromscala "{'msgtype':'sparkFoo'}".

(** A payload cut short on the wire. *)
Definition truncated : ICommMsgMsg :=
  fromscala "{'msgtype':'sparkJobStart','jobId'".

(** An envelope of another sender. *)
Definition fromjava : ICommMsgMsg :=
  mkMsg (Some (JString "fromjava")) (Some (JSON.quoted "{'msgtype':'sparkJobStart'}")).

(** An envelope without a discriminant. *)
Definition untagged : ICommMsgMsg :=
  mkMsg None (Some (JSON.quoted "{'msgtype':'sparkJobStart'}")).

(** The first cell runs, a job of it starts: the saved count is 1. *)
Definition lab1 : Lab.St :=
  fst (Lab.run [ExecutionStarted c1; CommMsg job_start] lab0).
Definition rev1 : Rev.St :=
  fst (Rev.run [ExecutionStarted c1; CommMsg job_start] rev0).

(** The cell runs twice more: the count of executions is 3. *)
Definition lab3 : Lab.St :=
  fst (Lab.run [ExecutionStarted c1; ExecutionStarted c1] lab1).
Definition rev3 : Rev.St :=
  fst (Rev.run [ExecutionStarted c1; ExecutionStarted c1] rev1).

(** The first cell runs, nothing has come from the backend yet. *)
Definition lab_running : Lab.St := fst (Lab.run [ExecutionStarted c1] lab0).
Definition rev_running : Rev.St := fst (Rev.run [ExecutionStarted c1] rev0).

(** The tracker is ready and the first channel, number 1, is open. *)
Definition lab_open : Lab.St :=
  fst (Lab.run [TrackerReady; ReadyCallback (Some 1%nat)] lab0).
Definition rev_open : Rev.St :=
  fst (Rev.run [TrackerReady; ReadyCallback (Some 1%nat)] rev0).

End Sample.

(** ** More words, for the rest of the class *)

Module Words.
Import JS Notebook Tracker Effects Monitor.

(** The kinds [handleMessage] hands to the store as they are, each with
    the method of the store that receives it. *)
Definition plain_kinds : list (string * (JValue -> NotebookStore.Call)) :=
  [("sparkJobEnd", NotebookStore.onSparkJobEnd);
   ("sparkStageCompleted", NotebookStore.onSparkStageCompleted);
   ("sparkStageActive", NotebookStore.onSparkStageActive);
   ("sparkTaskStart", NotebookStore.onSparkTaskStart);
   ("sparkTaskEnd", NotebookStore.onSparkTaskEnd);
   ("sparkApplicationStart", NotebookStore.onSparkApplicationStart);
   ("sparkExecutorAdded", NotebookStore.onSparkExecutorAdded);
   ("sparkExecutorRemoved", NotebookStore.onSparkExecutorRemoved)].

(** The cell a call of the dispatcher is tagged with, for the three calls
    that carry one. *)
Definition cell_tag (call : NotebookStore.Call) : option string :=
  match call with
  | NotebookStore.onCellExecutedAgain c => Some c
  | NotebookStore.onSparkJobStart c _ => Some c
  | NotebookStore.onSparkStageSubmitted c _ => Some c
  | _ => None
  end.

Definition is_open (e : Effect) : bool :=
  match e with comm_open _ _ => true | _ => false end.

(** The fields no handler of a message touches. *)
Definition same_outside {G : Type} (s s' : State G) : Prop :=
  currentCellTracker s' = currentCellTracker s
  /\ kernel s' = kernel s
  /\ comm s' = comm s
  /\ awaitingReady s' = awaitingReady s.

(** The widget the gate makes for a cell. *)
Definition monitor_widget (notebookId cellId : string) : Widget :=
  mkWidget ["spark-monitor-cell-widget"] (Some (notebookId, cellId)).

(** The map of the lab extension marks the cell [k]. *)
Definition marked (s : Lab.St) (k : string) : bool :=
  match Lab.read_key (Lab.cellWidgetMap s) k with
  | Some true => true
  | _ => false
  end.

(** The removed cells that are defined, in order. *)
Definition removed_calls (oldValues : list (option ICellModel)) : list Effect :=
  map (fun c => store (NotebookStore.onCellRemoved (id c))) (omap (fun c => c) oldValues).

(** An effect of the channel manager: an open message or a log line. *)
Definition is_channel (e : Effect) : bool :=
  match e with
  | comm_open _ _ => true
  | console_log _ => true
  | _ => false
  end.

Definition is_tracker_ready (ev : Event) : bool :=
  match ev with TrackerReady => true | _ => false end.

Definition is_established (e : Effect) : bool :=
  match e with
  | console_log text =>
      String.eqb text "SparkMonitor: Connection with comms established"
  | _ => false
  end.

(** A call that carries a cell carries the active one. *)
Definition tagged_right {G : Type} (s : State G) (calls : list NotebookStore.Call)
  : Prop :=
  forall call c,
    In call calls -> cell_tag call = Some c ->
    exists cell, getActiveCell (currentCellTracker s) = Some cell
                 /\ c = id (cell_model cell).

(** The saved count has caught up with the count of executions. *)
Definition caught_up {G : Type} (s : State G) : Prop :=
  getNumCellsExecuted (currentCellTracker s) <= cellExecCountSinceSparkJobStart s.

Definition is_reset (e : Effect) : bool :=
  match e with
  | store (NotebookStore.onCellExecutedAgain _) => true
  | _ => false
  end.

Definition is_execution_started (ev : Event) : bool :=
  match ev with ExecutionStarted _ => true | _ => false end.

(** The history holds one creation for each cell the map marks, and none
    for the others; the key [__proto__], which the map cannot hold, is left
    aside. *)
Definition exactly_recorded (hist : list Effect) (s : Lab.St) : Prop :=
  forall k, k <> "__proto__" ->
    surfaces_created k hist = if marked s k then 1%nat else 0%nat.

End Words.

(** ** A notebook with a cell called [__proto__] *)

Module Prototype.
Import JS Notebook Tracker Effects Monitor.

(** A code cell whose identifier is a name every JavaScript object has. *)
Definition cp : ICellModel := mkModel 3 "__proto__" "code".

Definition cellp : Cell :=
  mkCell cp false
    [mkWidget ["jp-Cell-header"] None;
     mkWidget ["jp-Cell-inputWrapper"] None;
     mkWidget ["jp-Cell-outputWrapper"] None]
    (Some []).

Definition panel : NotebookPanel :=
  mkPanel "nb" [cellp] true None (Some (Some (mkKernel true false))).

(** The cell runs, nothing has come from the backend yet. *)
Definition lab_running : Lab.St :=
  fst (Lab.run [ExecutionStarted cp] (final (Lab.constructor panel))).
Definition rev_running : Rev.St :=
  fst (Rev.run [ExecutionStarted cp] (final (Rev.constructor panel))).

End Prototype.

(** * Properties *)

(** ** The parser and the sample at work *)

Module JSONTests.
Import JS JSON.

Example parse_job_start :
  parse (quoted "{'msgtype':'sparkJobStart','jobId':1}")
  = inr (JObject [("msgtype", JString "sparkJobStart"); ("jobId", JNumber 1 0)]).
Proof. reflexivity. Qed.

Example parse_nested :
  parse (quoted " [1.50e+2, -0, true ,null, {'a' : [ ], 'b':{}} , 'A\n'] ")
  = inr (JArray [JNumber 150 0; JNumber 0 0; JBool true; JNull;
                 JObject [("a", JArray []); ("b", JObject [])];
                 JString (String "A" (String "010" ""))]).
Proof. reflexivity. Qed.

Example parse_rejects :
  map parse
    [""; "{"; quoted "{'msgtype'"; "undefined"; "01"; "1."; "[1,]"; "{,}";
     quoted "{'a':1,}"; quoted "'abc"; "nul"; "1 2"; quoted "{'a' 1}"; "]";
     quoted "{1:2}"; "-"; "1e"; "+1"; ".5"; quoted "'\x41'"; "tru e"]
  = repeat (inl SyntaxError) 21.
Proof. reflexivity. Qed.

Example parse_null : parse "null" = inr JNull.
Proof. reflexivity. Qed.

Example parse_escapes :
  parse (quoted "{'msgtype':'\u0073park\u004Aob\/Start'}")
  = inr (JObject [("msgtype", JString "sparkJob/Start")]).
Proof. reflexivity. Qed.

Example parse_last_member_wins :
  match parse (quoted "{'msgtype':'a','msgtype':'b'}") with
  | inr v => get_msgtype v
  | inl e => inl e
  end = inr (Some (JString "b")).
Proof. reflexivity. Qed.

End JSONTests.

Module SampleTests.
Import JS Notebook Tracker Effects Monitor Sample.

Example lab_open_comm : comm lab_open = Some (mkComm 1 true true).
Proof. reflexivity. Qed.

Example lab1_counts :
  (getNumCellsExecuted (currentCellTracker lab1),
   cellExecCountSinceSparkJobStart lab1) = (1, 1).
Proof. reflexivity. Qed.

Example lab3_counts :
  (getNumCellsExecuted (currentCellTracker lab3),
   cellExecCountSinceSparkJobStart lab3) = (3, 1).
Proof. reflexivity. Qed.

Example rev3_counts :
  (getNumCellsExecuted (currentCellTracker rev3),
   cellExecCountSinceSparkJobStart rev3) = (3, 1).
Proof. reflexivity. Qed.

End SampleTests.

(** ** The notebook *)

Module NotebookFacts.
Import Notebook.

Lemma find_alter_cell (m : ICellModel) (f : Cell -> Cell) (l : list Cell) (c : Cell) :
  (forall w, model (f w) = model w) ->
  find_cell m l = Some c ->
  find_cell m (alter_cell m f l) = Some (f c).
Proof.
  intros Hf. unfold find_cell.
  induction l as [|w rest IH]; simpl; [discriminate|].
  destruct (same_object (model w) m) eqn:E; simpl.
  - intros [= <-]. now rewrite Hf, E.
  - rewrite E. exact IH.
Qed.

Lemma alter_cell_none (m : ICellModel) (f : Cell -> Cell) (l : list Cell) :
  find_cell m l = None -> alter_cell m f l = l.
Proof.
  unfold find_cell.
  induction l as [|w rest IH]; simpl; [reflexivity|].
  destruct (same_object (model w) m); [discriminate|].
  intros H. now rewrite IH.
Qed.

Lemma hasClass_addClass (name : string) (w : Widget) :
  hasClass name (addClass name w) = true.
Proof.
  unfold addClass. destruct (hasClass name w) eqn:E; [exact E|].
  unfold hasClass. simpl. rewrite existsb_app. simpl.
  rewrite String.eqb_refl. now rewrite orb_true_r.
Qed.

Lemma find_insert_front (p : Widget -> bool) (w : Widget) (l : list Widget) :
  p w = true -> List.find p (insertWidget 0 w l) = Some w.
Proof.
  intros H. unfold insertWidget.
  replace (Z.to_nat (Z.max 0 (Z.min 0 (Z.of_nat (length l))))) with 0%nat by lia.
  simpl. now rewrite H.
Qed.

End NotebookFacts.

(** ** The presentation gate of the lab extension *)

Module LabGate.
Import JS Notebook Tracker Effects Monitor NotebookFacts Terms.

Lemma read_write_eq (k : string) (v : bool) (o : gmap string bool) :
  k <> "__proto__" -> Lab.read_key (Lab.write_key k v o) k = Some v.
Proof.
  intros H. apply String.eqb_neq in H. unfold Lab.read_key, Lab.write_key.
  rewrite H. apply lookup_insert_eq.
Qed.

Lemma read_write_ne (k k' : string) (v : bool) (o : gmap string bool) :
  k <> k' -> Lab.read_key (Lab.write_key k v o) k' = Lab.read_key o k'.
Proof.
  intros H. unfold Lab.read_key, Lab.write_key.
  destruct (String.eqb k' "__proto__"); [reflexivity|].
  destruct (String.eqb k "__proto__"); [reflexivity|].
  now apply lookup_insert_ne.
Qed.

Lemma read_write_prototype (v : bool) (o : gmap string bool) :
  Lab.read_key (Lab.write_key "__proto__" v o) "__proto__" = None.
Proof. reflexivity. Qed.

Ltac run_gate :=
  unfold Lab.createElementIfNotExists, lab_will_create, bind, get, emit, modify,
    ret, outcome, final, trace; simpl.

Ltac gate_cases m s :=
  destruct (Lab.read_key (Lab.cellWidgetMap s) (id m)) as [[|]|];
  simpl;
  destruct (String.eqb (type m) "code");
  simpl;
  destruct (find_cell m (widgets (notebookPanel s))) as [c|];
  simpl;
  try destruct (hasMonitorRoot c);
  simpl.

Lemma lab_gate_returns (m : ICellModel) (s : Lab.St) :
  outcome (Lab.createElementIfNotExists m s) = inr tt.
Proof. run_gate. gate_cases m s; reflexivity. Qed.

Lemma lab_gate_trace (m : ICellModel) (s : Lab.St) :
  trace (Lab.createElementIfNotExists m s)
  = if lab_will_create m s
    then [react_create (panel_id (notebookPanel s)) (id m); cell_update m]
    else [].
Proof. run_gate. gate_cases m s; reflexivity. Qed.

Lemma lab_gate_noop (m : ICellModel) (s : Lab.St) :
  lab_will_create m s = false ->
  Lab.createElementIfNotExists m s = (inr tt, s, []).
Proof. run_gate. gate_cases m s; intros H; try discriminate H; reflexivity. Qed.

(** What the gate leaves in the map. *)
Lemma lab_gate_map (m : ICellModel) (s : Lab.St) :
  Lab.cellWidgetMap (final (Lab.createElementIfNotExists m s))
  = if lab_will_create m s
    then Lab.write_key (id m) true (Lab.cellWidgetMap s)
    else Lab.cellWidgetMap s.
Proof. run_gate. gate_cases m s; reflexivity. Qed.

Lemma lab_gate_records (m : ICellModel) (s : Lab.St) :
  id m <> "__proto__" ->
  lab_will_create m s = true ->
  Lab.read_key (Lab.cellWidgetMap (final (Lab.createElementIfNotExists m s))) (id m)
  = Some true.
Proof.
  intros Hid W. rewrite lab_gate_map, W. now apply read_write_eq.
Qed.

Lemma lab_gate_keeps_map (m : ICellModel) (s : Lab.St) (k : string) :
  Lab.read_key (Lab.cellWidgetMap s) k = Some true ->
  Lab.read_key (Lab.cellWidgetMap (final (Lab.createElementIfNotExists m s))) k
  = Some true.
Proof.
  intros Hk. rewrite lab_gate_map. destruct (lab_will_create m s); [|exact Hk].
  destruct (decide (id m = k)) as [<-|Hne].
  - apply read_write_eq. intros E. rewrite E in Hk. discriminate Hk.
  - now rewrite read_write_ne.
Qed.

Lemma lab_gate_settled (m : ICellModel) (s : Lab.St) :
  id m <> "__proto__" ->
  lab_will_create m (final (Lab.createElementIfNotExists m s)) = false.
Proof.
  intros Hid. destruct (lab_will_create m s) eqn:E.
  - unfold lab_will_create at 1. now rewrite (lab_gate_records m s Hid E).
  - now rewrite (lab_gate_noop m s E).
Qed.

(** The gate touches the widgets of the notebook and its own map, nothing
    else. *)
Lemma lab_gate_frame (m : ICellModel) (s : Lab.St) :
  let s' := final (Lab.createElementIfNotExists m s) in
  currentCellTracker s' = currentCellTracker s
  /\ cellExecCountSinceSparkJobStart s' = cellExecCountSinceSparkJobStart s
  /\ kernel s' = kernel s
  /\ comm s' = comm s
  /\ awaitingReady s' = awaitingReady s
  /\ panel_id (notebookPanel s') = panel_id (notebookPanel s)
  /\ hasModel (notebookPanel s') = hasModel (notebookPanel s).
Proof. run_gate. gate_cases m s; repeat split; reflexivity. Qed.

End LabGate.

(** ** The presentation gate of the other revision *)

Module RevGate.
Import JS Notebook Tracker Effects Monitor NotebookFacts Terms.


Ltac run_gate :=
  unfold Rev.createElementIfNotExists, rev_will_create, bind, get, emit, modify,
    ret, outcome, final, trace; simpl.

Ltac gate_cases m s :=
  destruct (String.eqb (type m) "code");
  simpl;
  destruct (find_cell m (widgets (notebookPanel s))) as [c|];
  simpl;
  try destruct (hasMonitorRoot c);
  simpl;
  try destruct (outputArea c);
  simpl;
  try match goal with
      | |- context [List.find ?p ?a] => destruct (List.find p a)
      end;
  simpl.

Lemma rev_gate_returns (m : ICellModel) (s : Rev.St) :
  outcome (Rev.createElementIfNotExists m s) = inr tt.
Proof. run_gate. gate_cases m s; reflexivity. Qed.

Lemma rev_gate_trace (m : ICellModel) (s : Rev.St) :
  trace (Rev.createElementIfNotExists m s)
  = if rev_will_create m s
    then [react_create (panel_id (notebookPanel s)) (id m); cell_update m]
    else [].
Proof. run_gate. gate_cases m s; reflexivity. Qed.

Lemma rev_gate_noop (m : ICellModel) (s : Rev.St) :
  rev_will_create m s = false ->
  Rev.createElementIfNotExists m s = (inr tt, s, []).
Proof. run_gate. gate_cases m s; intros H; try discriminate H; reflexivity. Qed.

Lemma rev_gate_settled (m : ICellModel) (s : Rev.St) :
  rev_will_create m (final (Rev.createElementIfNotExists m s)) = false.
Proof.
  destruct (rev_will_create m s) eqn:E; [|now rewrite (rev_gate_noop m s E)].
  revert E. run_gate.
  destruct (String.eqb (type m) "code"); simpl; [|discriminate].
  destruct (find_cell m (widgets (notebookPanel s))) as [c|] eqn:Hc;
    simpl; [|discriminate].
  destruct (hasMonitorRoot c) eqn:Hroot; simpl; [discriminate|].
  destruct (outputArea c) as [area|] eqn:Harea; simpl; [|discriminate].
  destruct (List.find (hasClass "spark-monitor-cell-widget") area) eqn:Hw;
    simpl; [discriminate|].
  intros _.
  erewrite find_alter_cell; [|reflexivity|exact Hc].
  simpl. rewrite Hroot, Harea. simpl.
  rewrite find_insert_front; [reflexivity|].
  apply hasClass_addClass.
Qed.

(** The gate touches the widgets of the notebook, nothing else. *)
Lemma rev_gate_frame (m : ICellModel) (s : Rev.St) :
  let s' := final (Rev.createElementIfNotExists m s) in
  currentCellTracker s' = currentCellTracker s
  /\ cellExecCountSinceSparkJobStart s' = cellExecCountSinceSparkJobStart s
  /\ kernel s' = kernel s
  /\ comm s' = comm s
  /\ awaitingReady s' = awaitingReady s
  /\ panel_id (notebookPanel s') = panel_id (notebookPanel s)
  /\ hasModel (notebookPanel s') = hasModel (notebookPanel s).
Proof. run_gate. gate_cases m s; repeat split; reflexivity. Qed.

End RevGate.

(** ** The two correlated handlers *)

Module Handlers.
Import JS Notebook Tracker Effects Monitor Terms.


Ltac run_handler :=
  unfold bind, get, emit, modify, ret, getActiveCell, getNumCellsExecuted;
  simpl.

Lemma lab_job_start (data : JValue) (s : Lab.St) (cell : ActiveCell) :
  getActiveCell (currentCellTracker s) = Some cell ->
  let g := Lab.createElementIfNotExists (cell_model cell) s in
  let n := getNumCellsExecuted (currentCellTracker s) in
  let k := cellExecCountSinceSparkJobStart s in
  Lab.onSparkJobStart data s
  = (inr tt,
     if n >? k then set_cellExecCountSinceSparkJobStart n (final g) else final g,
     (trace g ++ job_start_calls (id (cell_model cell)) data n k)%list).
Proof.
  intros H. unfold Lab.onSparkJobStart, job_start_calls. run_handler.
  unfold getActiveCell in H. rewrite H.
  pose proof (LabGate.lab_gate_returns (cell_model cell) s) as Ho.
  pose proof (LabGate.lab_gate_frame (cell_model cell) s) as (Ht & Hk & _).
  destruct (Lab.createElementIfNotExists (cell_model cell) s) as [[o s1] t1].
  unfold outcome, final, trace in *. simpl in *. subst o.
  rewrite Ht, Hk.
  destruct (numCellsExecuted (currentCellTracker s)
            >? cellExecCountSinceSparkJobStart s); simpl.
  - rewrite Ht. reflexivity.
  - reflexivity.
Qed.

Lemma lab_stage_submitted (data : JValue) (s : Lab.St) (cell : ActiveCell) :
  getActiveCell (currentCellTracker s) = Some cell ->
  let g := Lab.createElementIfNotExists (cell_model cell) s in
  Lab.onSparkStageSubmitted data s
  = (inr tt, final g,
     (trace g
      ++ [store (NotebookStore.onSparkStageSubmitted (id (cell_model cell)) data)])%list).
Proof.
  intros H. unfold Lab.onSparkStageSubmitted. run_handler.
  unfold getActiveCell in H. rewrite H.
  pose proof (LabGate.lab_gate_returns (cell_model cell) s) as Ho.
  destruct (Lab.createElementIfNotExists (cell_model cell) s) as [[o s1] t1].
  unfold outcome, final, trace in *. simpl in *. subst o. reflexivity.
Qed.

Lemma rev_job_start (data : JValue) (s : Rev.St) (cell : ActiveCell) :
  getActiveCell (currentCellTracker s) = Some cell ->
  let n := getNumCellsExecuted (currentCellTracker s) in
  let k := cellExecCountSinceSparkJobStart s in
  let s1 := if n >? k then set_cellExecCountSinceSparkJobStart n s else s in
  let g := Rev.createElementIfNotExists (cell_model cell) s1 in
  Rev.onSparkJobStart data s
  = (inr tt, final g,
     (job_start_calls (id (cell_model cell)) data n k ++ trace g)%list).
Proof.
  intros H. unfold Rev.onSparkJobStart, job_start_calls. run_handler.
  unfold getActiveCell in H. rewrite H.
  destruct (numCellsExecuted (currentCellTracker s)
            >? cellExecCountSinceSparkJobStart s); simpl.
  - pose proof (RevGate.rev_gate_returns (cell_model cell)
                  (set_cellExecCountSinceSparkJobStart
                     (numCellsExecuted (currentCellTracker s)) s)) as Ho.
    destruct (Rev.createElementIfNotExists _ _) as [[o s1] t1].
    unfold outcome, final, trace in *. simpl in *. subst o. reflexivity.
  - pose proof (RevGate.rev_gate_returns (cell_model cell) s) as Ho.
    destruct (Rev.createElementIfNotExists _ _) as [[o s1] t1].
    unfold outcome, final, trace in *. simpl in *. subst o. reflexivity.
Qed.

Lemma rev_stage_submitted (data : JValue) (s : Rev.St) (cell : ActiveCell) :
  getActiveCell (currentCellTracker s) = Some cell ->
  let g := Rev.createElementIfNotExists (cell_model cell) s in
  Rev.onSparkStageSubmitted data s
  = (inr tt, final g,
     (store (NotebookStore.onSparkStageSubmitted (id (cell_model cell)) data)
      :: trace g)%list).
Proof.
  intros H. unfold Rev.onSparkStageSubmitted. run_handler.
  unfold getActiveCell in H. rewrite H.
  pose proof (RevGate.rev_gate_returns (cell_model cell) s) as Ho.
  destruct (Rev.createElementIfNotExists (cell_model cell) s) as [[o s1] t1].
  unfold outcome, final, trace in *. simpl in *. subst o. reflexivity.
Qed.

(** No active cell: the warning, and nothing else. *)
Lemma lab_job_start_absent (data : JValue) (s : Lab.St) :
  getActiveCell (currentCellTracker s) = None ->
  Lab.onSparkJobStart data s
  = (inr tt, s, [console_warn "SparkMonitor: Job started with no running cell."]).
Proof.
  intros H. unfold Lab.onSparkJobStart. run_handler.
  unfold getActiveCell in H. now rewrite H.
Qed.

Lemma lab_stage_submitted_absent (data : JValue) (s : Lab.St) :
  getActiveCell (currentCellTracker s) = None ->
  Lab.onSparkStageSubmitted data s
  = (inr tt, s, [console_warn "SparkMonitor: Stage started with no running cell."]).
Proof.
  intros H. unfold Lab.onSparkStageSubmitted. run_handler.
  unfold getActiveCell in H. now rewrite H.
Qed.

Lemma rev_job_start_absent (data : JValue) (s : Rev.St) :
  getActiveCell (currentCellTracker s) = None ->
  Rev.onSparkJobStart data s
  = (inr tt, s, [console_warn "SparkMonitor: Job started with no running cell."]).
Proof.
  intros H. unfold Rev.onSparkJobStart. run_handler.
  unfold getActiveCell in H. now rewrite H.
Qed.

Lemma rev_stage_submitted_absent (data : JValue) (s : Rev.St) :
  getActiveCell (currentCellTracker s) = None ->
  Rev.onSparkStageSubmitted data s
  = (inr tt, s, [console_warn "SparkMonitor: Stage started with no running cell."]).
Proof.
  intros H. unfold Rev.onSparkStageSubmitted. run_handler.
  unfold getActiveCell in H. now rewrite H.
Qed.

End Handlers.

(** ** The dispatcher *)

Module Dispatch.
Import JS Notebook Tracker Effects Monitor Terms.


Lemma strict_eq_string_true (v : JSVal) (lit : string) :
  strict_eq_string v lit = true <-> v = Some (JString lit).
Proof.
  split.
  - destruct v as [[| | | s | |]|]; simpl; try discriminate.
    intros H. apply String.eqb_eq in H. now subst.
  - intros ->. simpl. apply String.eqb_refl.
Qed.

Lemma fromscala_truthy (v : JSVal) :
  strict_eq_string v "fromscala" = true -> truthy v = true.
Proof. intros H. apply strict_eq_string_true in H. now subst. Qed.

Section Generic.
Context {G : Type}.
Variable onSparkJobStart : JValue -> M (State G) unit.
Variable onSparkStageSubmitted : JValue -> M (State G) unit.
Local Abbreviation handle :=
  (Monitor.handleMessage onSparkJobStart onSparkStageSubmitted).

Ltac run_dispatch := unfold Monitor.handleMessage, bind, lift, emit, ret; simpl.

(** Another envelope: nothing but, for a falsy discriminant, the warning. *)
Lemma other_envelope (m : ICommMsgMsg) (s : State G) :
  strict_eq_string (msgtype m) "fromscala" = false ->
  handle m s
  = (inr tt, s,
     if truthy (msgtype m) then []
     else [console_warn "SparkMonitor: Unknown message"]).
Proof.
  intros H. run_dispatch. rewrite H.
  destruct (truthy (msgtype m)); reflexivity.
Qed.

(** [JSON.parse] throws: the exception leaves [handleMessage]. *)
Lemma parse_throws (m : ICommMsgMsg) (s : State G) (e : Exn) :
  strict_eq_string (msgtype m) "fromscala" = true ->
  JSON.parse (parse_argument m) = inl e ->
  handle m s = (inl e, s, []).
Proof.
  intros H P. run_dispatch. rewrite H, (fromscala_truthy _ H), P. reflexivity.
Qed.

(** The payload is [null]: reading its [msgtype] throws. *)
Lemma kind_throws (m : ICommMsgMsg) (s : State G) (data : JValue) (e : Exn) :
  strict_eq_string (msgtype m) "fromscala" = true ->
  JSON.parse (parse_argument m) = inr data ->
  get_msgtype data = inl e ->
  handle m s = (inl e, s, []).
Proof.
  intros H P K. run_dispatch.
  rewrite H, (fromscala_truthy _ H), P. simpl. rewrite K. reflexivity.
Qed.

Lemma job_start_case (m : ICommMsgMsg) (s : State G) (data : JValue) :
  strict_eq_string (msgtype m) "fromscala" = true ->
  JSON.parse (parse_argument m) = inr data ->
  get_msgtype data = inr (Some (JString "sparkJobStart")) ->
  handle m s = onSparkJobStart data s.
Proof.
  intros H P K. run_dispatch.
  rewrite H, (fromscala_truthy _ H), P. simpl. rewrite K. simpl.
  destruct (onSparkJobStart data s) as [[[e|[]] s1] t1]; reflexivity.
Qed.

Lemma stage_submitted_case (m : ICommMsgMsg) (s : State G) (data : JValue) :
  strict_eq_string (msgtype m) "fromscala" = true ->
  JSON.parse (parse_argument m) = inr data ->
  get_msgtype data = inr (Some (JString "sparkStageSubmitted")) ->
  handle m s = onSparkStageSubmitted data s.
Proof.
  intros H P K. run_dispatch.
  rewrite H, (fromscala_truthy _ H), P. simpl. rewrite K. simpl.
  destruct (onSparkStageSubmitted data s) as [[[e|[]] s1] t1]; reflexivity.
Qed.

Lemma application_end_case (m : ICommMsgMsg) (s : State G) (data : JValue) :
  strict_eq_string (msgtype m) "fromscala" = true ->
  JSON.parse (parse_argument m) = inr data ->
  get_msgtype data = inr (Some (JString "sparkApplicationEnd")) ->
  handle m s = (inr tt, s, []).
Proof.
  intros H P K. run_dispatch.
  rewrite H, (fromscala_truthy _ H), P. simpl. rewrite K. reflexivity.
Qed.

Lemma unrecognized_case (m : ICommMsgMsg) (s : State G) (data : JValue)
  (kind : JSVal) :
  strict_eq_string (msgtype m) "fromscala" = true ->
  JSON.parse (parse_argument m) = inr data ->
  get_msgtype data = inr kind ->
  is_recognized kind = false ->
  handle m s = (inr tt, s, [console_warn "SparkMonitor: Unknown message"]).
Proof.
  intros H P K U. run_dispatch.
  rewrite H, (fromscala_truthy _ H), P. simpl. rewrite K. simpl.
  unfold is_recognized, recognized in U. simpl in U.
  repeat (apply orb_false_elim in U; destruct U as [E U]; rewrite E; clear E).
  reflexivity.
Qed.


(** Every message falls in one of three classes: it leaves the fields as
    they are, or it is a job start, or it is a submitted stage, handed with
    its payload to the handler of that name. *)
Lemma handle_cases (m : ICommMsgMsg) (s : State G) :
  (exists o t, handle m s = (o, s, t) /\ forwards_plainly t)
  \/ (exists data,
        strict_eq_string (msgtype m) "fromscala" = true
        /\ JSON.parse (parse_argument m) = inr data
        /\ get_msgtype data = inr (Some (JString "sparkJobStart"))
        /\ handle m s = onSparkJobStart data s)
  \/ (exists data,
        strict_eq_string (msgtype m) "fromscala" = true
        /\ JSON.parse (parse_argument m) = inr data
        /\ get_msgtype data = inr (Some (JString "sparkStageSubmitted"))
        /\ handle m s = onSparkStageSubmitted data s).
Proof.
  destruct (strict_eq_string (msgtype m) "fromscala") eqn:H.
  2:{ left. rewrite (other_envelope m s H). do 2 eexists. split; [reflexivity|].
      destruct (truthy (msgtype m)); [now left | right; left; eauto]. }
  destruct (JSON.parse (parse_argument m)) as [e|data] eqn:P.
  { left. rewrite (parse_throws m s e H P). do 2 eexists.
    split; [reflexivity | now left]. }
  destruct (get_msgtype data) as [e|kind] eqn:K.
  { left. rewrite (kind_throws m s data e H P K). do 2 eexists.
    split; [reflexivity | now left]. }
  destruct (strict_eq_string kind "sparkJobStart") eqn:E1.
  { apply strict_eq_string_true in E1. subst kind.
    right; left. exists data. repeat split; try assumption.
    now apply job_start_case. }
  destruct (strict_eq_string kind "sparkStageSubmitted") eqn:E3.
  { apply strict_eq_string_true in E3. subst kind.
    right; right. exists data. repeat split; try assumption.
    now apply stage_submitted_case. }
  left. run_dispatch. rewrite H, (fromscala_truthy _ H), P. simpl.
  rewrite K. simpl. rewrite E1, E3.
  repeat match goal with
         | |- context [if strict_eq_string kind ?l then _ else _] =>
             destruct (strict_eq_string kind l)
         end;
    simpl; do 2 eexists; (split; [reflexivity|]);
    first [ now left
          | right; left; eexists; reflexivity
          | right; right; eexists; split; [reflexivity|];
            repeat split; intros; discriminate ].
Qed.

End Generic.

End Dispatch.


Import JS Notebook Tracker Effects Monitor.

(** ** Messages that go nowhere *)

(** C7, as the code has it.  A message whose top-level discriminant is not
    ['fromscala'] is discarded: [handleMessage] returns normally, leaves
    every field as it was, calls nothing on the store, and does not look at
    the inner payload (the result is the same whatever [msg] holds).  The
    warning is logged exactly when the discriminant is missing or falsy;
    for any other discriminant nothing is logged. *)
Theorem envelope_filter (m : ICommMsgMsg) (s : Lab.St) (r : Rev.St) :
  strict_eq_string (msgtype m) "fromscala" = false ->
  let quiet := if truthy (msgtype m) then []
               else [console_warn "SparkMonitor: Unknown message"] in
  Lab.handleMessage m s = (inr tt, s, quiet)
  /\ Rev.handleMessage m r = (inr tt, r, quiet).
Proof.
  intros H quiet. split; apply Dispatch.other_envelope; exact H.
Qed.

Lemma envelope_filter_witness :
  strict_eq_string (msgtype Sample.untagged) "fromscala" = false
  /\ Lab.handleMessage Sample.untagged Sample.lab0
     = (inr tt, Sample.lab0, [console_warn "SparkMonitor: Unknown message"])
  /\ Rev.handleMessage Sample.untagged Sample.rev0
     = (inr tt, Sample.rev0, [console_warn "SparkMonitor: Unknown message"]).
Proof.
  split; [reflexivity|].
  exact (envelope_filter Sample.untagged Sample.lab0 Sample.rev0 eq_refl).
Defined.

(** C7 as stated fails: the envelope of another sender has a discriminant
    that is not ['fromscala'], and no warning is logged for it. *)
Lemma envelope_filter_silent :
  strict_eq_string (msgtype Sample.fromjava) "fromscala" = false
  /\ existsb is_warn (trace (Lab.handleMessage Sample.fromjava Sample.lab0)) = false
  /\ existsb is_warn (trace (Rev.handleMessage Sample.fromjava Sample.rev0)) = false.
Proof. repeat split. Qed.

(** C3, as the code has it.  When the envelope is ['fromscala'] and the
    inner payload is not valid JSON, [handleMessage] calls nothing on the
    store, logs nothing and changes no field, and the [SyntaxError] of
    [JSON.parse] leaves [handleMessage] towards its caller. *)
Theorem malformed_payload_throws (m : ICommMsgMsg) (s : Lab.St) (r : Rev.St) :
  strict_eq_string (msgtype m) "fromscala" = true ->
  JSON.parse (parse_argument m) = inl SyntaxError ->
  Lab.handleMessage m s = (inl SyntaxError, s, [])
  /\ Rev.handleMessage m r = (inl SyntaxError, r, []).
Proof.
  intros H P. split; apply Dispatch.parse_throws; assumption.
Qed.

Lemma malformed_payload_throws_witness :
  strict_eq_string (msgtype Sample.truncated) "fromscala" = true
  /\ JSON.parse (parse_argument Sample.truncated) = inl SyntaxError
  /\ Lab.handleMessage Sample.truncated Sample.lab0
     = (inl SyntaxError, Sample.lab0, [])
  /\ Rev.handleMessage Sample.truncated Sample.rev0
     = (inl SyntaxError, Sample.rev0, []).
Proof.
  split; [reflexivity|]. split; [reflexivity|].
  exact (malformed_payload_throws Sample.truncated Sample.lab0 Sample.rev0
           eq_refl eq_refl).
Defined.

(** C3 as stated fails: the payload cut short is not valid JSON, and the
    exception crosses [handleMessage]. *)
Lemma malformed_payload_escapes :
  strict_eq_string (msgtype Sample.truncated) "fromscala" = true
  /\ JSON.parse (parse_argument Sample.truncated) = inl SyntaxError
  /\ outcome (Lab.handleMessage Sample.truncated Sample.lab0) = inl SyntaxError
  /\ outcome (Rev.handleMessage Sample.truncated Sample.rev0) = inl SyntaxError.
Proof. repeat split. Qed.

(** C6.  When the envelope is ['fromscala'] and the discriminant of the
    decoded payload is ['sparkApplicationEnd'] or is none of the recognized
    kinds, [handleMessage] returns normally, calls nothing on the store and
    changes no field; it logs the warning when the kind is not recognized,
    and nothing for ['sparkApplicationEnd']. *)
Theorem unforwarded_kinds (m : ICommMsgMsg) (data : JValue) (kind : JSVal)
  (s : Lab.St) (r : Rev.St) :
  strict_eq_string (msgtype m) "fromscala" = true ->
  JSON.parse (parse_argument m) = inr data ->
  get_msgtype data = inr kind ->
  kind = Some (JString "sparkApplicationEnd")
  \/ Terms.is_recognized kind = false ->
  let logged := if Terms.is_recognized kind then []
                else [console_warn "SparkMonitor: Unknown message"] in
  Lab.handleMessage m s = (inr tt, s, logged)
  /\ Rev.handleMessage m r = (inr tt, r, logged)
  /\ store_calls logged = [].
Proof.
  intros H P K [-> | U] logged; subst logged.
  - simpl. repeat split; now apply (Dispatch.application_end_case _ _ _ _ data).
  - rewrite U. repeat split;
      now apply (Dispatch.unrecognized_case _ _ _ _ data kind).
Qed.

Lemma unforwarded_kinds_witness :
  (strict_eq_string (msgtype Sample.spark_foo) "fromscala" = true
   /\ Lab.handleMessage Sample.spark_foo Sample.lab_running
      = (inr tt, Sample.lab_running, [console_warn "SparkMonitor: Unknown message"])
   /\ Rev.handleMessage Sample.spark_foo Sample.rev_running
      = (inr tt, Sample.rev_running, [console_warn "SparkMonitor: Unknown message"]))
  /\ (strict_eq_string (msgtype Sample.application_end) "fromscala" = true
      /\ Lab.handleMessage Sample.application_end Sample.lab_running
         = (inr tt, Sample.lab_running, [])
      /\ Rev.handleMessage Sample.application_end Sample.rev_running
         = (inr tt, Sample.rev_running, [])).
Proof.
  split; (split; [reflexivity|]).
  - pose proof (unforwarded_kinds Sample.spark_foo
                  (JObject [("msgtype", JString "sparkFoo")])
                  (Some (JString "sparkFoo"))
                  Sample.lab_running Sample.rev_running
                  eq_refl eq_refl eq_refl (or_intror eq_refl)) as (A & B & _).
    exact (conj A B).
  - pose proof (unforwarded_kinds Sample.application_end
                  (JObject [("msgtype", JString "sparkApplicationEnd")])
                  (Some (JString "sparkApplicationEnd"))
                  Sample.lab_running Sample.rev_running
                  eq_refl eq_refl eq_refl (or_introl eq_refl)) as (A & B & _).
    exact (conj A B).
Defined.

(** ** Events without a cell to go to *)

(** C5.  While the tracker has no active cell, a job start and a submitted
    stage are dropped: the handler returns normally, logs its warning and
    nothing else happens; the store is not called, no widget is created and
    every field, the saved count among them, is as before.  The same holds
    when the event comes through [handleMessage]. *)
Theorem absent_cell_drops (data : JValue) (m : ICommMsgMsg) (s : Lab.St) (r : Rev.St) :
  getActiveCell (currentCellTracker s) = None ->
  getActiveCell (currentCellTracker r) = None ->
  let job := [console_warn "SparkMonitor: Job started with no running cell."] in
  let stage := [console_warn "SparkMonitor: Stage started with no running cell."] in
  (Lab.onSparkJobStart data s = (inr tt, s, job)
   /\ Lab.onSparkStageSubmitted data s = (inr tt, s, stage)
   /\ Rev.onSparkJobStart data r = (inr tt, r, job)
   /\ Rev.onSparkStageSubmitted data r = (inr tt, r, stage))
  /\ (strict_eq_string (msgtype m) "fromscala" = true ->
      JSON.parse (parse_argument m) = inr data ->
      (get_msgtype data = inr (Some (JString "sparkJobStart")) ->
       Lab.handleMessage m s = (inr tt, s, job)
       /\ Rev.handleMessage m r = (inr tt, r, job))
      /\ (get_msgtype data = inr (Some (JString "sparkStageSubmitted")) ->
          Lab.handleMessage m s = (inr tt, s, stage)
          /\ Rev.handleMessage m r = (inr tt, r, stage)))
  /\ store_calls job = [] /\ store_calls stage = []
  /\ existsb is_create job = false /\ existsb is_create stage = false.
Proof.
  intros Hs Hr job stage.
  pose proof (Handlers.lab_job_start_absent data s Hs) as A.
  pose proof (Handlers.lab_stage_submitted_absent data s Hs) as B.
  pose proof (Handlers.rev_job_start_absent data r Hr) as C.
  pose proof (Handlers.rev_stage_submitted_absent data r Hr) as D.
  split; [now repeat split|].
  split; [|now repeat split].
  intros H P. split; intros K; split.
  - unfold Lab.handleMessage. now rewrite (Dispatch.job_start_case _ _ m s data H P K).
  - unfold Rev.handleMessage. now rewrite (Dispatch.job_start_case _ _ m r data H P K).
  - unfold Lab.handleMessage.
    now rewrite (Dispatch.stage_submitted_case _ _ m s data H P K).
  - unfold Rev.handleMessage.
    now rewrite (Dispatch.stage_submitted_case _ _ m r data H P K).
Qed.

Lemma absent_cell_drops_witness :
  getActiveCell (currentCellTracker Sample.lab0) = None
  /\ getActiveCell (currentCellTracker Sample.rev0) = None
  /\ Lab.handleMessage Sample.job_start Sample.lab0
     = (inr tt, Sample.lab0,
        [console_warn "SparkMonitor: Job started with no running cell."])
  /\ Rev.handleMessage Sample.job_start Sample.rev0
     = (inr tt, Sample.rev0,
        [console_warn "SparkMonitor: Job started with no running cell."]).
Proof.
  split; [reflexivity|]. split; [reflexivity|].
  pose proof (absent_cell_drops Sample.job_start_data Sample.job_start
                Sample.lab0 Sample.rev0 eq_refl eq_refl) as (_ & Hm & _).
  exact (proj1 (Hm eq_refl eq_refl) eq_refl).
Defined.

(** ** Job starts and submitted stages with a cell to go to *)

Module Calls.

Lemma store_calls_app (a b : list Effect) :
  store_calls (a ++ b) = (store_calls a ++ store_calls b)%list.
Proof. unfold store_calls. apply omap_app. Qed.

Lemma lab_gate_calls (m : ICellModel) (s : Lab.St) :
  store_calls (trace (Lab.createElementIfNotExists m s)) = [].
Proof. rewrite LabGate.lab_gate_trace. now destruct (Terms.lab_will_create m s). Qed.

Lemma rev_gate_calls (m : ICellModel) (s : Rev.St) :
  store_calls (trace (Rev.createElementIfNotExists m s)) = [].
Proof. rewrite RevGate.rev_gate_trace. now destruct (Terms.rev_will_create m s). Qed.

Lemma job_start_store_calls (cellId : string) (data : JValue) (n k : Z) :
  store_calls (Terms.job_start_calls cellId data n k)
  = if n >? k
    then [NotebookStore.onCellExecutedAgain cellId;
          NotebookStore.onSparkJobStart cellId data]
    else [NotebookStore.onSparkJobStart cellId data].
Proof. unfold Terms.job_start_calls. now destruct (n >? k). Qed.

End Calls.

(** C1.  A job start that finds an active cell compares the count of
    executions of the tracker with the count saved at the last job start.
    When the first is strictly greater, the store is told to reset the cell
    and then receives the job start, and the saved count becomes the
    current one; otherwise the store receives the job start alone and the
    saved count stays (in both cases it is the greater of the two counts
    afterwards).  The handler returns normally. *)
Theorem job_start_reexecution (data : JValue) (cell : ActiveCell)
  (s : Lab.St) (r : Rev.St) :
  getActiveCell (currentCellTracker s) = Some cell ->
  getActiveCell (currentCellTracker r) = Some cell ->
  let reset := NotebookStore.onCellExecutedAgain (id (cell_model cell)) in
  let forward := NotebookStore.onSparkJobStart (id (cell_model cell)) data in
  let detect (n k : Z) := if n >? k then [reset; forward] else [forward] in
  let lab := Lab.onSparkJobStart data s in
  let rev := Rev.onSparkJobStart data r in
  (outcome lab = inr tt
   /\ store_calls (trace lab)
      = detect (getNumCellsExecuted (currentCellTracker s))
               (cellExecCountSinceSparkJobStart s)
   /\ cellExecCountSinceSparkJobStart (final lab)
      = Z.max (getNumCellsExecuted (currentCellTracker s))
              (cellExecCountSinceSparkJobStart s))
  /\ (outcome rev = inr tt
      /\ store_calls (trace rev)
         = detect (getNumCellsExecuted (currentCellTracker r))
                  (cellExecCountSinceSparkJobStart r)
      /\ cellExecCountSinceSparkJobStart (final rev)
         = Z.max (getNumCellsExecuted (currentCellTracker r))
                 (cellExecCountSinceSparkJobStart r)).
Proof.
  intros Hs Hr reset forward detect lab rev. subst lab rev detect reset forward.
  split.
  - rewrite (Handlers.lab_job_start data s cell Hs). cbv zeta.
    pose proof (Calls.lab_gate_calls (cell_model cell) s) as Hc.
    pose proof (LabGate.lab_gate_frame (cell_model cell) s) as (_ & Hk & _).
    destruct (Lab.createElementIfNotExists (cell_model cell) s) as [[o s1] t1].
    unfold outcome, final, trace in *. simpl in *.
    split; [reflexivity|]. split.
    + rewrite Calls.store_calls_app, Hc.
      apply Calls.job_start_store_calls.
    + destruct (Z.gtb_spec (getNumCellsExecuted (currentCellTracker s))
                  (cellExecCountSinceSparkJobStart s)); simpl; lia.
  - rewrite (Handlers.rev_job_start data r cell Hr). cbv zeta.
    set (r1 := if getNumCellsExecuted (currentCellTracker r)
                  >? cellExecCountSinceSparkJobStart r
               then set_cellExecCountSinceSparkJobStart
                      (getNumCellsExecuted (currentCellTracker r)) r
               else r).
    pose proof (Calls.rev_gate_calls (cell_model cell) r1) as Hc.
    pose proof (RevGate.rev_gate_frame (cell_model cell) r1) as (_ & Hk & _).
    assert (cellExecCountSinceSparkJobStart r1
            = Z.max (getNumCellsExecuted (currentCellTracker r))
                    (cellExecCountSinceSparkJobStart r)) as Hmax.
    { subst r1.
      destruct (Z.gtb_spec (getNumCellsExecuted (currentCellTracker r))
                  (cellExecCountSinceSparkJobStart r)); simpl; lia. }
    destruct (Rev.createElementIfNotExists (cell_model cell) r1) as [[o s1] t1].
    unfold outcome, final, trace in *. simpl in *.
    split; [reflexivity|]. split.
    + rewrite Calls.store_calls_app, Hc, app_nil_r.
      apply Calls.job_start_store_calls.
    + congruence.
Qed.

(** The scenario of the specification: a job start was processed at count
    1; the count rises to 3 and the next job start resets the cell before
    it is forwarded; at an unchanged count 1 it is forwarded alone. *)
Lemma job_start_reexecution_witness :
  let cell := mkActive Sample.c1 3 in
  let cell' := mkActive Sample.c1 1 in
  let d := Sample.job_start_data in
  (getActiveCell (currentCellTracker Sample.lab3) = Some cell
   /\ getActiveCell (currentCellTracker Sample.rev3) = Some cell
   /\ store_calls (trace (Lab.onSparkJobStart d Sample.lab3))
      = [NotebookStore.onCellExecutedAgain "c1"; NotebookStore.onSparkJobStart "c1" d]
   /\ store_calls (trace (Rev.onSparkJobStart d Sample.rev3))
      = [NotebookStore.onCellExecutedAgain "c1"; NotebookStore.onSparkJobStart "c1" d]
   /\ cellExecCountSinceSparkJobStart (final (Lab.onSparkJobStart d Sample.lab3)) = 3
   /\ cellExecCountSinceSparkJobStart (final (Rev.onSparkJobStart d Sample.rev3)) = 3)
  /\ (getActiveCell (currentCellTracker Sample.lab1) = Some cell'
      /\ getActiveCell (currentCellTracker Sample.rev1) = Some cell'
      /\ store_calls (trace (Lab.onSparkJobStart d Sample.lab1))
         = [NotebookStore.onSparkJobStart "c1" d]
      /\ store_calls (trace (Rev.onSparkJobStart d Sample.rev1))
         = [NotebookStore.onSparkJobStart "c1" d]
      /\ cellExecCountSinceSparkJobStart (final (Lab.onSparkJobStart d Sample.lab1)) = 1
      /\ cellExecCountSinceSparkJobStart (final (Rev.onSparkJobStart d Sample.rev1)) = 1).
Proof.
  intros cell cell' d. split.
  - split; [reflexivity|]. split; [reflexivity|].
    pose proof (job_start_reexecution d cell Sample.lab3 Sample.rev3
                  eq_refl eq_refl) as ((_ & A & B) & (_ & C & D)).
    exact (conj A (conj C (conj B D))).
  - split; [reflexivity|]. split; [reflexivity|].
    pose proof (job_start_reexecution d cell' Sample.lab1 Sample.rev1
                  eq_refl eq_refl) as ((_ & A & B) & (_ & C & D)).
    exact (conj A (conj C (conj B D))).
Defined.

(** C4, as the code has it.  A submitted stage that finds an active cell is
    forwarded to the store with the identity of that cell, and the gate is
    run for the cell (before the forward in the lab extension, after it in
    the other revision).  The counts are not compared: the store is never
    told to reset the cell and the saved count stays as it was. *)
Theorem stage_submitted_forwards (data : JValue) (cell : ActiveCell)
  (s : Lab.St) (r : Rev.St) :
  getActiveCell (currentCellTracker s) = Some cell ->
  getActiveCell (currentCellTracker r) = Some cell ->
  let forward := store (NotebookStore.onSparkStageSubmitted (id (cell_model cell)) data) in
  let lab := Lab.createElementIfNotExists (cell_model cell) s in
  let rev := Rev.createElementIfNotExists (cell_model cell) r in
  (Lab.onSparkStageSubmitted data s = (inr tt, final lab, (trace lab ++ [forward])%list)
   /\ store_calls (trace (Lab.onSparkStageSubmitted data s))
      = [NotebookStore.onSparkStageSubmitted (id (cell_model cell)) data]
   /\ cellExecCountSinceSparkJobStart (final (Lab.onSparkStageSubmitted data s))
      = cellExecCountSinceSparkJobStart s)
  /\ (Rev.onSparkStageSubmitted data r = (inr tt, final rev, forward :: trace rev)
      /\ store_calls (trace (Rev.onSparkStageSubmitted data r))
         = [NotebookStore.onSparkStageSubmitted (id (cell_model cell)) data]
      /\ cellExecCountSinceSparkJobStart (final (Rev.onSparkStageSubmitted data r))
         = cellExecCountSinceSparkJobStart r).
Proof.
  intros Hs Hr forward lab rev. subst forward lab rev. split.
  - rewrite (Handlers.lab_stage_submitted data s cell Hs). cbv zeta.
    pose proof (Calls.lab_gate_calls (cell_model cell) s) as Hc.
    pose proof (LabGate.lab_gate_frame (cell_model cell) s) as (_ & Hk & _).
    destruct (Lab.createElementIfNotExists (cell_model cell) s) as [[o s1] t1].
    unfold outcome, final, trace in *. simpl in *.
    split; [reflexivity|]. split; [|exact Hk].
    now rewrite Calls.store_calls_app, Hc.
  - rewrite (Handlers.rev_stage_submitted data r cell Hr). cbv zeta.
    pose proof (Calls.rev_gate_calls (cell_model cell) r) as Hc.
    pose proof (RevGate.rev_gate_frame (cell_model cell) r) as (_ & Hk & _).
    destruct (Rev.createElementIfNotExists (cell_model cell) r) as [[o s1] t1].
    unfold outcome, final, trace in *. simpl in *.
    split; [reflexivity|]. split; [|exact Hk].
    unfold store_calls in *. simpl. now rewrite Hc.
Qed.

Lemma stage_submitted_forwards_witness :
  let cell := mkActive Sample.c1 3 in
  let d := Sample.stage_submitted_data in
  getActiveCell (currentCellTracker Sample.lab3) = Some cell
  /\ getActiveCell (currentCellTracker Sample.rev3) = Some cell
  /\ store_calls (trace (Lab.onSparkStageSubmitted d Sample.lab3))
     = [NotebookStore.onSparkStageSubmitted "c1" d]
  /\ store_calls (trace (Rev.onSparkStageSubmitted d Sample.rev3))
     = [NotebookStore.onSparkStageSubmitted "c1" d]
  /\ cellExecCountSinceSparkJobStart (final (Lab.onSparkStageSubmitted d Sample.lab3)) = 1
  /\ cellExecCountSinceSparkJobStart (final (Rev.onSparkStageSubmitted d Sample.rev3)) = 1.
Proof.
  intros cell d. split; [reflexivity|]. split; [reflexivity|].
  pose proof (stage_submitted_forwards d cell Sample.lab3 Sample.rev3
                eq_refl eq_refl) as ((_ & A & B) & (_ & C & D)).
  exact (conj A (conj C (conj B D))).
Defined.

(** C4 as stated fails: the count of executions is 3, the saved count is 1,
    and the submitted stage neither resets the cell nor moves the saved
    count; a job start in the same state does both. *)
Lemma stage_submitted_no_reset :
  let d := Sample.stage_submitted_data in
  (getNumCellsExecuted (currentCellTracker Sample.lab3)
   >? cellExecCountSinceSparkJobStart Sample.lab3) = true
  /\ store_calls (trace (Lab.handleMessage Sample.stage_submitted Sample.lab3))
     = [NotebookStore.onSparkStageSubmitted "c1" d]
  /\ cellExecCountSinceSparkJobStart
       (final (Lab.handleMessage Sample.stage_submitted Sample.lab3)) = 1
  /\ store_calls (trace (Rev.handleMessage Sample.stage_submitted Sample.rev3))
     = [NotebookStore.onSparkStageSubmitted "c1" d]
  /\ cellExecCountSinceSparkJobStart
       (final (Rev.handleMessage Sample.stage_submitted Sample.rev3)) = 1
  /\ store_calls (trace (Lab.handleMessage Sample.job_start Sample.lab3))
     = [NotebookStore.onCellExecutedAgain "c1";
        NotebookStore.onSparkJobStart "c1" Sample.job_start_data].
Proof. repeat split. Qed.

(** ** The gate, called again and again *)

Module Again.

(** A call that returns normally and, made a second time, does nothing: any
    number of calls, one at least, is as good as one. *)
Lemma times_settled {St : Type} (c : M St unit) :
  (forall s, outcome (c s) = inr tt) ->
  (forall s, c (final (c s)) = (inr tt, final (c s), [])) ->
  forall n s, times (S n) c s = c s.
Proof.
  intros Hret Hidem n. induction n as [|n IH]; intros s.
  - simpl. unfold bind, ret. specialize (Hret s).
    destruct (c s) as [[o s1] t1]. unfold outcome in Hret. simpl in Hret.
    subst o. now rewrite app_nil_r.
  - change (times (S (S n)) c s) with (bind c (fun _ => times (S n) c) s).
    unfold bind. specialize (Hret s). specialize (Hidem s).
    destruct (c s) as [[o s1] t1]. unfold outcome, final in *. simpl in *.
    subst o. rewrite IH, Hidem. now rewrite app_nil_r.
Qed.

Lemma lab_second_call (m : ICellModel) (s : Lab.St) :
  id m <> "__proto__" ->
  Lab.createElementIfNotExists m (final (Lab.createElementIfNotExists m s))
  = (inr tt, final (Lab.createElementIfNotExists m s), []).
Proof. intros Hid. now apply LabGate.lab_gate_noop, LabGate.lab_gate_settled. Qed.

Lemma rev_second_call (m : ICellModel) (s : Rev.St) :
  Rev.createElementIfNotExists m (final (Rev.createElementIfNotExists m s))
  = (inr tt, final (Rev.createElementIfNotExists m s), []).
Proof. apply RevGate.rev_gate_noop, RevGate.rev_gate_settled. Qed.

Lemma one_surface (panelId : string) (m : ICellModel) (b : bool) :
  surfaces_created (id m)
    (if b then [react_create panelId (id m); cell_update m] else [])
  = if b then 1%nat else 0%nat.
Proof.
  destruct b; [|reflexivity].
  unfold surfaces_created. simpl. now rewrite String.eqb_refl.
Qed.

End Again.

(** C9, where the lab extension departs from it.  A code cell whose
    identifier is [__proto__] has its widget in the notebook and no
    surface.  The object [cellWidgetMap] never answers [true] under that
    key and ignores what is written under it, so the gate of the lab
    extension creates a surface at every call: one at the first call, one
    more at the second, three in three calls, and its map records nothing.
    The gate of the other revision, in the same notebook, creates one
    surface in three calls. *)
Theorem gate_repeats_for_prototype_key :
  Terms.lab_will_create Prototype.cp Prototype.lab_running = true
  /\ surfaces_created "__proto__"
       (trace (Lab.createElementIfNotExists Prototype.cp Prototype.lab_running))
     = 1%nat
  /\ surfaces_created "__proto__"
       (trace (Lab.createElementIfNotExists Prototype.cp
                 (final (Lab.createElementIfNotExists Prototype.cp
                           Prototype.lab_running))))
     = 1%nat
  /\ surfaces_created "__proto__"
       (trace (times 3 (Lab.createElementIfNotExists Prototype.cp)
                 Prototype.lab_running))
     = 3%nat
  /\ Lab.cellWidgetMap
       (final (times 3 (Lab.createElementIfNotExists Prototype.cp)
                 Prototype.lab_running))
     = ∅
  /\ surfaces_created "__proto__"
       (trace (times 3 (Rev.createElementIfNotExists Prototype.cp)
                 Prototype.rev_running))
     = 1%nat.
Proof. repeat split. Qed.

(** X18.  Apart from the identifier [__proto__] the gate is idempotent in
    both revisions, and in the other revision for every identifier.
    Called a second time for the same cell it does nothing, so any number
    of calls, one at least, leaves what the first call left and creates
    what the first call created: one surface when the gate had one to
    create, none otherwise.  The call is a no-op when the map answers
    [true] for the cell (lab extension), when the widget of the cell shows
    a monitor root or, in the other revision, has the monitor widget in its
    output area, and for a cell that is not a code cell. *)
Theorem gate_idempotent (m : ICellModel) (s : Lab.St) (r : Rev.St) (n : nat) :
  let lab := Lab.createElementIfNotExists m in
  let rev := Rev.createElementIfNotExists m in
  ((id m <> "__proto__" ->
    lab (final (lab s)) = (inr tt, final (lab s), [])
    /\ times (S n) lab s = lab s
    /\ surfaces_created (id m) (trace (times (S n) lab s))
       = (if Terms.lab_will_create m s then 1 else 0)%nat)
   /\ (Lab.read_key (Lab.cellWidgetMap s) (id m) = Some true ->
       lab s = (inr tt, s, []))
   /\ (forall c, find_cell m (widgets (notebookPanel s)) = Some c ->
                 hasMonitorRoot c = true -> lab s = (inr tt, s, []))
   /\ (type m <> "code" -> lab s = (inr tt, s, [])))
  /\ (rev (final (rev r)) = (inr tt, final (rev r), [])
      /\ times (S n) rev r = rev r
      /\ surfaces_created (id m) (trace (times (S n) rev r))
         = (if Terms.rev_will_create m r then 1 else 0)%nat
      /\ (forall c, find_cell m (widgets (notebookPanel r)) = Some c ->
                    hasMonitorRoot c = true -> rev r = (inr tt, r, []))
      /\ (forall c area w,
            find_cell m (widgets (notebookPanel r)) = Some c ->
            outputArea c = Some area ->
            List.find (hasClass "spark-monitor-cell-widget") area = Some w ->
            rev r = (inr tt, r, []))
      /\ (type m <> "code" -> rev r = (inr tt, r, []))).
Proof.
  intros lab rev. subst lab rev. split.
  - split; [|split; [|split]].
    + intros Hid. split; [now apply Again.lab_second_call|].
      assert (times (S n) (Lab.createElementIfNotExists m) s
              = Lab.createElementIfNotExists m s) as Hn.
      { apply Again.times_settled; intros s0;
          [apply LabGate.lab_gate_returns | now apply Again.lab_second_call]. }
      split; [exact Hn|].
      rewrite Hn, LabGate.lab_gate_trace. apply Again.one_surface.
    + intros Hmap. apply LabGate.lab_gate_noop. unfold Terms.lab_will_create.
      now rewrite Hmap.
    + intros c Hc Hroot. apply LabGate.lab_gate_noop. unfold Terms.lab_will_create.
      rewrite Hc, Hroot. simpl. rewrite andb_false_r.
      now destruct (Lab.read_key (Lab.cellWidgetMap s) (id m)) as [[|]|].
    + intros Hty. apply LabGate.lab_gate_noop. unfold Terms.lab_will_create.
      apply String.eqb_neq in Hty. rewrite Hty. simpl.
      now destruct (Lab.read_key (Lab.cellWidgetMap s) (id m)) as [[|]|].
  - split; [apply Again.rev_second_call|].
    assert (times (S n) (Rev.createElementIfNotExists m) r
            = Rev.createElementIfNotExists m r) as Hn.
    { apply Again.times_settled; intros s0;
        [apply RevGate.rev_gate_returns | apply Again.rev_second_call]. }
    split; [exact Hn|]. split.
    { rewrite Hn, RevGate.rev_gate_trace. apply Again.one_surface. }
    split; [|split].
    + intros c Hc Hroot. apply RevGate.rev_gate_noop. unfold Terms.rev_will_create.
      rewrite Hc, Hroot. simpl. apply andb_false_r.
    + intros c area w Hc Harea Hw. apply RevGate.rev_gate_noop.
      unfold Terms.rev_will_create. rewrite Hc, Harea, Hw.
      rewrite andb_false_r. apply andb_false_r.
    + intros Hty. apply RevGate.rev_gate_noop. unfold Terms.rev_will_create.
      apply String.eqb_neq in Hty. now rewrite Hty.
Qed.

Lemma gate_idempotent_witness :
  let markdown := mkModel 2 "c2" "markdown" in
  (id Sample.c1 <> "__proto__"
   /\ Lab.read_key (Lab.cellWidgetMap Sample.lab1) (id Sample.c1) = Some true
   /\ Lab.createElementIfNotExists Sample.c1 Sample.lab1 = (inr tt, Sample.lab1, []))
  /\ (type markdown <> "code"
      /\ Lab.createElementIfNotExists markdown Sample.lab_running
         = (inr tt, Sample.lab_running, [])
      /\ Rev.createElementIfNotExists markdown Sample.rev_running
         = (inr tt, Sample.rev_running, []))
  /\ (surfaces_created "c1"
        (trace (times 3 (Lab.createElementIfNotExists Sample.c1) Sample.lab_running))
      = 1%nat
      /\ surfaces_created "c1"
           (trace (times 3 (Rev.createElementIfNotExists Sample.c1) Sample.rev_running))
         = 1%nat).
Proof.
  intros markdown.
  assert (type markdown <> "code") as Hty by (intros H; discriminate H).
  assert (id Sample.c1 <> "__proto__") as Hid by (intros H; discriminate H).
  split; [|split].
  - split; [exact Hid|]. split; [reflexivity|].
    pose proof (gate_idempotent Sample.c1 Sample.lab1 Sample.rev1 0)
      as ((_ & A & _) & _).
    exact (A eq_refl).
  - split; [exact Hty|].
    pose proof (gate_idempotent markdown Sample.lab_running Sample.rev_running 0)
      as ((_ & _ & _ & A) & (_ & _ & _ & _ & _ & B)).
    exact (conj (A Hty) (B Hty)).
  - pose proof (gate_idempotent Sample.c1 Sample.lab_running Sample.rev_running 2)
      as ((A & _) & (_ & _ & B & _)).
    exact (conj (proj2 (proj2 (A Hid))) B).
Defined.

(** ** Restart of the kernel *)

Module Restart.
Section Generic.
Context {G : Type}.

Lemma starting (s : State G) :
  onStatusChanged "starting" s
  = (inr tt,
     set_awaitingReady (S (awaitingReady s))
       (set_currentCellTracker (set_cellReexecuted false (currentCellTracker s)) s),
     [console_log "SparkMonitor: Starting Comm with kernel."]).
Proof. reflexivity. Qed.

Lemma not_starting (status : string) (s : State G) :
  status <> "starting" -> onStatusChanged status s = (inr tt, s, []).
Proof.
  intros H. unfold onStatusChanged. apply String.eqb_neq in H. now rewrite H.
Qed.

(** The callback of [startComm]: whatever channel the monitor held, it
    holds the one the kernel has just made, with both handlers set, or
    none when the kernel made none. *)
Lemma callback_replaces (made : option nat) (k : IKernelConnection) (s : State G) :
  kernel s = Some k ->
  has_createComm k || has_connectToComm k = true ->
  outcome (startComm_then made s) = inr tt
  /\ comm (final (startComm_then made s))
     = option_map (fun n => mkComm n true true) made
  /\ trace (startComm_then made s)
     = match made with
       | Some n => [comm_open n "openfromfrontend";
                    console_log "SparkMonitor: Connection with comms established"]
       | None => [console_warn "SparkMonitor: Unable to connect to comm"]
       end.
Proof.
  intros Hk Hapi. unfold startComm_then, bind, get, ret, throw, emit, modify,
    outcome, final, trace. simpl. rewrite Hk.
  destruct (has_createComm k); simpl.
  - destruct made; simpl; repeat split.
  - simpl in Hapi. rewrite Hapi. destruct made; simpl; repeat split.
Qed.

End Generic.
End Restart.

(** C8.  The handler of the kernel status, on ['starting'], sets the
    re-execution flag of the tracker to false and calls [startComm()]: the
    log line, and one more callback waiting on [ready()].  When that
    callback runs on a kernel that has one of the two channel methods, the
    channel the monitor holds is the one just made (or none), whatever it
    held before.  On any other status the handler does nothing.  The
    handler is connected when the monitor found a kernel. *)
Theorem reconnect_on_starting (status : string) (made : option nat)
  (k : IKernelConnection) (s : Lab.St) (r : Rev.St) :
  status <> "starting" ->
  kernel s = Some k -> kernel r = Some k ->
  has_createComm k || has_connectToComm k = true ->
  let cleared {G} (x : State G) :=
    set_currentCellTracker (set_cellReexecuted false (currentCellTracker x)) x in
  (onStatusChanged "starting" s = startComm (cleared s)
   /\ Lab.react (StatusChanged "starting") s
      = (set_awaitingReady (S (awaitingReady s)) (cleared s),
         [console_log "SparkMonitor: Starting Comm with kernel."])
   /\ cellReexecuted (currentCellTracker (fst (Lab.react (StatusChanged "starting") s)))
      = false
   /\ Lab.react (StatusChanged status) s = (s, [])
   /\ comm (final (startComm_then made s))
      = option_map (fun n => mkComm n true true) made)
  /\ (onStatusChanged "starting" r = startComm (cleared r)
      /\ Rev.react (StatusChanged "starting") r
         = (set_awaitingReady (S (awaitingReady r)) (cleared r),
            [console_log "SparkMonitor: Starting Comm with kernel."])
      /\ cellReexecuted (currentCellTracker (fst (Rev.react (StatusChanged "starting") r)))
         = false
      /\ Rev.react (StatusChanged status) r = (r, [])
      /\ comm (final (startComm_then made r))
         = option_map (fun n => mkComm n true true) made).
Proof.
  intros Hst Hs Hr Hapi cleared. subst cleared. split.
  - split; [reflexivity|].
    unfold Lab.react, Monitor.react. rewrite Hs.
    rewrite (Restart.not_starting status s Hst).
    repeat split.
    apply (Restart.callback_replaces made k s Hs Hapi).
  - split; [reflexivity|].
    unfold Rev.react, Monitor.react. rewrite Hr.
    rewrite (Restart.not_starting status r Hst).
    repeat split.
    apply (Restart.callback_replaces made k r Hr Hapi).
Qed.

Lemma reconnect_on_starting_witness :
  "busy" <> "starting"
  /\ kernel Sample.lab_open = Some (mkKernel true false)
  /\ kernel Sample.rev_open = Some (mkKernel true false)
  /\ comm Sample.lab_open = Some (mkComm 1 true true)
  /\ cellReexecuted
       (currentCellTracker (fst (Lab.react (StatusChanged "starting") Sample.lab_open)))
     = false
  /\ Lab.react (StatusChanged "busy") Sample.lab_open = (Sample.lab_open, [])
  /\ comm (final (startComm_then (Some 2%nat) Sample.lab_open))
     = Some (mkComm 2 true true)
  /\ comm (final (startComm_then (Some 2%nat) Sample.rev_open))
     = Some (mkComm 2 true true).
Proof.
  assert ("busy" <> "starting") as Hne by (intros H; discriminate H).
  split; [exact Hne|]. do 3 (split; [reflexivity|]).
  pose proof (reconnect_on_starting "busy" (Some 2%nat) (mkKernel true false)
                Sample.lab_open Sample.rev_open Hne eq_refl eq_refl eq_refl)
    as ((_ & _ & A & B & C) & (_ & _ & _ & _ & D)).
  exact (conj A (conj B (conj C D))).
Defined.

(** ** The saved count over the life of the monitor *)

Module Counter.
Import Terms.
Section Generic.
Context {G : Type}.
Variable onSparkJobStart : JValue -> M (State G) unit.
Variable onSparkStageSubmitted : JValue -> M (State G) unit.
Local Abbreviation saved := (@cellExecCountSinceSparkJobStart G).
Local Abbreviation react := (Monitor.react onSparkJobStart onSparkStageSubmitted).
Local Abbreviation run := (Monitor.run onSparkJobStart onSparkStageSubmitted).

(** What the two handlers of a revision do to the saved count. *)
Hypothesis job_start_saved : forall data s,
  saved (final (onSparkJobStart data s))
  = match getActiveCell (currentCellTracker s) with
    | Some _ => Z.max (getNumCellsExecuted (currentCellTracker s)) (saved s)
    | None => saved s
    end.
Hypothesis stage_saved : forall data s,
  saved (final (onSparkStageSubmitted data s)) = saved s.

Lemma forEach_removed_saved (oldValues : list (option ICellModel)) (s : State G) :
  final (forEach_removed oldValues s) = s.
Proof.
  revert s. induction oldValues as [|[c|] rest IH]; intros s; simpl;
    [reflexivity| |];
    unfold bind, emit, ret; simpl;
    specialize (IH s); destruct (forEach_removed rest s) as [[o s1] t1];
    unfold final in *; simpl in *; exact IH.
Qed.

Lemma startComm_then_saved (made : option nat) (s : State G) :
  saved (final (startComm_then made s)) = saved s.
Proof.
  unfold startComm_then, bind, get, ret, throw, emit, modify, final. simpl.
  destruct (kernel s) as [k|]; simpl; [|reflexivity].
  destruct (has_createComm k); simpl;
    [|destruct (has_connectToComm k); simpl];
    try destruct made; reflexivity.
Qed.


Lemma react_saved (ev : Event) (s : State G) :
  saved (fst (react ev s)) = saved s
  \/ moved_by_job_start ev s (fst (react ev s)).
Proof.
  destruct ev as [m| |made|status|type oldValues|m| |cells]; simpl;
    try (left; reflexivity).
  - destruct (awaitingReady s) as [|n]; [now left|].
    destruct (isReady (currentCellTracker s)); [|now left].
    left. unfold settle. simpl. now rewrite startComm_then_saved.
  - destruct (kernel s); [|now left]. left. unfold onStatusChanged.
    destruct (String.eqb status "starting"); reflexivity.
  - destruct (hasModel (notebookPanel s)); [|now left]. left.
    unfold settle, onCellsChanged. simpl.
    destruct (String.eqb type "remove"); [|reflexivity].
    now rewrite forEach_removed_saved.
  - unfold settle. simpl.
    destruct (Dispatch.handle_cases onSparkJobStart onSparkStageSubmitted m s)
      as [(o & t & -> & _) | [(data & H & P & K & ->) | (data & H & P & K & ->)]].
    + now left.
    + rewrite job_start_saved.
      destruct (getActiveCell (currentCellTracker s)) as [cell|] eqn:Hc;
        [|now left].
      destruct (Z.max_spec (getNumCellsExecuted (currentCellTracker s)) (saved s))
        as [[Hlt Hmax] | [Hle Hmax]].
      * left. exact Hmax.
      * destruct (Z.eq_dec (getNumCellsExecuted (currentCellTracker s)) (saved s))
          as [Heq|Hne].
        -- left. now rewrite Hmax.
        -- right. exists m, data, cell. repeat split; try assumption.
           ++ lia.
           ++ unfold settle. simpl. rewrite job_start_saved, Hc. exact Hmax.
    + left. apply stage_saved.
Qed.

Lemma react_monotone (ev : Event) (s : State G) :
  saved s <= saved (fst (react ev s)).
Proof.
  destruct (react_saved ev s) as [-> | (m & data & cell & _ & _ & _ & _ & _ & Hgt & ->)];
    lia.
Qed.

Lemma run_monotone (evs : list Event) (s : State G) :
  saved s <= saved (fst (run evs s)).
Proof.
  revert s. induction evs as [|ev rest IH]; intros s; simpl; [lia|].
  pose proof (react_monotone ev s) as H1.
  destruct (Monitor.react _ _ ev s) as [s1 t1]. simpl in H1.
  specialize (IH s1).
  destruct (Monitor.run _ _ rest s1) as [s2 t2]. simpl in *. lia.
Qed.

End Generic.
End Counter.

Module Saved.

Lemma lab_job_start_saved (data : JValue) (s : Lab.St) :
  cellExecCountSinceSparkJobStart (final (Lab.onSparkJobStart data s))
  = match getActiveCell (currentCellTracker s) with
    | Some _ => Z.max (getNumCellsExecuted (currentCellTracker s))
                      (cellExecCountSinceSparkJobStart s)
    | None => cellExecCountSinceSparkJobStart s
    end.
Proof.
  destruct (getActiveCell (currentCellTracker s)) as [cell|] eqn:Hc.
  - rewrite (Handlers.lab_job_start data s cell Hc). cbv zeta.
    pose proof (LabGate.lab_gate_frame (cell_model cell) s) as (_ & Hk & _).
    destruct (Lab.createElementIfNotExists (cell_model cell) s) as [[o s1] t1].
    unfold final in *. simpl in *.
    destruct (Z.gtb_spec (getNumCellsExecuted (currentCellTracker s))
                (cellExecCountSinceSparkJobStart s)); simpl; lia.
  - now rewrite (Handlers.lab_job_start_absent data s Hc).
Qed.

Lemma lab_stage_submitted_saved (data : JValue) (s : Lab.St) :
  cellExecCountSinceSparkJobStart (final (Lab.onSparkStageSubmitted data s))
  = cellExecCountSinceSparkJobStart s.
Proof.
  destruct (getActiveCell (currentCellTracker s)) as [cell|] eqn:Hc.
  - rewrite (Handlers.lab_stage_submitted data s cell Hc). cbv zeta.
    apply (LabGate.lab_gate_frame (cell_model cell) s).
  - now rewrite (Handlers.lab_stage_submitted_absent data s Hc).
Qed.

Lemma rev_job_start_saved (data : JValue) (r : Rev.St) :
  cellExecCountSinceSparkJobStart (final (Rev.onSparkJobStart data r))
  = match getActiveCell (currentCellTracker r) with
    | Some _ => Z.max (getNumCellsExecuted (currentCellTracker r))
                      (cellExecCountSinceSparkJobStart r)
    | None => cellExecCountSinceSparkJobStart r
    end.
Proof.
  destruct (getActiveCell (currentCellTracker r)) as [cell|] eqn:Hc.
  - rewrite (Handlers.rev_job_start data r cell Hc). cbv zeta.
    match goal with
    | |- context [Rev.createElementIfNotExists ?m ?x] =>
        pose proof (RevGate.rev_gate_frame m x) as (_ & Hk & _);
        destruct (Rev.createElementIfNotExists m x) as [[o s1] t1]
    end.
    unfold final in *. simpl in *. rewrite Hk.
    destruct (Z.gtb_spec (getNumCellsExecuted (currentCellTracker r))
                (cellExecCountSinceSparkJobStart r)); simpl; lia.
  - now rewrite (Handlers.rev_job_start_absent data r Hc).
Qed.

Lemma rev_stage_submitted_saved (data : JValue) (r : Rev.St) :
  cellExecCountSinceSparkJobStart (final (Rev.onSparkStageSubmitted data r))
  = cellExecCountSinceSparkJobStart r.
Proof.
  destruct (getActiveCell (currentCellTracker r)) as [cell|] eqn:Hc.
  - rewrite (Handlers.rev_stage_submitted data r cell Hc). cbv zeta.
    apply (RevGate.rev_gate_frame (cell_model cell) r).
  - now rewrite (Handlers.rev_stage_submitted_absent data r Hc).
Qed.

End Saved.

(** C10.  The saved count [cellExecCountSinceSparkJobStart] never goes
    down.  It is 0 when the monitor is constructed.  An event either leaves
    it as it was, or the event is a message that decodes to a job start,
    the tracker has an active cell, the count of executions is strictly
    greater than the saved count, and the saved count becomes that count.
    The gate, a submitted stage, a change of kernel status, the callback of
    [startComm] and the removal of cells leave it as it was. *)
Theorem saved_count_monotone (panel : NotebookPanel) (ev : Event)
  (evs : list Event) (s : Lab.St) (r : Rev.St) :
  (cellExecCountSinceSparkJobStart (final (Lab.constructor panel)) = 0
   /\ (cellExecCountSinceSparkJobStart (fst (Lab.react ev s))
       = cellExecCountSinceSparkJobStart s
       \/ Terms.moved_by_job_start ev s (fst (Lab.react ev s)))
   /\ cellExecCountSinceSparkJobStart s
      <= cellExecCountSinceSparkJobStart (fst (Lab.react ev s))
   /\ cellExecCountSinceSparkJobStart s
      <= cellExecCountSinceSparkJobStart (fst (Lab.run evs s))
   /\ (forall data,
         cellExecCountSinceSparkJobStart (final (Lab.onSparkStageSubmitted data s))
         = cellExecCountSinceSparkJobStart s)
   /\ (forall m,
         cellExecCountSinceSparkJobStart (final (Lab.createElementIfNotExists m s))
         = cellExecCountSinceSparkJobStart s))
  /\ (cellExecCountSinceSparkJobStart (final (Rev.constructor panel)) = 0
      /\ (cellExecCountSinceSparkJobStart (fst (Rev.react ev r))
          = cellExecCountSinceSparkJobStart r
          \/ Terms.moved_by_job_start ev r (fst (Rev.react ev r)))
      /\ cellExecCountSinceSparkJobStart r
         <= cellExecCountSinceSparkJobStart (fst (Rev.react ev r))
      /\ cellExecCountSinceSparkJobStart r
         <= cellExecCountSinceSparkJobStart (fst (Rev.run evs r))
      /\ (forall data,
            cellExecCountSinceSparkJobStart (final (Rev.onSparkStageSubmitted data r))
            = cellExecCountSinceSparkJobStart r)
      /\ (forall m,
            cellExecCountSinceSparkJobStart (final (Rev.createElementIfNotExists m r))
            = cellExecCountSinceSparkJobStart r))
  /\ (forall (G : Type) (x : State G) status made type oldValues,
        cellExecCountSinceSparkJobStart (final (onStatusChanged status x))
        = cellExecCountSinceSparkJobStart x
        /\ cellExecCountSinceSparkJobStart (final (startComm_then made x))
           = cellExecCountSinceSparkJobStart x
        /\ cellExecCountSinceSparkJobStart (final (onCellsChanged type oldValues x))
           = cellExecCountSinceSparkJobStart x).
Proof.
  split; [|split].
  - split; [reflexivity|]. split.
    { apply Counter.react_saved;
        [apply Saved.lab_job_start_saved | apply Saved.lab_stage_submitted_saved]. }
    split.
    { apply Counter.react_monotone;
        [apply Saved.lab_job_start_saved | apply Saved.lab_stage_submitted_saved]. }
    split.
    { apply Counter.run_monotone;
        [apply Saved.lab_job_start_saved | apply Saved.lab_stage_submitted_saved]. }
    split; [intros data; apply Saved.lab_stage_submitted_saved|].
    intros m. apply (LabGate.lab_gate_frame m s).
  - split; [reflexivity|]. split.
    { apply Counter.react_saved;
        [apply Saved.rev_job_start_saved | apply Saved.rev_stage_submitted_saved]. }
    split.
    { apply Counter.react_monotone;
        [apply Saved.rev_job_start_saved | apply Saved.rev_stage_submitted_saved]. }
    split.
    { apply Counter.run_monotone;
        [apply Saved.rev_job_start_saved | apply Saved.rev_stage_submitted_saved]. }
    split; [intros data; apply Saved.rev_stage_submitted_saved|].
    intros m. apply (RevGate.rev_gate_frame m r).
  - intros G x status made type oldValues. split; [|split].
    + unfold onStatusChanged. destruct (String.eqb status "starting"); reflexivity.
    + apply Counter.startComm_then_saved.
    + unfold onCellsChanged. destruct (String.eqb type "remove"); [|reflexivity].
      now rewrite Counter.forEach_removed_saved.
Qed.

(** ** Surfaces and the events that need them *)

Module Presented.
Import Terms.


Lemma surfaces_created_app (k : string) (a b : list Effect) :
  surfaces_created k (a ++ b)
  = (surfaces_created k a + surfaces_created k b)%nat.
Proof. unfold surfaces_created. now rewrite List.filter_app, List.length_app. Qed.

Lemma recorded_later (hist more : list Effect) (s : Lab.St) :
  recorded hist s -> recorded (hist ++ more) s.
Proof.
  intros H k Hk. specialize (H k Hk). rewrite surfaces_created_app. lia.
Qed.

Lemma recorded_same_map (hist : list Effect) (s s' : Lab.St) :
  Lab.cellWidgetMap s' = Lab.cellWidgetMap s -> recorded hist s -> recorded hist s'.
Proof. intros E H k. rewrite E. apply H. Qed.

Lemma gate_recorded (hist : list Effect) (m : ICellModel) (s : Lab.St) :
  recorded hist s ->
  recorded (hist ++ trace (Lab.createElementIfNotExists m s))
           (final (Lab.createElementIfNotExists m s)).
Proof.
  intros H k.
  rewrite LabGate.lab_gate_map, LabGate.lab_gate_trace, surfaces_created_app.
  destruct (Terms.lab_will_create m s).
  - destruct (decide (id m = k)) as [<-|Hne].
    + intros _. rewrite (Again.one_surface _ m true). lia.
    + rewrite LabGate.read_write_ne by exact Hne.
      intros Hk. specialize (H k Hk). lia.
  - intros Hk. specialize (H k Hk). lia.
Qed.

Lemma job_start_recorded (hist : list Effect) (data : JValue) (s : Lab.St) :
  recorded hist s ->
  recorded (hist ++ trace (Lab.onSparkJobStart data s))
           (final (Lab.onSparkJobStart data s)).
Proof.
  intros H. destruct (getActiveCell (currentCellTracker s)) as [cell|] eqn:Hc.
  - rewrite (Handlers.lab_job_start data s cell Hc). cbv zeta.
    pose proof (gate_recorded hist (cell_model cell) s H) as Hg.
    destruct (Lab.createElementIfNotExists (cell_model cell) s) as [[o s1] t1].
    unfold final, trace in *. simpl in *.
    rewrite app_assoc. apply recorded_later.
    destruct (_ >? _); [|exact Hg].
    eapply recorded_same_map; [|exact Hg]. reflexivity.
  - rewrite (Handlers.lab_job_start_absent data s Hc).
    now apply recorded_later.
Qed.

Lemma stage_recorded (hist : list Effect) (data : JValue) (s : Lab.St) :
  recorded hist s ->
  recorded (hist ++ trace (Lab.onSparkStageSubmitted data s))
           (final (Lab.onSparkStageSubmitted data s)).
Proof.
  intros H. destruct (getActiveCell (currentCellTracker s)) as [cell|] eqn:Hc.
  - rewrite (Handlers.lab_stage_submitted data s cell Hc). cbv zeta.
    pose proof (gate_recorded hist (cell_model cell) s H) as Hg.
    destruct (Lab.createElementIfNotExists (cell_model cell) s) as [[o s1] t1].
    unfold final, trace in *. simpl in *.
    rewrite app_assoc. now apply recorded_later.
  - rewrite (Handlers.lab_stage_submitted_absent data s Hc).
    now apply recorded_later.
Qed.

Lemma react_recorded (hist : list Effect) (ev : Event) (s : Lab.St) :
  recorded hist s ->
  recorded (hist ++ snd (Lab.react ev s)) (fst (Lab.react ev s)).
Proof.
  intros H. unfold Lab.react.
  destruct ev as [m| |made|status|type oldValues|m| |cells]; simpl;
    try (apply recorded_later; exact H).
  - destruct (awaitingReady s) as [|n]; [now apply recorded_later|].
    destruct (isReady (currentCellTracker s)); [|now apply recorded_later].
    apply recorded_later. eapply recorded_same_map; [|exact H].
    unfold settle, Lab.cellWidgetMap, startComm_then, bind, get, ret, throw,
      emit, modify, final. simpl.
    destruct (kernel s) as [k|]; simpl; [|reflexivity].
    destruct (has_createComm k); simpl;
      [|destruct (has_connectToComm k); simpl];
      try destruct made; reflexivity.
  - destruct (kernel s); [|now apply recorded_later].
    apply recorded_later. eapply recorded_same_map; [|exact H].
    unfold onStatusChanged. destruct (String.eqb status "starting"); reflexivity.
  - destruct (hasModel (notebookPanel s)); [|now apply recorded_later].
    apply recorded_later. eapply recorded_same_map; [|exact H].
    unfold settle, onCellsChanged. simpl.
    destruct (String.eqb type "remove"); [|reflexivity].
    now rewrite Counter.forEach_removed_saved.
  - unfold settle. simpl.
    destruct (Dispatch.handle_cases Lab.onSparkJobStart Lab.onSparkStageSubmitted m s)
      as [(o & t & -> & _) | [(data & _ & _ & _ & ->) | (data & _ & _ & _ & ->)]].
    + now apply recorded_later.
    + now apply job_start_recorded.
    + now apply stage_recorded.
Qed.

Lemma run_recorded (evs : list Event) (hist : list Effect) (s : Lab.St) :
  recorded hist s ->
  recorded (hist ++ snd (Lab.run evs s)) (fst (Lab.run evs s)).
Proof.
  revert hist s. induction evs as [|ev rest IH]; intros hist s H.
  - simpl. now rewrite app_nil_r.
  - unfold Lab.run in *. simpl.
    pose proof (react_recorded hist ev s H) as H1. unfold Lab.react in H1.
    destruct (Monitor.react _ _ ev s) as [s1 t1]. simpl in H1.
    specialize (IH (hist ++ t1)%list s1 H1).
    destruct (Monitor.run _ _ rest s1) as [s2 t2]. simpl in *.
    now rewrite app_assoc.
Qed.

Lemma constructed_recorded (panel : NotebookPanel) :
  recorded (trace (Lab.constructor panel)) (final (Lab.constructor panel)).
Proof.
  intros k Hk. unfold Lab.read_key, Lab.cellWidgetMap in Hk. simpl in Hk.
  destruct (String.eqb k "__proto__"); discriminate Hk.
Qed.

(** The gate has run: a code cell whose widget is in the notebook shows a
    monitor root or has had its surface created. *)
Lemma gate_presents (hist : list Effect) (m : ICellModel) (s : Lab.St) (c : Cell) :
  recorded hist s ->
  type m = "code" ->
  find_cell m (widgets (notebookPanel s)) = Some c ->
  hasMonitorRoot c = true
  \/ (1 <= surfaces_created (id m)
             (hist ++ trace (Lab.createElementIfNotExists m s)))%nat.
Proof.
  intros H Hty Hc. rewrite surfaces_created_app, LabGate.lab_gate_trace.
  destruct (Terms.lab_will_create m s) eqn:W.
  - right. rewrite (Again.one_surface _ m true). lia.
  - unfold Terms.lab_will_create in W. rewrite Hty, Hc in W. simpl in W.
    destruct (Lab.read_key (Lab.cellWidgetMap s) (id m)) as [[|]|] eqn:Hmap.
    + right. specialize (H _ Hmap). lia.
    + left. now destruct (hasMonitorRoot c).
    + left. now destruct (hasMonitorRoot c).
Qed.

End Presented.

(** C2, as the code has it.  In the lab extension, a job start and a
    submitted stage that find an active cell run the gate for that cell
    first and call the store after it; at that call, in any state the
    monitor can reach from its construction, a code cell whose widget is in
    the notebook shows a monitor root or has had its surface created.  In
    the other revision the store is called first and the gate is run for
    the cell right after. *)
Theorem presentation_order (panel : NotebookPanel) (evs : list Event)
  (data : JValue) (cell : ActiveCell) (r : Rev.St) :
  let start := Lab.constructor panel in
  let s := fst (Lab.run evs (final start)) in
  let hist := (trace start ++ snd (Lab.run evs (final start)))%list in
  getActiveCell (currentCellTracker s) = Some cell ->
  getActiveCell (currentCellTracker r) = Some cell ->
  let m := cell_model cell in
  let job {G} (x : State G) :=
    Terms.job_start_calls (id m) data
      (getNumCellsExecuted (currentCellTracker x))
      (cellExecCountSinceSparkJobStart x) in
  let counted {G} (x y : State G) :=
    if getNumCellsExecuted (currentCellTracker x)
       >? cellExecCountSinceSparkJobStart x
    then set_cellExecCountSinceSparkJobStart
           (getNumCellsExecuted (currentCellTracker x)) y
    else y in
  let stage := store (NotebookStore.onSparkStageSubmitted (id m) data) in
  let lab := Lab.createElementIfNotExists m s in
  (Lab.onSparkJobStart data s
   = (inr tt, counted s (final lab), (trace lab ++ job s)%list)
   /\ Lab.onSparkStageSubmitted data s
      = (inr tt, final lab, (trace lab ++ [stage])%list)
   /\ (forall c,
         type m = "code" ->
         find_cell m (widgets (notebookPanel s)) = Some c ->
         hasMonitorRoot c = true
         \/ (1 <= surfaces_created (id m) (hist ++ trace lab))%nat))
  /\ (let rev := Rev.createElementIfNotExists m (counted r r) in
      Rev.onSparkJobStart data r
      = (inr tt, final rev, (job r ++ trace rev)%list)
      /\ Rev.onSparkStageSubmitted data r
         = (inr tt, final (Rev.createElementIfNotExists m r),
            stage :: trace (Rev.createElementIfNotExists m r))).
Proof.
  intros start s hist Hs Hr m job counted stage lab. split.
  - split; [|split].
    + exact (Handlers.lab_job_start data s cell Hs).
    + exact (Handlers.lab_stage_submitted data s cell Hs).
    + intros c Hty Hc. subst lab hist s.
      apply (Presented.gate_presents _ m _ c); [|exact Hty|exact Hc].
      apply Presented.run_recorded, Presented.constructed_recorded.
  - cbv zeta. split.
    + exact (Handlers.rev_job_start data r cell Hr).
    + exact (Handlers.rev_stage_submitted data r cell Hr).
Qed.

Lemma presentation_order_witness :
  getActiveCell (currentCellTracker (fst (Lab.run [ExecutionStarted Sample.c1]
                                            (final (Lab.constructor Sample.panel)))))
  = Some (mkActive Sample.c1 1)
  /\ getActiveCell (currentCellTracker Sample.rev_running)
     = Some (mkActive Sample.c1 1)
  /\ trace (Lab.onSparkJobStart Sample.job_start_data Sample.lab_running)
     = [react_create "nb" "c1"; cell_update Sample.c1;
        store (NotebookStore.onCellExecutedAgain "c1");
        store (NotebookStore.onSparkJobStart "c1" Sample.job_start_data)]
  /\ trace (Rev.onSparkJobStart Sample.job_start_data Sample.rev_running)
     = [store (NotebookStore.onCellExecutedAgain "c1");
        store (NotebookStore.onSparkJobStart "c1" Sample.job_start_data);
        react_create "nb" "c1"; cell_update Sample.c1].
Proof.
  split; [reflexivity|]. split; [reflexivity|].
  pose proof (presentation_order Sample.panel [ExecutionStarted Sample.c1]
                Sample.job_start_data (mkActive Sample.c1 1) Sample.rev_running
                eq_refl eq_refl) as ((A & _) & (B & _)).
  exact (conj (f_equal trace A) (f_equal trace B)).
Defined.

(** C2 as stated fails: in the other revision the cell is a code cell with
    its widget in the notebook and no surface yet, and the store receives
    the job start, and the submitted stage, before the surface is
    created. *)
Lemma forward_before_surface :
  Terms.rev_will_create Sample.c1 Sample.rev_running = true
  /\ trace (Rev.handleMessage Sample.job_start Sample.rev_running)
     = [store (NotebookStore.onCellExecutedAgain "c1");
        store (NotebookStore.onSparkJobStart "c1" Sample.job_start_data);
        react_create "nb" "c1"; cell_update Sample.c1]
  /\ trace (Rev.handleMessage Sample.stage_submitted Sample.rev_running)
     = [store (NotebookStore.onSparkStageSubmitted "c1" Sample.stage_submitted_data);
        react_create "nb" "c1"; cell_update Sample.c1].
Proof. repeat split. Qed.

(** * The rest of the class *)

(** ** The cases of the dispatcher the claims leave out *)

(** X1.  A ['fromscala'] message whose payload decodes to one of the eight
    kinds that need no cell goes to the method of the store of that name,
    with the decoded payload: one call, no warning, every field as before,
    whether or not a cell is active. *)
Theorem plain_kinds_forwarded (m : ICommMsgMsg) (data : JValue) (kind : string)
  (method : JValue -> NotebookStore.Call) (s : Lab.St) (r : Rev.St) :
  strict_eq_string (msgtype m) "fromscala" = true ->
  JSON.parse (parse_argument m) = inr data ->
  get_msgtype data = inr (Some (JString kind)) ->
  In (kind, method) Words.plain_kinds ->
  Lab.handleMessage m s = (inr tt, s, [store (method data)])
  /\ Rev.handleMessage m r = (inr tt, r, [store (method data)]).
Proof.
  intros H P K Hin.
  unfold Lab.handleMessage, Rev.handleMessage, Monitor.handleMessage,
    bind, lift, emit, ret. simpl.
  rewrite H, (Dispatch.fromscala_truthy _ H), P. simpl. rewrite K. simpl.
  unfold Words.plain_kinds in Hin. simpl in Hin.
  repeat (destruct Hin as [Hin | Hin];
          [injection Hin as <- <-; split; reflexivity|]).
  destruct Hin.
Qed.

Lemma plain_kinds_forwarded_witness :
  let m := Sample.fromscala "{'msgtype':'sparkTaskEnd','taskId':4}" in
  let data := JObject [("msgtype", JString "sparkTaskEnd"); ("taskId", JNumber 4 0)] in
  JSON.parse (parse_argument m) = inr data
  /\ Lab.handleMessage m Sample.lab0
     = (inr tt, Sample.lab0, [store (NotebookStore.onSparkTaskEnd data)])
  /\ Rev.handleMessage m Sample.rev_running
     = (inr tt, Sample.rev_running, [store (NotebookStore.onSparkTaskEnd data)]).
Proof.
  intros m data. split; [reflexivity|].
  apply (plain_kinds_forwarded m data "sparkTaskEnd" NotebookStore.onSparkTaskEnd
           Sample.lab0 Sample.rev_running eq_refl eq_refl eq_refl).
  unfold Words.plain_kinds. simpl. tauto.
Defined.

(** X2.  A ['fromscala'] message whose payload is the JSON text [null]
    parses, and reading [msgtype] of the result throws: the [TypeError]
    leaves [handleMessage], nothing is logged, the store is not called and
    no field changes. *)
Theorem null_payload_throws (m : ICommMsgMsg) (s : Lab.St) (r : Rev.St) :
  strict_eq_string (msgtype m) "fromscala" = true ->
  JSON.parse (parse_argument m) = inr JNull ->
  Lab.handleMessage m s = (inl TypeError, s, [])
  /\ Rev.handleMessage m r = (inl TypeError, r, []).
Proof.
  intros H P. split; apply (Dispatch.kind_throws _ _ m _ JNull TypeError H P);
    reflexivity.
Qed.

Lemma null_payload_throws_witness :
  let m := Sample.fromscala " null " in
  JSON.parse (parse_argument m) = inr JNull
  /\ Lab.handleMessage m Sample.lab_running = (inl TypeError, Sample.lab_running, [])
  /\ Rev.handleMessage m Sample.rev_running = (inl TypeError, Sample.rev_running, []).
Proof.
  intros m. split; [reflexivity|].
  exact (null_payload_throws m Sample.lab_running Sample.rev_running eq_refl eq_refl).
Defined.

(** X3.  A ['fromscala'] message without the field [msg] makes
    [JSON.parse] read the text of [undefined], which is no JSON: the
    [SyntaxError] leaves [handleMessage], nothing is logged, the store is
    not called and no field changes. *)
Theorem missing_payload_throws (m : ICommMsgMsg) (s : Lab.St) (r : Rev.St) :
  strict_eq_string (msgtype m) "fromscala" = true ->
  msg m = None ->
  Lab.handleMessage m s = (inl SyntaxError, s, [])
  /\ Rev.handleMessage m r = (inl SyntaxError, r, []).
Proof.
  intros H Hmsg.
  assert (JSON.parse (parse_argument m) = inl SyntaxError) as P.
  { unfold parse_argument. rewrite Hmsg. reflexivity. }
  split; apply Dispatch.parse_throws; assumption.
Qed.

Lemma missing_payload_throws_witness :
  let m := mkMsg (Some (JString "fromscala")) None in
  Lab.handleMessage m Sample.lab_running = (inl SyntaxError, Sample.lab_running, [])
  /\ Rev.handleMessage m Sample.rev_running = (inl SyntaxError, Sample.rev_running, []).
Proof.
  intros m.
  exact (missing_payload_throws m Sample.lab_running Sample.rev_running eq_refl eq_refl).
Defined.

(** X4.  A ['fromscala'] message whose payload is a number, a string, a
    boolean or an array, or an object whose [msgtype] is missing or is not
    a string, matches no case of the switch: the warning is logged, the
    store is not called and no field changes. *)
Theorem undiscriminated_payload (m : ICommMsgMsg) (data : JValue)
  (s : Lab.St) (r : Rev.St) :
  strict_eq_string (msgtype m) "fromscala" = true ->
  JSON.parse (parse_argument m) = inr data ->
  match data with
  | JNull => False
  | JObject members =>
      forall k, own_property members "msgtype" <> Some (JString k)
  | _ => True
  end ->
  Lab.handleMessage m s
  = (inr tt, s, [console_warn "SparkMonitor: Unknown message"])
  /\ Rev.handleMessage m r
     = (inr tt, r, [console_warn "SparkMonitor: Unknown message"]).
Proof.
  intros H P Hd.
  assert (exists kind, get_msgtype data = inr kind
                       /\ Terms.is_recognized kind = false) as (kind & K & U).
  { destruct data as [| b | a e | t | items | members]; simpl in *;
      try (exists None; split; reflexivity); [destruct Hd|].
    exists (own_property members "msgtype"). split; [reflexivity|].
    destruct (own_property members "msgtype") as [[| | | k | |]|];
      try reflexivity.
    exfalso. now apply (Hd k). }
  split; now apply (Dispatch.unrecognized_case _ _ m _ data kind).
Qed.

Lemma undiscriminated_payload_witness :
  let m := Sample.fromscala "{'msgtype':7,'jobId':1}" in
  let m' := Sample.fromscala "['sparkJobStart']" in
  (Lab.handleMessage m Sample.lab_running
   = (inr tt, Sample.lab_running, [console_warn "SparkMonitor: Unknown message"])
   /\ Rev.handleMessage m Sample.rev_running
      = (inr tt, Sample.rev_running, [console_warn "SparkMonitor: Unknown message"]))
  /\ (Lab.handleMessage m' Sample.lab_running
      = (inr tt, Sample.lab_running, [console_warn "SparkMonitor: Unknown message"])
      /\ Rev.handleMessage m' Sample.rev_running
         = (inr tt, Sample.rev_running, [console_warn "SparkMonitor: Unknown message"])).
Proof.
  intros m m'. split.
  - apply (undiscriminated_payload m
             (JObject [("msgtype", JNumber 7 0); ("jobId", JNumber 1 0)])
             Sample.lab_running Sample.rev_running eq_refl eq_refl).
    intros k Hk. discriminate Hk.
  - exact (undiscriminated_payload m' (JArray [JString "sparkJobStart"])
             Sample.lab_running Sample.rev_running eq_refl eq_refl I).
Defined.

(** ** Cells removed from the notebook *)

Module Removal.

Lemma forEach_removed_eq {G : Type} (oldValues : list (option ICellModel))
  (s : State G) :
  forEach_removed oldValues s = (inr tt, s, Words.removed_calls oldValues).
Proof.
  induction oldValues as [|[c|] rest IH]; simpl; [reflexivity| |];
    unfold bind, emit, ret; simpl; rewrite IH; reflexivity.
Qed.

End Removal.

(** X5.  When cells leave the notebook, the store is told of each removed
    cell that is defined, in the order of the change, and of nothing else;
    an undefined entry is skipped.  A change of another type tells the
    store nothing.  In both cases the handler returns normally and no
    field of the monitor changes (the map of the lab extension keeps its
    marks); and when the notebook had no model at construction the handler
    is not connected. *)
Theorem cells_removed (type : string) (oldValues : list (option ICellModel))
  (s : Lab.St) (r : Rev.St) :
  type <> "remove" ->
  (onCellsChanged "remove" oldValues s = (inr tt, s, Words.removed_calls oldValues)
   /\ onCellsChanged type oldValues s = (inr tt, s, [])
   /\ Lab.react (CellsChanged "remove" oldValues) s
      = (s, if hasModel (notebookPanel s) then Words.removed_calls oldValues else []))
  /\ (onCellsChanged "remove" oldValues r = (inr tt, r, Words.removed_calls oldValues)
      /\ onCellsChanged type oldValues r = (inr tt, r, [])
      /\ Rev.react (CellsChanged "remove" oldValues) r
         = (r, if hasModel (notebookPanel r) then Words.removed_calls oldValues else []))
  /\ store_calls (Words.removed_calls oldValues)
     = map (fun c => NotebookStore.onCellRemoved (id c)) (omap (fun c => c) oldValues)
  /\ (length (Words.removed_calls oldValues) <= length oldValues)%nat.
Proof.
  intros Hty. apply String.eqb_neq in Hty.
  assert (forall G (x : State G),
            onCellsChanged "remove" oldValues x
            = (inr tt, x, Words.removed_calls oldValues)) as Hrem.
  { intros G x. unfold onCellsChanged. simpl. apply Removal.forEach_removed_eq. }
  assert (forall G (x : State G), onCellsChanged type oldValues x = (inr tt, x, []))
    as Hother.
  { intros G x. unfold onCellsChanged. now rewrite Hty. }
  split; [|split; [|split]].
  - split; [apply Hrem|]. split; [apply Hother|].
    unfold Lab.react, Monitor.react. rewrite Hrem.
    now destruct (hasModel (notebookPanel s)).
  - split; [apply Hrem|]. split; [apply Hother|].
    unfold Rev.react, Monitor.react. rewrite Hrem.
    now destruct (hasModel (notebookPanel r)).
  - unfold Words.removed_calls, store_calls.
    induction (omap (fun c => c) oldValues) as [|c l IH]; simpl; [reflexivity|].
    f_equal. exact IH.
  - unfold Words.removed_calls. rewrite length_map.
    clear Hrem Hother.
    induction oldValues as [|[c|] rest IH]; csimpl; lia.
Qed.

Lemma cells_removed_witness :
  let c2 := mkModel 2 "c2" "markdown" in
  "add" <> "remove"
  /\ Lab.react (CellsChanged "remove" [Some Sample.c1; None; Some c2]) Sample.lab1
     = (Sample.lab1,
        [store (NotebookStore.onCellRemoved "c1"); store (NotebookStore.onCellRemoved "c2")])
  /\ onCellsChanged "add" [Some Sample.c1] Sample.rev1 = (inr tt, Sample.rev1, []).
Proof.
  intros c2.
  assert ("add" <> "remove") as Hne by (intros H; discriminate H).
  split; [exact Hne|].
  pose proof (cells_removed "add" [Some Sample.c1; None; Some c2]
                Sample.lab1 Sample.rev1 Hne) as ((_ & _ & A) & _).
  pose proof (cells_removed "add" [Some Sample.c1]
                Sample.lab1 Sample.rev1 Hne) as (_ & (_ & B & _) & _).
  exact (conj A B).
Defined.

(** ** What a message leaves alone *)

Module Frames.
Import Words.

Lemma same_outside_refl {G : Type} (s : State G) : same_outside s s.
Proof. repeat split. Qed.

Lemma channel_split (t : list Effect) :
  existsb is_channel t = false ->
  existsb is_open t = false /\ existsb is_established t = false.
Proof.
  induction t as [|e t IH]; simpl; [now split|].
  intros H. apply orb_false_elim in H as [He Ht]. destruct (IH Ht) as [A B].
  rewrite A, B. now destruct e.
Qed.

Lemma gate_trace_closed (b : bool) (panelId : string) (m : ICellModel) :
  existsb is_channel (if b then [react_create panelId (id m); cell_update m] else [])
  = false.
Proof. now destruct b. Qed.

Lemma job_calls_closed (cellId : string) (data : JValue) (n k : Z) :
  existsb is_channel (Terms.job_start_calls cellId data n k) = false.
Proof. unfold Terms.job_start_calls. now destruct (n >? k). Qed.

Lemma lab_job_frame (data : JValue) (s : Lab.St) :
  same_outside s (final (Lab.onSparkJobStart data s))
  /\ existsb is_channel (trace (Lab.onSparkJobStart data s)) = false.
Proof.
  destruct (getActiveCell (currentCellTracker s)) as [cell|] eqn:Hc.
  - rewrite (Handlers.lab_job_start data s cell Hc). cbv zeta.
    pose proof (LabGate.lab_gate_frame (cell_model cell) s) as (Ht & _ & Hk & Hm & Ha & _).
    pose proof (LabGate.lab_gate_trace (cell_model cell) s) as Hg.
    destruct (Lab.createElementIfNotExists (cell_model cell) s) as [[o s1] t1].
    unfold final, trace in *. simpl in *. split.
    + destruct (_ >? _); repeat split; assumption.
    + rewrite existsb_app, Hg, gate_trace_closed. apply job_calls_closed.
  - rewrite (Handlers.lab_job_start_absent data s Hc). now repeat split.
Qed.

Lemma lab_stage_frame (data : JValue) (s : Lab.St) :
  same_outside s (final (Lab.onSparkStageSubmitted data s))
  /\ existsb is_channel (trace (Lab.onSparkStageSubmitted data s)) = false.
Proof.
  destruct (getActiveCell (currentCellTracker s)) as [cell|] eqn:Hc.
  - rewrite (Handlers.lab_stage_submitted data s cell Hc). cbv zeta.
    pose proof (LabGate.lab_gate_frame (cell_model cell) s) as (Ht & _ & Hk & Hm & Ha & _).
    pose proof (LabGate.lab_gate_trace (cell_model cell) s) as Hg.
    destruct (Lab.createElementIfNotExists (cell_model cell) s) as [[o s1] t1].
    unfold final, trace in *. simpl in *. split.
    + repeat split; assumption.
    + rewrite existsb_app, Hg, gate_trace_closed. reflexivity.
  - rewrite (Handlers.lab_stage_submitted_absent data s Hc). now repeat split.
Qed.

Lemma rev_job_frame (data : JValue) (r : Rev.St) :
  same_outside r (final (Rev.onSparkJobStart data r))
  /\ existsb is_channel (trace (Rev.onSparkJobStart data r)) = false.
Proof.
  destruct (getActiveCell (currentCellTracker r)) as [cell|] eqn:Hc.
  - rewrite (Handlers.rev_job_start data r cell Hc). cbv zeta.
    match goal with
    | |- context [Rev.createElementIfNotExists ?m ?x] =>
        pose proof (RevGate.rev_gate_frame m x) as (Ht & _ & Hk & Hm & Ha & _);
        pose proof (RevGate.rev_gate_trace m x) as Hg;
        destruct (Rev.createElementIfNotExists m x) as [[o s1] t1]
    end.
    unfold final, trace in *. simpl in *. split.
    + destruct (_ >? _); simpl in *; repeat split; assumption.
    + rewrite existsb_app, Hg, gate_trace_closed, job_calls_closed. reflexivity.
  - rewrite (Handlers.rev_job_start_absent data r Hc). now repeat split.
Qed.

Lemma rev_stage_frame (data : JValue) (r : Rev.St) :
  same_outside r (final (Rev.onSparkStageSubmitted data r))
  /\ existsb is_channel (trace (Rev.onSparkStageSubmitted data r)) = false.
Proof.
  destruct (getActiveCell (currentCellTracker r)) as [cell|] eqn:Hc.
  - rewrite (Handlers.rev_stage_submitted data r cell Hc). cbv zeta.
    pose proof (RevGate.rev_gate_frame (cell_model cell) r) as (Ht & _ & Hk & Hm & Ha & _).
    pose proof (RevGate.rev_gate_trace (cell_model cell) r) as Hg.
    destruct (Rev.createElementIfNotExists (cell_model cell) r) as [[o s1] t1].
    unfold final, trace in *. simpl in *. split.
    + repeat split; assumption.
    + rewrite Hg. apply gate_trace_closed.
  - rewrite (Handlers.rev_stage_submitted_absent data r Hc). now repeat split.
Qed.

Section Generic.
Context {G : Type}.
Variable onSparkJobStart : JValue -> M (State G) unit.
Variable onSparkStageSubmitted : JValue -> M (State G) unit.
Hypothesis job_frame : forall data s,
  same_outside s (final (onSparkJobStart data s))
  /\ existsb is_channel (trace (onSparkJobStart data s)) = false.
Hypothesis stage_frame : forall data s,
  same_outside s (final (onSparkStageSubmitted data s))
  /\ existsb is_channel (trace (onSparkStageSubmitted data s)) = false.
Local Abbreviation handle :=
  (Monitor.handleMessage onSparkJobStart onSparkStageSubmitted).
Local Abbreviation react := (Monitor.react onSparkJobStart onSparkStageSubmitted).
Local Abbreviation run := (Monitor.run onSparkJobStart onSparkStageSubmitted).

Lemma handle_frame (m : ICommMsgMsg) (s : State G) :
  same_outside s (final (handle m s))
  /\ existsb is_channel (trace (handle m s)) = false.
Proof.
  destruct (Dispatch.handle_cases onSparkJobStart onSparkStageSubmitted m s)
    as [(o & t & -> & Ht) | [(data & _ & _ & _ & ->) | (data & _ & _ & _ & ->)]].
  - split; [apply same_outside_refl|]. unfold trace. simpl.
    destruct Ht as [-> | [(text & ->) | (call & -> & _)]]; reflexivity.
  - apply job_frame.
  - apply stage_frame.
Qed.

Lemma startComm_then_outside (made : option nat) (s : State G) :
  kernel (final (startComm_then made s)) = kernel s
  /\ currentCellTracker (final (startComm_then made s)) = currentCellTracker s.
Proof.
  unfold startComm_then, bind, get, ret, throw, emit, modify, final. simpl.
  destruct (kernel s) as [k|] eqn:E; simpl; [|now rewrite E].
  destruct (has_createComm k); simpl;
    [|destruct (has_connectToComm k); simpl];
    try destruct made; simpl; now rewrite E.
Qed.

Lemma react_kernel (ev : Event) (s : State G) :
  kernel (fst (react ev s)) = kernel s.
Proof.
  destruct ev as [m| |made|status|type oldValues|m| |cells]; simpl;
    try reflexivity.
  - destruct (awaitingReady s) as [|n]; [reflexivity|].
    destruct (isReady (currentCellTracker s)); [|reflexivity].
    apply (startComm_then_outside made (set_awaitingReady n s)).
  - destruct (kernel s) eqn:E; [|exact E]. unfold onStatusChanged.
    destruct (String.eqb status "starting"); simpl; exact E.
  - destruct (hasModel (notebookPanel s)); [|reflexivity].
    unfold settle, onCellsChanged. simpl.
    destruct (String.eqb type "remove"); [|reflexivity].
    now rewrite Removal.forEach_removed_eq.
  - apply (handle_frame m s).
Qed.

Lemma react_ready (ev : Event) (s : State G) :
  is_tracker_ready ev = false ->
  isReady (currentCellTracker (fst (react ev s)))
  = isReady (currentCellTracker s).
Proof.
  destruct ev as [m| |made|status|type oldValues|m| |cells]; simpl;
    try reflexivity; try discriminate; intros _.
  - destruct (awaitingReady s) as [|n]; [reflexivity|].
    destruct (isReady (currentCellTracker s)) eqn:E; [|exact E].
    unfold settle. simpl.
    destruct (startComm_then_outside made (set_awaitingReady n s)) as [_ Ht].
    rewrite Ht. simpl. exact E.
  - destruct (kernel s); [|reflexivity]. unfold onStatusChanged.
    destruct (String.eqb status "starting"); reflexivity.
  - destruct (hasModel (notebookPanel s)); [|reflexivity].
    unfold settle, onCellsChanged. simpl.
    destruct (String.eqb type "remove"); [|reflexivity].
    now rewrite Removal.forEach_removed_eq.
  - destruct (handle_frame m s) as ((Ht & _) & _). unfold settle. simpl.
    now rewrite Ht.
Qed.

(** No kernel, or a tracker that is not ready: the event opens nothing. *)
Lemma react_blocked (ev : Event) (s : State G) :
  kernel s = None \/ isReady (currentCellTracker s) = false ->
  comm (fst (react ev s)) = comm s
  /\ existsb is_open (snd (react ev s)) = false
  /\ existsb is_established (snd (react ev s)) = false.
Proof.
  intros Hb.
  destruct ev as [m| |made|status|type oldValues|m| |cells]; simpl;
    try (repeat split; reflexivity).
  - destruct (awaitingReady s) as [|n]; [now repeat split|].
    destruct (isReady (currentCellTracker s)) eqn:E; [|now repeat split].
    destruct Hb as [Hk|Hr]; [|discriminate Hr].
    unfold settle, startComm_then, bind, get, ret, throw, emit, modify,
      final, trace. simpl. rewrite Hk. simpl. now repeat split.
  - destruct (kernel s); [|now repeat split]. unfold onStatusChanged.
    destruct (String.eqb status "starting"); now repeat split.
  - destruct (hasModel (notebookPanel s)); [|now repeat split].
    unfold settle, onCellsChanged. simpl.
    destruct (String.eqb type "remove"); [|now repeat split].
    rewrite Removal.forEach_removed_eq. unfold final, trace. simpl.
    unfold removed_calls.
    induction (omap (fun c => c) oldValues) as [|c l IH]; simpl;
      [now repeat split|]. exact IH.
  - unfold settle. simpl.
    destruct (Dispatch.handle_cases onSparkJobStart onSparkStageSubmitted m s)
      as [(o & t & E & Ht) | [(data & _ & _ & _ & E) | (data & _ & _ & _ & E)]].
    + rewrite E. unfold final, trace. simpl. split; [reflexivity|].
      destruct Ht as [-> | [(text & ->) | (call & -> & _)]]; now split.
    + rewrite E. destruct (job_frame data s) as ((_ & _ & Hc & _) & Ht).
      split; [exact Hc|]. now apply channel_split.
    + rewrite E. destruct (stage_frame data s) as ((_ & _ & Hc & _) & Ht).
      split; [exact Hc|]. now apply channel_split.
Qed.

Lemma run_no_kernel (evs : list Event) (s : State G) :
  kernel s = None ->
  comm (fst (run evs s)) = comm s
  /\ existsb is_open (snd (run evs s)) = false
  /\ existsb is_established (snd (run evs s)) = false.
Proof.
  revert s. induction evs as [|ev rest IH]; intros s Hk; simpl;
    [now repeat split|].
  pose proof (react_blocked ev s (or_introl Hk)) as (Hc & Ho & He).
  pose proof (react_kernel ev s) as Hk1.
  destruct (Monitor.react _ _ ev s) as [s1 t1]. simpl in *.
  rewrite Hk in Hk1. specialize (IH s1 Hk1) as (Hc2 & Ho2 & He2).
  destruct (Monitor.run _ _ rest s1) as [s2 t2]. simpl in *.
  rewrite !existsb_app, Ho, Ho2, He, He2. split; [congruence|now split].
Qed.

Lemma run_not_ready (evs : list Event) (s : State G) :
  isReady (currentCellTracker s) = false ->
  existsb is_tracker_ready evs = false ->
  comm (fst (run evs s)) = comm s
  /\ existsb is_open (snd (run evs s)) = false
  /\ existsb is_established (snd (run evs s)) = false.
Proof.
  revert s. induction evs as [|ev rest IH]; intros s Hr Hev; simpl;
    [now repeat split|].
  simpl in Hev. apply orb_false_elim in Hev as [Hev Hrest].
  pose proof (react_blocked ev s (or_intror Hr)) as (Hc & Ho & He).
  pose proof (react_ready ev s Hev) as Hr1.
  destruct (Monitor.react _ _ ev s) as [s1 t1]. simpl in *.
  rewrite Hr in Hr1. specialize (IH s1 Hr1 Hrest) as (Hc2 & Ho2 & He2).
  destruct (Monitor.run _ _ rest s1) as [s2 t2]. simpl in *.
  rewrite !existsb_app, Ho, Ho2, He, He2. split; [congruence|now split].
Qed.

End Generic.
End Frames.

(** X6.  Reading a message never touches the tracker, the kernel, the
    channel or the callbacks waiting on [ready()], in neither revision, and
    it neither opens a channel nor writes a log line: whatever the message,
    [handleMessage] changes at most the saved count, the widgets of the
    notebook and the map of the gate. *)
Theorem handleMessage_frame (m : ICommMsgMsg) (s : Lab.St) (r : Rev.St) :
  (Words.same_outside s (final (Lab.handleMessage m s))
   /\ existsb Words.is_channel (trace (Lab.handleMessage m s)) = false)
  /\ (Words.same_outside r (final (Rev.handleMessage m r))
      /\ existsb Words.is_channel (trace (Rev.handleMessage m r)) = false).
Proof.
  split.
  - apply Frames.handle_frame;
      [apply Frames.lab_job_frame | apply Frames.lab_stage_frame].
  - apply Frames.handle_frame;
      [apply Frames.rev_job_frame | apply Frames.rev_stage_frame].
Qed.

(** ** The channel *)

(** X7.  The callback of [startComm] has four ends.  Without a kernel, or
    on a kernel with neither [createComm] nor [connectToComm], it throws a
    [TypeError] and leaves every field as it was, the channel held before
    included.  On a kernel with one of the methods that makes nothing, it
    logs the warning and leaves the monitor without a channel.  Otherwise
    it sends one open message with [msgtype] ['openfromfrontend'] on the
    new channel, sets both handlers on it and logs that the connection is
    established. *)
Theorem startComm_callback (made : option nat) (n : nat) (k : IKernelConnection)
  (s : Lab.St) (r : Rev.St) :
  kernel s = Some k -> kernel r = Some k ->
  (has_createComm k || has_connectToComm k = false ->
   startComm_then made s = (inl TypeError, s, [])
   /\ startComm_then made r = (inl TypeError, r, []))
  /\ (has_createComm k || has_connectToComm k = true ->
      (startComm_then None s
       = (inr tt, set_comm None s,
          [console_warn "SparkMonitor: Unable to connect to comm"])
       /\ startComm_then (Some n) s
          = (inr tt, set_comm (Some (mkComm n true true)) s,
             [comm_open n "openfromfrontend";
              console_log "SparkMonitor: Connection with comms established"]))
      /\ (startComm_then None r
          = (inr tt, set_comm None r,
             [console_warn "SparkMonitor: Unable to connect to comm"])
          /\ startComm_then (Some n) r
             = (inr tt, set_comm (Some (mkComm n true true)) r,
                [comm_open n "openfromfrontend";
                 console_log "SparkMonitor: Connection with comms established"])))
  /\ (forall (G : Type) (x : State G),
        kernel x = None -> startComm_then made x = (inl TypeError, x, [])).
Proof.
  intros Hs Hr. split; [|split].
  - intros Hapi. apply orb_false_elim in Hapi as [Hc Hn].
    unfold startComm_then, bind, get, ret, throw, emit, modify. simpl.
    rewrite Hs, Hr, Hc, Hn. now split.
  - intros Hapi.
    unfold startComm_then, bind, get, ret, throw, emit, modify. simpl.
    rewrite Hs, Hr.
    destruct (has_createComm k); simpl in *; [now repeat split|].
    rewrite Hapi. now repeat split.
  - intros G x Hx.
    unfold startComm_then, bind, get, ret, throw, emit, modify. simpl.
    now rewrite Hx.
Qed.

Lemma startComm_callback_witness :
  let bare := mkKernel false false in
  let s := set_comm (Some (mkComm 1 true true))
             (mkState Sample.panel new_tracker 0 (Some bare) None
                      (∅ : gmap string bool) 1%nat) in
  let r := mkState Sample.panel new_tracker 0 (Some bare) None tt 1%nat in
  (startComm_then (Some 2%nat) s = (inl TypeError, s, [])
   /\ comm (final (startComm_then (Some 2%nat) s)) = Some (mkComm 1 true true))
  /\ startComm_then None Sample.lab_open
     = (inr tt, set_comm None Sample.lab_open,
        [console_warn "SparkMonitor: Unable to connect to comm"])
  /\ trace (startComm_then (Some 2%nat) Sample.rev_open)
     = [comm_open 2 "openfromfrontend";
        console_log "SparkMonitor: Connection with comms established"].
Proof.
  intros bare s r. split; [|split].
  - pose proof (startComm_callback (Some 2%nat) 2 bare s r eq_refl eq_refl)
      as (A & _). destruct (A eq_refl) as [A1 _].
    split; [exact A1|]. now rewrite A1.
  - pose proof (startComm_callback None 2 (mkKernel true false)
                  Sample.lab_open Sample.rev_open eq_refl eq_refl)
      as (_ & B & _). exact (proj1 (proj1 (B eq_refl))).
  - pose proof (startComm_callback None 2 (mkKernel true false)
                  Sample.lab_open Sample.rev_open eq_refl eq_refl)
      as (_ & B & _). exact (f_equal trace (proj2 (proj2 (B eq_refl)))).
Defined.

(** X8.  A monitor constructed on a panel without a kernel never gets a
    channel: whatever events follow, the channel stays unset, no open
    message is sent and the connection is never logged as established. *)
Theorem no_kernel_no_channel (panel : NotebookPanel) (evs : list Event) :
  kernel (final (Lab.constructor panel)) = None ->
  (comm (fst (Lab.run evs (final (Lab.constructor panel)))) = None
   /\ existsb Words.is_open (snd (Lab.run evs (final (Lab.constructor panel)))) = false
   /\ existsb Words.is_established
        (snd (Lab.run evs (final (Lab.constructor panel)))) = false)
  /\ (comm (fst (Rev.run evs (final (Rev.constructor panel)))) = None
      /\ existsb Words.is_open (snd (Rev.run evs (final (Rev.constructor panel)))) = false
      /\ existsb Words.is_established
           (snd (Rev.run evs (final (Rev.constructor panel)))) = false).
Proof.
  intros Hk. split.
  - apply (Frames.run_no_kernel Lab.onSparkJobStart Lab.onSparkStageSubmitted
             Frames.lab_job_frame Frames.lab_stage_frame evs _ Hk).
  - assert (kernel (final (Rev.constructor panel)) = None) as Hk' by exact Hk.
    apply (Frames.run_no_kernel Rev.onSparkJobStart Rev.onSparkStageSubmitted
             Frames.rev_job_frame Frames.rev_stage_frame evs _ Hk').
Qed.

Lemma no_kernel_no_channel_witness :
  let panel := mkPanel "nb" [Sample.cell1] true None (Some None) in
  let evs := [TrackerReady; ReadyCallback (Some 1%nat); StatusChanged "starting";
              ReadyCallback (Some 2%nat); ExecutionStarted Sample.c1;
              CommMsg Sample.job_start] in
  kernel (final (Lab.constructor panel)) = None
  /\ comm (fst (Lab.run evs (final (Lab.constructor panel)))) = None
  /\ comm (fst (Rev.run evs (final (Rev.constructor panel)))) = None.
Proof.
  intros panel evs. split; [reflexivity|].
  pose proof (no_kernel_no_channel panel evs eq_refl) as ((A & _) & (B & _)).
  exact (conj A B).
Defined.

(** X9.  No channel is opened before the tracker is ready: from the
    construction on, as long as [ready()] has not resolved, whatever else
    happens, the channel stays unset, no open message is sent and the
    connection is not logged as established. *)
Theorem no_channel_before_ready (panel : NotebookPanel) (evs : list Event) :
  existsb Words.is_tracker_ready evs = false ->
  (comm (fst (Lab.run evs (final (Lab.constructor panel)))) = None
   /\ existsb Words.is_open (snd (Lab.run evs (final (Lab.constructor panel)))) = false
   /\ existsb Words.is_established
        (snd (Lab.run evs (final (Lab.constructor panel)))) = false)
  /\ (comm (fst (Rev.run evs (final (Rev.constructor panel)))) = None
      /\ existsb Words.is_open (snd (Rev.run evs (final (Rev.constructor panel)))) = false
      /\ existsb Words.is_established
           (snd (Rev.run evs (final (Rev.constructor panel)))) = false).
Proof.
  intros Hev. split.
  - apply (Frames.run_not_ready Lab.onSparkJobStart Lab.onSparkStageSubmitted
             Frames.lab_job_frame Frames.lab_stage_frame evs
             (final (Lab.constructor panel)) eq_refl Hev).
  - apply (Frames.run_not_ready Rev.onSparkJobStart Rev.onSparkStageSubmitted
             Frames.rev_job_frame Frames.rev_stage_frame evs
             (final (Rev.constructor panel)) eq_refl Hev).
Qed.

Lemma no_channel_before_ready_witness :
  let evs := [ReadyCallback (Some 1%nat); StatusChanged "starting";
              ReadyCallback (Some 2%nat); ExecutionStarted Sample.c1;
              CommMsg Sample.job_start] in
  existsb Words.is_tracker_ready evs = false
  /\ comm (fst (Lab.run evs (final (Lab.constructor Sample.panel)))) = None
  /\ comm (fst (Rev.run evs (final (Rev.constructor Sample.panel)))) = None.
Proof.
  intros evs. split; [reflexivity|].
  pose proof (no_channel_before_ready Sample.panel evs eq_refl) as ((A & _) & (B & _)).
  exact (conj A B).
Defined.

(** ** The cell an event is given to *)

Module Tags.
Import Words.

Lemma lab_job_calls (data : JValue) (s : Lab.St) :
  store_calls (trace (Lab.onSparkJobStart data s))
  = match getActiveCell (currentCellTracker s) with
    | Some cell =>
        store_calls
          (Terms.job_start_calls (id (cell_model cell)) data
             (getNumCellsExecuted (currentCellTracker s))
             (cellExecCountSinceSparkJobStart s))
    | None => []
    end.
Proof.
  destruct (getActiveCell (currentCellTracker s)) as [cell|] eqn:Hc.
  - rewrite (Handlers.lab_job_start data s cell Hc). cbv zeta.
    pose proof (Calls.lab_gate_calls (cell_model cell) s) as Hg.
    destruct (Lab.createElementIfNotExists (cell_model cell) s) as [[o s1] t1].
    unfold trace in *. simpl in *. now rewrite Calls.store_calls_app, Hg.
  - now rewrite (Handlers.lab_job_start_absent data s Hc).
Qed.

Lemma lab_stage_calls (data : JValue) (s : Lab.St) :
  store_calls (trace (Lab.onSparkStageSubmitted data s))
  = match getActiveCell (currentCellTracker s) with
    | Some cell => [NotebookStore.onSparkStageSubmitted (id (cell_model cell)) data]
    | None => []
    end.
Proof.
  destruct (getActiveCell (currentCellTracker s)) as [cell|] eqn:Hc.
  - rewrite (Handlers.lab_stage_submitted data s cell Hc). cbv zeta.
    pose proof (Calls.lab_gate_calls (cell_model cell) s) as Hg.
    destruct (Lab.createElementIfNotExists (cell_model cell) s) as [[o s1] t1].
    unfold trace in *. simpl in *. now rewrite Calls.store_calls_app, Hg.
  - now rewrite (Handlers.lab_stage_submitted_absent data s Hc).
Qed.

Lemma rev_job_calls (data : JValue) (r : Rev.St) :
  store_calls (trace (Rev.onSparkJobStart data r))
  = match getActiveCell (currentCellTracker r) with
    | Some cell =>
        store_calls
          (Terms.job_start_calls (id (cell_model cell)) data
             (getNumCellsExecuted (currentCellTracker r))
             (cellExecCountSinceSparkJobStart r))
    | None => []
    end.
Proof.
  destruct (getActiveCell (currentCellTracker r)) as [cell|] eqn:Hc.
  - rewrite (Handlers.rev_job_start data r cell Hc). cbv zeta.
    match goal with
    | |- context [Rev.createElementIfNotExists ?m ?x] =>
        pose proof (Calls.rev_gate_calls m x) as Hg;
        destruct (Rev.createElementIfNotExists m x) as [[o s1] t1]
    end.
    unfold trace in *. simpl in *.
    now rewrite Calls.store_calls_app, Hg, app_nil_r.
  - now rewrite (Handlers.rev_job_start_absent data r Hc).
Qed.

Lemma rev_stage_calls (data : JValue) (r : Rev.St) :
  store_calls (trace (Rev.onSparkStageSubmitted data r))
  = match getActiveCell (currentCellTracker r) with
    | Some cell => [NotebookStore.onSparkStageSubmitted (id (cell_model cell)) data]
    | None => []
    end.
Proof.
  destruct (getActiveCell (currentCellTracker r)) as [cell|] eqn:Hc.
  - rewrite (Handlers.rev_stage_submitted data r cell Hc). cbv zeta.
    pose proof (Calls.rev_gate_calls (cell_model cell) r) as Hg.
    destruct (Rev.createElementIfNotExists (cell_model cell) r) as [[o s1] t1].
    unfold trace in *. simpl in *. unfold store_calls in *. simpl.
    now rewrite Hg.
  - now rewrite (Handlers.rev_stage_submitted_absent data r Hc).
Qed.

Lemma job_calls_tagged {G : Type} (s : State G) (cell : ActiveCell)
  (data : JValue) (n k : Z) :
  getActiveCell (currentCellTracker s) = Some cell ->
  tagged_right s (store_calls (Terms.job_start_calls (id (cell_model cell)) data n k)).
Proof.
  intros Hc call c Hin Htag. exists cell. split; [exact Hc|].
  rewrite Calls.job_start_store_calls in Hin.
  destruct (n >? k); simpl in Hin;
    repeat (destruct Hin as [<- | Hin]; [simpl in Htag; congruence|]);
    destruct Hin.
Qed.

Section Generic.
Context {G : Type}.
Variable onSparkJobStart : JValue -> M (State G) unit.
Variable onSparkStageSubmitted : JValue -> M (State G) unit.
Hypothesis job_tagged : forall data s,
  tagged_right s (store_calls (trace (onSparkJobStart data s))).
Hypothesis stage_tagged : forall data s,
  tagged_right s (store_calls (trace (onSparkStageSubmitted data s))).

Lemma handle_tagged (m : ICommMsgMsg) (s : State G) :
  tagged_right s
    (store_calls (trace (Monitor.handleMessage onSparkJobStart
                           onSparkStageSubmitted m s))).
Proof.
  destruct (Dispatch.handle_cases onSparkJobStart onSparkStageSubmitted m s)
    as [(o & t & -> & Ht) | [(data & _ & _ & _ & ->) | (data & _ & _ & _ & ->)]].
  - unfold trace. simpl. intros call c Hin Htag.
    destruct Ht as [-> | [(text & ->) | (call' & -> & Hj & Hs & He)]];
      simpl in Hin; [destruct Hin | destruct Hin |].
    destruct Hin as [<- | []].
    destruct call'; simpl in Htag; try discriminate;
      [now elim (He cellId) | now elim (Hj cellId data) | now elim (Hs cellId data)].
  - apply job_tagged.
  - apply stage_tagged.
Qed.

End Generic.

Lemma lab_job_tagged (data : JValue) (s : Lab.St) :
  tagged_right s (store_calls (trace (Lab.onSparkJobStart data s))).
Proof.
  rewrite lab_job_calls.
  destruct (getActiveCell (currentCellTracker s)) as [cell|] eqn:Hc.
  - now apply job_calls_tagged.
  - intros call c [].
Qed.

Lemma rev_job_tagged (data : JValue) (r : Rev.St) :
  tagged_right r (store_calls (trace (Rev.onSparkJobStart data r))).
Proof.
  rewrite rev_job_calls.
  destruct (getActiveCell (currentCellTracker r)) as [cell|] eqn:Hc.
  - now apply job_calls_tagged.
  - intros call c [].
Qed.

Lemma lab_stage_tagged (data : JValue) (s : Lab.St) :
  tagged_right s (store_calls (trace (Lab.onSparkStageSubmitted data s))).
Proof.
  rewrite lab_stage_calls.
  destruct (getActiveCell (currentCellTracker s)) as [cell|] eqn:Hc.
  - intros call c [<- | []] Htag. simpl in Htag. exists cell. split; congruence.
  - intros call c [].
Qed.

Lemma rev_stage_tagged (data : JValue) (r : Rev.St) :
  tagged_right r (store_calls (trace (Rev.onSparkStageSubmitted data r))).
Proof.
  rewrite rev_stage_calls.
  destruct (getActiveCell (currentCellTracker r)) as [cell|] eqn:Hc.
  - intros call c [<- | []] Htag. simpl in Htag. exists cell. split; congruence.
  - intros call c [].
Qed.

End Tags.

(** X10.  Whatever the message, every call [handleMessage] makes on the
    store that carries a cell (the reset, the job start, the submitted
    stage) carries the identity of the cell the tracker holds as active at
    that moment; without an active cell no such call is made. *)
Theorem tagged_with_active_cell (m : ICommMsgMsg) (call : NotebookStore.Call)
  (c : string) (s : Lab.St) (r : Rev.St) :
  Words.cell_tag call = Some c ->
  (In call (store_calls (trace (Lab.handleMessage m s))) ->
   exists cell, getActiveCell (currentCellTracker s) = Some cell
                /\ c = id (cell_model cell))
  /\ (In call (store_calls (trace (Rev.handleMessage m r))) ->
      exists cell, getActiveCell (currentCellTracker r) = Some cell
                   /\ c = id (cell_model cell)).
Proof.
  intros Htag. split; intros Hin.
  - apply (Tags.handle_tagged Lab.onSparkJobStart Lab.onSparkStageSubmitted
             Tags.lab_job_tagged Tags.lab_stage_tagged m s call c Hin Htag).
  - apply (Tags.handle_tagged Rev.onSparkJobStart Rev.onSparkStageSubmitted
             Tags.rev_job_tagged Tags.rev_stage_tagged m r call c Hin Htag).
Qed.

Lemma tagged_with_active_cell_witness :
  let call := NotebookStore.onSparkJobStart "c1" Sample.job_start_data in
  Words.cell_tag call = Some "c1"
  /\ In call (store_calls (trace (Lab.handleMessage Sample.job_start Sample.lab3)))
  /\ exists cell, getActiveCell (currentCellTracker Sample.lab3) = Some cell
                  /\ "c1" = id (cell_model cell).
Proof.
  intros call. split; [reflexivity|].
  assert (In call (store_calls (trace (Lab.handleMessage Sample.job_start Sample.lab3))))
    as Hin by (right; left; reflexivity).
  split; [exact Hin|].
  exact (proj1 (tagged_with_active_cell Sample.job_start call "c1"
                  Sample.lab3 Sample.rev3 eq_refl) Hin).
Defined.

(** ** Resets and executions *)

Module Resets.
Import Words.

Lemma job_calls_no_reset (cellId : string) (data : JValue) (n k : Z) :
  n <= k -> existsb is_reset (Terms.job_start_calls cellId data n k) = false.
Proof.
  intros H. unfold Terms.job_start_calls.
  destruct (Z.gtb_spec n k); [lia|reflexivity].
Qed.

Lemma gate_trace_no_reset (b : bool) (panelId : string) (m : ICellModel) :
  existsb is_reset (if b then [react_create panelId (id m); cell_update m] else [])
  = false.
Proof. now destruct b. Qed.

Lemma removed_no_reset (oldValues : list (option ICellModel)) :
  existsb is_reset (removed_calls oldValues) = false.
Proof.
  unfold removed_calls.
  induction (omap (fun c => c) oldValues) as [|c l IH]; simpl; [reflexivity|exact IH].
Qed.

Lemma startComm_then_no_reset {G : Type} (made : option nat) (s : State G) :
  existsb is_reset (trace (startComm_then made s)) = false.
Proof.
  unfold startComm_then, bind, get, ret, throw, emit, modify, trace. simpl.
  destruct (kernel s) as [k|]; simpl; [|reflexivity].
  destruct (has_createComm k); simpl;
    [|destruct (has_connectToComm k); simpl];
    try destruct made; reflexivity.
Qed.

Lemma lab_job_settles (data : JValue) (s : Lab.St) :
  (forall cell, getActiveCell (currentCellTracker s) = Some cell ->
                caught_up (final (Lab.onSparkJobStart data s)))
  /\ (caught_up s ->
      caught_up (final (Lab.onSparkJobStart data s))
      /\ existsb is_reset (trace (Lab.onSparkJobStart data s)) = false).
Proof.
  pose proof (Saved.lab_job_start_saved data s) as Hsaved.
  destruct (Frames.lab_job_frame data s) as ((Ht & _) & _).
  unfold caught_up. rewrite Ht, Hsaved. split.
  - intros cell Hc. rewrite Hc. lia.
  - intros Hcu. split.
    + destruct (getActiveCell (currentCellTracker s)); lia.
    + destruct (getActiveCell (currentCellTracker s)) as [cell|] eqn:Hc.
      * rewrite (Handlers.lab_job_start data s cell Hc). cbv zeta.
        pose proof (LabGate.lab_gate_trace (cell_model cell) s) as Hg.
        destruct (Lab.createElementIfNotExists (cell_model cell) s) as [[o s1] t1].
        unfold trace in *. simpl in *.
        rewrite existsb_app, Hg, gate_trace_no_reset. simpl.
        now apply job_calls_no_reset.
      * now rewrite (Handlers.lab_job_start_absent data s Hc).
Qed.

Lemma rev_job_settles (data : JValue) (r : Rev.St) :
  (forall cell, getActiveCell (currentCellTracker r) = Some cell ->
                caught_up (final (Rev.onSparkJobStart data r)))
  /\ (caught_up r ->
      caught_up (final (Rev.onSparkJobStart data r))
      /\ existsb is_reset (trace (Rev.onSparkJobStart data r)) = false).
Proof.
  pose proof (Saved.rev_job_start_saved data r) as Hsaved.
  destruct (Frames.rev_job_frame data r) as ((Ht & _) & _).
  unfold caught_up. rewrite Ht, Hsaved. split.
  - intros cell Hc. rewrite Hc. lia.
  - intros Hcu. split.
    + destruct (getActiveCell (currentCellTracker r)); lia.
    + destruct (getActiveCell (currentCellTracker r)) as [cell|] eqn:Hc.
      * rewrite (Handlers.rev_job_start data r cell Hc). cbv zeta.
        match goal with
        | |- context [Rev.createElementIfNotExists ?m ?x] =>
            pose proof (RevGate.rev_gate_trace m x) as Hg;
            destruct (Rev.createElementIfNotExists m x) as [[o s1] t1]
        end.
        unfold trace in *. simpl in *.
        rewrite existsb_app, Hg, gate_trace_no_reset, orb_false_r.
        now apply job_calls_no_reset.
      * now rewrite (Handlers.rev_job_start_absent data r Hc).
Qed.

Lemma lab_stage_settles (data : JValue) (s : Lab.St) :
  caught_up s ->
  caught_up (final (Lab.onSparkStageSubmitted data s))
  /\ existsb is_reset (trace (Lab.onSparkStageSubmitted data s)) = false.
Proof.
  pose proof (Saved.lab_stage_submitted_saved data s) as Hsaved.
  destruct (Frames.lab_stage_frame data s) as ((Ht & _) & _).
  unfold caught_up. rewrite Ht, Hsaved. intros Hcu. split; [exact Hcu|].
  destruct (getActiveCell (currentCellTracker s)) as [cell|] eqn:Hc.
  - rewrite (Handlers.lab_stage_submitted data s cell Hc). cbv zeta.
    pose proof (LabGate.lab_gate_trace (cell_model cell) s) as Hg.
    destruct (Lab.createElementIfNotExists (cell_model cell) s) as [[o s1] t1].
    unfold trace in *. simpl in *.
    now rewrite existsb_app, Hg, gate_trace_no_reset.
  - now rewrite (Handlers.lab_stage_submitted_absent data s Hc).
Qed.

Lemma rev_stage_settles (data : JValue) (r : Rev.St) :
  caught_up r ->
  caught_up (final (Rev.onSparkStageSubmitted data r))
  /\ existsb is_reset (trace (Rev.onSparkStageSubmitted data r)) = false.
Proof.
  pose proof (Saved.rev_stage_submitted_saved data r) as Hsaved.
  destruct (Frames.rev_stage_frame data r) as ((Ht & _) & _).
  unfold caught_up. rewrite Ht, Hsaved. intros Hcu. split; [exact Hcu|].
  destruct (getActiveCell (currentCellTracker r)) as [cell|] eqn:Hc.
  - rewrite (Handlers.rev_stage_submitted data r cell Hc). cbv zeta.
    pose proof (RevGate.rev_gate_trace (cell_model cell) r) as Hg.
    destruct (Rev.createElementIfNotExists (cell_model cell) r) as [[o s1] t1].
    unfold trace in *. simpl in *. rewrite Hg. apply gate_trace_no_reset.
  - now rewrite (Handlers.rev_stage_submitted_absent data r Hc).
Qed.

Section Generic.
Context {G : Type}.
Variable onSparkJobStart : JValue -> M (State G) unit.
Variable onSparkStageSubmitted : JValue -> M (State G) unit.
Hypothesis job_settles : forall data s,
  caught_up s ->
  caught_up (final (onSparkJobStart data s))
  /\ existsb is_reset (trace (onSparkJobStart data s)) = false.
Hypothesis stage_settles : forall data s,
  caught_up s ->
  caught_up (final (onSparkStageSubmitted data s))
  /\ existsb is_reset (trace (onSparkStageSubmitted data s)) = false.
Local Abbreviation react := (Monitor.react onSparkJobStart onSparkStageSubmitted).
Local Abbreviation run := (Monitor.run onSparkJobStart onSparkStageSubmitted).

Lemma react_settled (ev : Event) (s : State G) :
  caught_up s ->
  is_execution_started ev = false ->
  caught_up (fst (react ev s))
  /\ existsb is_reset (snd (react ev s)) = false.
Proof.
  intros Hcu Hev.
  destruct ev as [m| |made|status|type oldValues|m| |cells]; simpl;
    try discriminate Hev; try (split; [exact Hcu|reflexivity]).
  - destruct (awaitingReady s) as [|n]; [now split|].
    destruct (isReady (currentCellTracker s)); [|now split].
    unfold settle. simpl. split; [|apply startComm_then_no_reset].
    unfold caught_up.
    destruct (Frames.startComm_then_outside made (set_awaitingReady n s)) as [_ Ht].
    rewrite Ht, Counter.startComm_then_saved. exact Hcu.
  - destruct (kernel s); [|now split]. unfold onStatusChanged.
    destruct (String.eqb status "starting"); now split.
  - destruct (hasModel (notebookPanel s)); [|now split].
    unfold settle, onCellsChanged. simpl.
    destruct (String.eqb type "remove"); [|now split].
    rewrite Removal.forEach_removed_eq. unfold final, trace. simpl.
    split; [exact Hcu|apply removed_no_reset].
  - unfold settle. simpl.
    destruct (Dispatch.handle_cases onSparkJobStart onSparkStageSubmitted m s)
      as [(o & t & -> & Ht) | [(data & _ & _ & _ & ->) | (data & _ & _ & _ & ->)]].
    + unfold final, trace. simpl. split; [exact Hcu|].
      destruct Ht as [-> | [(text & ->) | (call & -> & _ & _ & He)]];
        try reflexivity.
      simpl. destruct call; try reflexivity. now elim (He cellId).
    + now apply job_settles.
    + now apply stage_settles.
Qed.

Lemma run_settled (evs : list Event) (s : State G) :
  caught_up s ->
  existsb is_execution_started evs = false ->
  caught_up (fst (run evs s))
  /\ existsb is_reset (snd (run evs s)) = false.
Proof.
  revert s. induction evs as [|ev rest IH]; intros s Hcu Hev; simpl;
    [now split|].
  simpl in Hev. apply orb_false_elim in Hev as [Hev Hrest].
  pose proof (react_settled ev s Hcu Hev) as (Hcu1 & Hr1).
  destruct (Monitor.react _ _ ev s) as [s1 t1]. simpl in *.
  specialize (IH s1 Hcu1 Hrest) as (Hcu2 & Hr2).
  destruct (Monitor.run _ _ rest s1) as [s2 t2]. simpl in *.
  now rewrite existsb_app, Hr1, Hr2.
Qed.

End Generic.
End Resets.

(** X11.  A reset needs a new execution.  Once a job start has been given
    to a cell, the saved count has caught up with the count of executions,
    and as long as no cell starts executing no event, whatever it is, makes
    the monitor tell the store to reset a cell again. *)
Theorem reset_needs_execution (data : JValue) (cell : ActiveCell)
  (evs : list Event) (s : Lab.St) (r : Rev.St) :
  getActiveCell (currentCellTracker s) = Some cell ->
  getActiveCell (currentCellTracker r) = Some cell ->
  existsb Words.is_execution_started evs = false ->
  existsb Words.is_reset
    (snd (Lab.run evs (final (Lab.onSparkJobStart data s)))) = false
  /\ existsb Words.is_reset
       (snd (Rev.run evs (final (Rev.onSparkJobStart data r)))) = false.
Proof.
  intros Hs Hr Hev. split.
  - apply (Resets.run_settled Lab.onSparkJobStart Lab.onSparkStageSubmitted);
      [intros d x; apply (Resets.lab_job_settles d x)
      |apply Resets.lab_stage_settles
      |apply (proj1 (Resets.lab_job_settles data s) cell Hs)
      |exact Hev].
  - apply (Resets.run_settled Rev.onSparkJobStart Rev.onSparkStageSubmitted);
      [intros d x; apply (Resets.rev_job_settles d x)
      |apply Resets.rev_stage_settles
      |apply (proj1 (Resets.rev_job_settles data r) cell Hr)
      |exact Hev].
Qed.

Lemma reset_needs_execution_witness :
  let evs := [CommMsg Sample.job_start; CommMsg Sample.stage_submitted;
              StatusChanged "starting"; CommMsg Sample.job_start] in
  getActiveCell (currentCellTracker Sample.lab3) = Some (mkActive Sample.c1 3)
  /\ existsb Words.is_reset
       (trace (Lab.onSparkJobStart Sample.job_start_data Sample.lab3)) = true
  /\ existsb Words.is_reset
       (snd (Lab.run evs (final (Lab.onSparkJobStart Sample.job_start_data Sample.lab3))))
     = false
  /\ existsb Words.is_reset
       (snd (Rev.run evs (final (Rev.onSparkJobStart Sample.job_start_data Sample.rev3))))
     = false.
Proof.
  intros evs. split; [reflexivity|]. split; [reflexivity|].
  exact (reset_needs_execution Sample.job_start_data (mkActive Sample.c1 3) evs
           Sample.lab3 Sample.rev3 eq_refl eq_refl eq_refl).
Defined.

(** X12.  With the tracker of the specification, the first job of a
    monitor resets its cell: after the construction, when a cell starts
    executing and a job start arrives, the saved count is still 0 and the
    count of executions is 1, so the store is told to reset the cell and
    then receives the job start. *)
Theorem first_job_resets (panel : NotebookPanel) (c : ICellModel)
  (m : ICommMsgMsg) (data : JValue) :
  strict_eq_string (msgtype m) "fromscala" = true ->
  JSON.parse (parse_argument m) = inr data ->
  get_msgtype data = inr (Some (JString "sparkJobStart")) ->
  store_calls (snd (Lab.run [ExecutionStarted c; CommMsg m]
                      (final (Lab.constructor panel))))
  = [NotebookStore.onCellExecutedAgain (id c); NotebookStore.onSparkJobStart (id c) data]
  /\ store_calls (snd (Rev.run [ExecutionStarted c; CommMsg m]
                         (final (Rev.constructor panel))))
     = [NotebookStore.onCellExecutedAgain (id c); NotebookStore.onSparkJobStart (id c) data].
Proof.
  intros H P K. unfold Lab.run, Rev.run. simpl. unfold settle.
  rewrite !(Dispatch.job_start_case _ _ m _ data H P K).
  rewrite !app_nil_r.
  split.
  - now rewrite Tags.lab_job_calls.
  - now rewrite Tags.rev_job_calls.
Qed.

Lemma first_job_resets_witness :
  JSON.parse (parse_argument Sample.job_start) = inr Sample.job_start_data
  /\ store_calls (snd (Lab.run [ExecutionStarted Sample.c1; CommMsg Sample.job_start]
                         (final (Lab.constructor Sample.panel))))
     = [NotebookStore.onCellExecutedAgain "c1";
        NotebookStore.onSparkJobStart "c1" Sample.job_start_data].
Proof.
  split; [reflexivity|].
  exact (proj1 (first_job_resets Sample.panel Sample.c1 Sample.job_start
                  Sample.job_start_data eq_refl eq_refl eq_refl)).
Defined.

(** ** Where the gate puts its widget *)

Module Placement.
Import Words.

Lemma findIndex_range {A : Type} (p : A -> bool) (l : list A) :
  -1 <= findIndex p l < Z.of_nat (length l).
Proof.
  induction l as [|x rest IH]; simpl; [lia|].
  destruct (p x); [lia|].
  destruct (Z.ltb_spec (findIndex p rest) 0); lia.
Qed.

Lemma findIndex_found {A : Type} (p : A -> bool) (l : list A) :
  0 <= findIndex p l ->
  exists x, l !! Z.to_nat (findIndex p l) = Some x /\ p x = true.
Proof.
  induction l as [|x rest IH]; simpl; [lia|].
  destruct (p x) eqn:Hp; [intros _; exists x; now split|].
  destruct (Z.ltb_spec (findIndex p rest) 0) as [Hlt|Hge]; [lia|].
  intros _. destruct (IH Hge) as (y & Hy & Hpy). exists y. split; [|exact Hpy].
  replace (Z.to_nat (findIndex p rest + 1)) with (S (Z.to_nat (findIndex p rest)))
    by lia.
  exact Hy.
Qed.

Lemma lookup_inserted {A : Type} (j : nat) (w : A) (l : list A) :
  (j <= length l)%nat -> (take j l ++ w :: drop j l)%list !! j = Some w.
Proof.
  intros H. rewrite lookup_app_r by (rewrite length_take; lia).
  rewrite length_take. replace (j - j `min` length l)%nat with 0%nat by lia.
  reflexivity.
Qed.

Lemma lookup_after_inserted {A : Type} (j n : nat) (w : A) (l : list A) :
  (j <= n)%nat -> (j <= length l)%nat ->
  (take j l ++ w :: drop j l)%list !! S n = l !! n.
Proof.
  intros Hn Hl. rewrite lookup_app_r by (rewrite length_take; lia).
  rewrite length_take.
  replace (S n - j `min` length l)%nat with (S (n - j)) by lia.
  simpl. rewrite lookup_drop. f_equal. lia.
Qed.

Lemma lookup_before_inserted {A : Type} (j n : nat) (w : A) (l : list A) :
  (n < j)%nat -> (j <= length l)%nat ->
  (take j l ++ w :: drop j l)%list !! n = l !! n.
Proof.
  intros Hn Hl. rewrite lookup_app_l by (rewrite length_take; lia).
  now apply lookup_take_lt.
Qed.

Lemma alter_cell_models (m : ICellModel) (f : Cell -> Cell) (l : list Cell) :
  (forall w, model (f w) = model w) ->
  map model (alter_cell m f l) = map model l.
Proof.
  intros Hf. induction l as [|w rest IH]; simpl; [reflexivity|].
  destruct (same_object (model w) m); simpl; [now rewrite Hf|now rewrite IH].
Qed.

Lemma alter_cell_other (m : ICellModel) (f : Cell -> Cell) (l : list Cell)
  (i : nat) (w : Cell) :
  l !! i = Some w -> same_object (model w) m = false ->
  alter_cell m f l !! i = Some w.
Proof.
  revert i. induction l as [|x rest IH]; intros i Hi Hw; [discriminate Hi|].
  simpl. destruct i as [|i]; simpl in *.
  - injection Hi as ->. now rewrite Hw.
  - destruct (same_object (model x) m); simpl; [exact Hi|now apply IH].
Qed.

(** The widgets of the notebook after the gate of the lab extension. *)
Lemma lab_gate_widgets (m : ICellModel) (s : Lab.St) (c : Cell) :
  Terms.lab_will_create m s = true ->
  find_cell m (widgets (notebookPanel s)) = Some c ->
  widgets (notebookPanel (final (Lab.createElementIfNotExists m s)))
  = alter_cell m
      (fun c0 =>
         Lab.set_layout
           (insertWidget
              (let i := findIndex (hasClass "jp-Cell-outputWrapper") (layout c) in
               if i >? 0 then i - 1 else 2)
              (monitor_widget (panel_id (notebookPanel s)) (id m))
              (layout c0)) c0)
      (widgets (notebookPanel s)).
Proof.
  intros W Hc. revert W.
  unfold Lab.createElementIfNotExists, Terms.lab_will_create, bind, get, emit,
    modify, ret, final. simpl. rewrite Hc.
  destruct (Lab.read_key (Lab.cellWidgetMap s) (id m)) as [[|]|]; simpl;
    destruct (String.eqb (type m) "code"); simpl;
    destruct (hasMonitorRoot c); simpl; intros W; try discriminate W;
    reflexivity.
Qed.

Lemma lab_gate_widgets_same (m : ICellModel) (s : Lab.St) :
  Terms.lab_will_create m s = false ->
  widgets (notebookPanel (final (Lab.createElementIfNotExists m s)))
  = widgets (notebookPanel s).
Proof. intros W. now rewrite (LabGate.lab_gate_noop m s W). Qed.

(** The widgets of the notebook after the gate of the other revision. *)
Lemma rev_gate_widgets (m : ICellModel) (r : Rev.St) :
  Terms.rev_will_create m r = true ->
  widgets (notebookPanel (final (Rev.createElementIfNotExists m r)))
  = alter_cell m
      (fun c0 =>
         Rev.set_outputArea
           (option_map
              (insertWidget 0 (monitor_widget (panel_id (notebookPanel r)) (id m)))
              (outputArea c0)) c0)
      (widgets (notebookPanel r)).
Proof.
  unfold Rev.createElementIfNotExists, Terms.rev_will_create, bind, get, emit,
    modify, ret, final. simpl.
  destruct (String.eqb (type m) "code"); simpl; [|discriminate].
  destruct (find_cell m (widgets (notebookPanel r))) as [c|]; simpl; [|discriminate].
  destruct (hasMonitorRoot c); simpl; [discriminate|].
  destruct (outputArea c) as [area|]; simpl; [|discriminate].
  destruct (List.find (hasClass "spark-monitor-cell-widget") area); simpl;
    [discriminate|reflexivity].
Qed.

End Placement.

(** X13.  When the gate of the lab extension creates a widget, it goes into
    the layout of the cell and the widgets already there keep their order.
    With the output wrapper at an index [i] above 0 the new widget takes
    index [i - 1] and the wrapper moves to [i + 1]; with no output wrapper,
    or with the wrapper first, it takes index 2, or the end of a layout
    shorter than that.  The model, the monitor root and the output area of
    the cell are as before, and the new widget has the class
    [spark-monitor-cell-widget] and the identities of the notebook and of
    the cell. *)
Theorem lab_placement (m : ICellModel) (s : Lab.St) (c : Cell) :
  Terms.lab_will_create m s = true ->
  find_cell m (widgets (notebookPanel s)) = Some c ->
  let w := Words.monitor_widget (panel_id (notebookPanel s)) (id m) in
  let i := findIndex (hasClass "jp-Cell-outputWrapper") (layout c) in
  let j := Z.to_nat (if i >? 0 then i - 1
                     else Z.min 2 (Z.of_nat (length (layout c)))) in
  exists c',
    find_cell m (widgets (notebookPanel (final (Lab.createElementIfNotExists m s))))
    = Some c'
    /\ model c' = model c
    /\ hasMonitorRoot c' = hasMonitorRoot c
    /\ outputArea c' = outputArea c
    /\ layout c' = (take j (layout c) ++ w :: drop j (layout c))%list
    /\ layout c' !! j = Some w
    /\ (0 < i ->
        exists wrapper,
          layout c !! Z.to_nat i = Some wrapper
          /\ hasClass "jp-Cell-outputWrapper" wrapper = true
          /\ layout c' !! S (Z.to_nat i) = Some wrapper
          /\ S j = Z.to_nat i).
Proof.
  intros W Hc w i j.
  pose proof (Placement.findIndex_range (hasClass "jp-Cell-outputWrapper") (layout c))
    as Hrange. fold i in Hrange.
  assert (j <= length (layout c))%nat as Hj.
  { subst j. destruct (Z.gtb_spec i 0); lia. }
  assert (insertWidget (if i >? 0 then i - 1 else 2) w (layout c)
          = (take j (layout c) ++ w :: drop j (layout c))%list) as Hins.
  { unfold insertWidget. subst j.
    replace (Z.to_nat (Z.max 0 (Z.min (if i >? 0 then i - 1 else 2)
                                   (Z.of_nat (length (layout c))))))
      with (Z.to_nat (if i >? 0 then i - 1
                      else Z.min 2 (Z.of_nat (length (layout c)))));
      [reflexivity|].
    destruct (Z.gtb_spec i 0); lia. }
  eexists. split.
  { rewrite (Placement.lab_gate_widgets m s c W Hc).
    apply NotebookFacts.find_alter_cell; [reflexivity|exact Hc]. }
  simpl. fold i. fold w. rewrite Hins.
  repeat split.
  - now apply Placement.lookup_inserted.
  - intros Hi.
    destruct (Placement.findIndex_found (hasClass "jp-Cell-outputWrapper") (layout c))
      as (wrapper & Hw & Hp); [fold i; lia|]. fold i in Hw.
    exists wrapper. split; [exact Hw|]. split; [exact Hp|].
    assert (S j = Z.to_nat i) as Hji.
    { subst j. destruct (Z.gtb_spec i 0); lia. }
    split; [|exact Hji].
    rewrite Placement.lookup_after_inserted; [exact Hw|lia|exact Hj].
Qed.

Lemma lab_placement_witness :
  let w := Words.monitor_widget "nb" "c1" in
  Terms.lab_will_create Sample.c1 Sample.lab_running = true
  /\ find_cell Sample.c1 (widgets (notebookPanel Sample.lab_running)) = Some Sample.cell1
  /\ exists c',
       find_cell Sample.c1
         (widgets (notebookPanel
                     (final (Lab.createElementIfNotExists Sample.c1 Sample.lab_running))))
       = Some c'
       /\ layout c'
          = [mkWidget ["jp-Cell-header"] None; w;
             mkWidget ["jp-Cell-inputWrapper"] None;
             mkWidget ["jp-Cell-outputWrapper"] None].
Proof.
  intros w. split; [reflexivity|]. split; [reflexivity|].
  destruct (lab_placement Sample.c1 Sample.lab_running Sample.cell1 eq_refl eq_refl)
    as (c' & Hfind & _ & _ & _ & Hlayout & _).
  exists c'. split; [exact Hfind|exact Hlayout].
Defined.

(** X14.  When the gate of the other revision creates a widget, it becomes
    the first widget of the output area of the cell, before the widgets
    already there; the layout, the model and the monitor root of the cell
    are as before. *)
Theorem rev_placement (m : ICellModel) (r : Rev.St) (c : Cell) (area : list Widget) :
  Terms.rev_will_create m r = true ->
  find_cell m (widgets (notebookPanel r)) = Some c ->
  outputArea c = Some area ->
  find_cell m (widgets (notebookPanel (final (Rev.createElementIfNotExists m r))))
  = Some (mkCell (model c) (hasMonitorRoot c) (layout c)
            (Some (Words.monitor_widget (panel_id (notebookPanel r)) (id m) :: area))).
Proof.
  intros W Hc Harea. rewrite (Placement.rev_gate_widgets m r W).
  erewrite NotebookFacts.find_alter_cell; [|reflexivity|exact Hc].
  unfold Rev.set_outputArea. rewrite Harea. simpl. unfold insertWidget.
  replace (Z.to_nat (Z.max 0 (Z.min 0 (Z.of_nat (length area))))) with 0%nat by lia.
  reflexivity.
Qed.

Lemma rev_placement_witness :
  Terms.rev_will_create Sample.c1 Sample.rev_running = true
  /\ find_cell Sample.c1
       (widgets (notebookPanel
                   (final (Rev.createElementIfNotExists Sample.c1 Sample.rev_running))))
     = Some (mkCell Sample.c1 false (layout Sample.cell1)
               (Some [Words.monitor_widget "nb" "c1"])).
Proof.
  split; [reflexivity|].
  exact (rev_placement Sample.c1 Sample.rev_running Sample.cell1 []
           eq_refl eq_refl eq_refl).
Defined.

(** X15.  The gate changes the widget of its cell and no other: in both
    revisions the notebook holds the same cells in the same order after the
    call, and every widget whose model is not the model of the call is
    exactly as before. *)
Theorem gate_touches_one_cell (m : ICellModel) (i : nat) (w : Cell)
  (s : Lab.St) (r : Rev.St) :
  same_object (model w) m = false ->
  (map model (widgets (notebookPanel (final (Lab.createElementIfNotExists m s))))
   = map model (widgets (notebookPanel s))
   /\ (widgets (notebookPanel s) !! i = Some w ->
       widgets (notebookPanel (final (Lab.createElementIfNotExists m s))) !! i = Some w))
  /\ (map model (widgets (notebookPanel (final (Rev.createElementIfNotExists m r))))
      = map model (widgets (notebookPanel r))
      /\ (widgets (notebookPanel r) !! i = Some w ->
          widgets (notebookPanel (final (Rev.createElementIfNotExists m r))) !! i
          = Some w)).
Proof.
  intros Hw. split.
  - destruct (Terms.lab_will_create m s) eqn:W.
    + assert (exists c, find_cell m (widgets (notebookPanel s)) = Some c) as (c & Hc).
      { revert W. unfold Terms.lab_will_create.
        destruct (find_cell m (widgets (notebookPanel s))) as [c|]; [eauto|].
        rewrite andb_false_r.
        now destruct (Lab.read_key (Lab.cellWidgetMap s) (id m)) as [[|]|]. }
      rewrite (Placement.lab_gate_widgets m s c W Hc). split.
      * now apply Placement.alter_cell_models.
      * intros Hi. now apply Placement.alter_cell_other.
    + rewrite (Placement.lab_gate_widgets_same m s W). now split.
  - destruct (Terms.rev_will_create m r) eqn:W.
    + rewrite (Placement.rev_gate_widgets m r W). split.
      * now apply Placement.alter_cell_models.
      * intros Hi. now apply Placement.alter_cell_other.
    + rewrite (RevGate.rev_gate_noop m r W). now split.
Qed.

Lemma gate_touches_one_cell_witness :
  let c2 := mkModel 2 "c2" "code" in
  let cell2 := mkCell c2 false [] (Some []) in
  let two (G : Type) (x : State G) :=
    set_notebookPanel (set_widgets [Sample.cell1; cell2] (notebookPanel x)) x in
  same_object (model cell2) Sample.c1 = false
  /\ widgets (notebookPanel
                (final (Lab.createElementIfNotExists Sample.c1 (two _ Sample.lab_running))))
     !! 1%nat = Some cell2
  /\ widgets (notebookPanel
                (final (Rev.createElementIfNotExists Sample.c1 (two _ Sample.rev_running))))
     !! 1%nat = Some cell2.
Proof.
  intros c2 cell2 two. split; [reflexivity|].
  pose proof (gate_touches_one_cell Sample.c1 1 cell2
                (two _ Sample.lab_running) (two _ Sample.rev_running) eq_refl)
    as ((_ & A) & (_ & B)).
  exact (conj (A eq_refl) (B eq_refl)).
Defined.

(** ** One surface for a cell, for good *)

Module Lifetime.
Import Words.

Lemma no_create_none (k : string) (t : list Effect) :
  existsb is_create t = false -> surfaces_created k t = 0%nat.
Proof.
  unfold surfaces_created. induction t as [|e t IH]; simpl; [reflexivity|].
  intros H. apply orb_false_elim in H as [He Ht].
  destruct e; simpl in *; try discriminate He; now apply IH.
Qed.

Lemma job_calls_no_create (cellId : string) (data : JValue) (n k : Z) :
  existsb is_create (Terms.job_start_calls cellId data n k) = false.
Proof. unfold Terms.job_start_calls. now destruct (n >? k). Qed.

Lemma removed_no_create (oldValues : list (option ICellModel)) :
  existsb is_create (removed_calls oldValues) = false.
Proof.
  unfold removed_calls.
  induction (omap (fun c => c) oldValues) as [|c l IH]; simpl; [reflexivity|exact IH].
Qed.

Lemma startComm_then_no_create {G : Type} (made : option nat) (s : State G) :
  existsb is_create (trace (startComm_then made s)) = false.
Proof.
  unfold startComm_then, bind, get, ret, throw, emit, modify, trace. simpl.
  destruct (kernel s) as [k|]; simpl; [|reflexivity].
  destruct (has_createComm k); simpl;
    [|destruct (has_connectToComm k); simpl];
    try destruct made; reflexivity.
Qed.

Lemma startComm_then_gate (made : option nat) (s : Lab.St) :
  Lab.cellWidgetMap (final (startComm_then made s)) = Lab.cellWidgetMap s.
Proof.
  unfold Lab.cellWidgetMap, startComm_then, bind, get, ret, throw, emit, modify,
    final. simpl.
  destruct (kernel s) as [k|]; simpl; [|reflexivity].
  destruct (has_createComm k); simpl;
    [|destruct (has_connectToComm k); simpl];
    try destruct made; reflexivity.
Qed.

Lemma exact_later (hist more : list Effect) (s s' : Lab.St) :
  Lab.cellWidgetMap s' = Lab.cellWidgetMap s ->
  existsb is_create more = false ->
  exactly_recorded hist s -> exactly_recorded (hist ++ more) s'.
Proof.
  intros Hmap Hmore H k Hk. rewrite Presented.surfaces_created_app.
  rewrite (no_create_none k more Hmore), (H k Hk). unfold marked. rewrite Hmap.
  apply Nat.add_0_r.
Qed.

Lemma gate_exact (hist : list Effect) (m : ICellModel) (s : Lab.St) :
  exactly_recorded hist s ->
  exactly_recorded (hist ++ trace (Lab.createElementIfNotExists m s))
                   (final (Lab.createElementIfNotExists m s)).
Proof.
  intros H k Hk. rewrite Presented.surfaces_created_app, LabGate.lab_gate_trace.
  unfold marked. rewrite LabGate.lab_gate_map.
  destruct (Terms.lab_will_create m s) eqn:W.
  - destruct (decide (id m = k)) as [<-|Hne].
    + rewrite (LabGate.read_write_eq _ _ _ Hk), (Again.one_surface _ m true),
        (H _ Hk).
      unfold marked. revert W. unfold Terms.lab_will_create.
      now destruct (Lab.read_key (Lab.cellWidgetMap s) (id m)) as [[|]|].
    + rewrite (LabGate.read_write_ne _ _ _ _ Hne), (H _ Hk). unfold marked.
      unfold surfaces_created. simpl.
      apply String.eqb_neq in Hne. rewrite Hne. simpl. lia.
  - rewrite (H _ Hk). unfold marked. apply Nat.add_0_r.
Qed.

Lemma job_exact (hist : list Effect) (data : JValue) (s : Lab.St) :
  exactly_recorded hist s ->
  exactly_recorded (hist ++ trace (Lab.onSparkJobStart data s))
                   (final (Lab.onSparkJobStart data s)).
Proof.
  intros H. destruct (getActiveCell (currentCellTracker s)) as [cell|] eqn:Hc.
  - rewrite (Handlers.lab_job_start data s cell Hc). cbv zeta.
    pose proof (gate_exact hist (cell_model cell) s H) as Hg.
    destruct (Lab.createElementIfNotExists (cell_model cell) s) as [[o s1] t1].
    unfold final, trace in *. simpl in *. rewrite app_assoc.
    eapply exact_later; [|apply job_calls_no_create|exact Hg].
    now destruct (_ >? _).
  - rewrite (Handlers.lab_job_start_absent data s Hc).
    now apply (exact_later hist _ s s).
Qed.

Lemma stage_exact (hist : list Effect) (data : JValue) (s : Lab.St) :
  exactly_recorded hist s ->
  exactly_recorded (hist ++ trace (Lab.onSparkStageSubmitted data s))
                   (final (Lab.onSparkStageSubmitted data s)).
Proof.
  intros H. destruct (getActiveCell (currentCellTracker s)) as [cell|] eqn:Hc.
  - rewrite (Handlers.lab_stage_submitted data s cell Hc). cbv zeta.
    pose proof (gate_exact hist (cell_model cell) s H) as Hg.
    destruct (Lab.createElementIfNotExists (cell_model cell) s) as [[o s1] t1].
    unfold final, trace in *. simpl in *. rewrite app_assoc.
    now apply (exact_later _ _ s1 s1).
  - rewrite (Handlers.lab_stage_submitted_absent data s Hc).
    now apply (exact_later hist _ s s).
Qed.

Lemma react_exact (hist : list Effect) (ev : Event) (s : Lab.St) :
  exactly_recorded hist s ->
  exactly_recorded (hist ++ snd (Lab.react ev s)) (fst (Lab.react ev s)).
Proof.
  intros H. unfold Lab.react.
  destruct ev as [m| |made|status|type oldValues|m| |cells]; simpl;
    try (now apply (exact_later hist _ s)).
  - destruct (awaitingReady s) as [|n]; [now apply (exact_later hist _ s)|].
    destruct (isReady (currentCellTracker s)); [|now apply (exact_later hist _ s)].
    unfold settle. simpl.
    apply (exact_later hist _ s);
      [apply (startComm_then_gate made (set_awaitingReady n s))
      |apply startComm_then_no_create|exact H].
  - destruct (kernel s); [|now apply (exact_later hist _ s)].
    unfold onStatusChanged.
    destruct (String.eqb status "starting"); now apply (exact_later hist _ s).
  - destruct (hasModel (notebookPanel s)); [|now apply (exact_later hist _ s)].
    unfold settle, onCellsChanged. simpl.
    destruct (String.eqb type "remove"); [|now apply (exact_later hist _ s)].
    rewrite Removal.forEach_removed_eq. unfold final, trace. simpl.
    apply (exact_later hist _ s); [reflexivity|apply removed_no_create|exact H].
  - unfold settle. simpl.
    destruct (Dispatch.handle_cases Lab.onSparkJobStart Lab.onSparkStageSubmitted m s)
      as [(o & t & -> & Ht) | [(data & _ & _ & _ & ->) | (data & _ & _ & _ & ->)]].
    + unfold final, trace. simpl.
      apply (exact_later hist _ s); [reflexivity| |exact H].
      destruct Ht as [-> | [(text & ->) | (call & -> & _)]]; reflexivity.
    + now apply job_exact.
    + now apply stage_exact.
Qed.

Lemma run_exact (evs : list Event) (hist : list Effect) (s : Lab.St) :
  exactly_recorded hist s ->
  exactly_recorded (hist ++ snd (Lab.run evs s)) (fst (Lab.run evs s)).
Proof.
  revert hist s. induction evs as [|ev rest IH]; intros hist s H.
  - simpl. now rewrite app_nil_r.
  - unfold Lab.run in *. simpl.
    pose proof (react_exact hist ev s H) as H1. unfold Lab.react in H1.
    destruct (Monitor.react _ _ ev s) as [s1 t1]. simpl in H1.
    specialize (IH (hist ++ t1)%list s1 H1).
    destruct (Monitor.run _ _ rest s1) as [s2 t2]. simpl in *.
    now rewrite app_assoc.
Qed.

Lemma constructed_exact (panel : NotebookPanel) :
  exactly_recorded (trace (Lab.constructor panel)) (final (Lab.constructor panel)).
Proof.
  intros k Hk. unfold marked, Lab.read_key. apply String.eqb_neq in Hk.
  rewrite Hk. reflexivity.
Qed.

End Lifetime.

(** X16.  In the lab extension a cell whose identifier is not [__proto__]
    gets its surface once for the whole life of the monitor: whatever
    happens after the construction (messages, restarts, cells removed, the
    notebook drawing its cells again), the gate has created exactly one
    surface for such a cell if its map marks it and none otherwise, so
    never two for the same cell identity.  The identifier [__proto__] is
    excluded because the map, a plain object, cannot hold it: for that cell
    the number of surfaces is not bounded. *)
Theorem one_surface_for_life (panel : NotebookPanel) (evs : list Event) (k : string) :
  k <> "__proto__" ->
  let start := Lab.constructor panel in
  let s := fst (Lab.run evs (final start)) in
  let hist := (trace start ++ snd (Lab.run evs (final start)))%list in
  surfaces_created k hist = (if Words.marked s k then 1 else 0)%nat
  /\ (surfaces_created k hist <= 1)%nat.
Proof.
  intros Hk start s hist.
  assert (surfaces_created k hist = (if Words.marked s k then 1 else 0)%nat) as H.
  { apply (Lifetime.run_exact evs (trace start) (final start));
      [apply Lifetime.constructed_exact|exact Hk]. }
  split; [exact H|]. rewrite H. destruct (Words.marked s k); lia.
Qed.

Lemma one_surface_for_life_witness :
  let evs := [ExecutionStarted Sample.c1; CommMsg Sample.job_start;
              CommMsg Sample.stage_submitted; StatusChanged "starting";
              ExecutionStarted Sample.c1; CommMsg Sample.job_start] in
  let start := Lab.constructor Sample.panel in
  "c1" <> "__proto__"
  /\ Words.marked (fst (Lab.run evs (final start))) "c1" = true
  /\ surfaces_created "c1" (trace start ++ snd (Lab.run evs (final start)))%list
     = 1%nat.
Proof.
  intros evs start.
  assert ("c1" <> "__proto__") as Hk by (intros H; discriminate H).
  split; [exact Hk|]. split; [reflexivity|].
  exact (proj1 (one_surface_for_life Sample.panel evs "c1" Hk)).
Defined.

(** ** When reading a message throws *)

Module Throws.

Lemma lab_job_returns (data : JValue) (s : Lab.St) :
  outcome (Lab.onSparkJobStart data s) = inr tt.
Proof.
  destruct (getActiveCell (currentCellTracker s)) as [cell|] eqn:Hc.
  - now rewrite (Handlers.lab_job_start data s cell Hc).
  - now rewrite (Handlers.lab_job_start_absent data s Hc).
Qed.

Lemma lab_stage_returns (data : JValue) (s : Lab.St) :
  outcome (Lab.onSparkStageSubmitted data s) = inr tt.
Proof.
  destruct (getActiveCell (currentCellTracker s)) as [cell|] eqn:Hc.
  - now rewrite (Handlers.lab_stage_submitted data s cell Hc).
  - now rewrite (Handlers.lab_stage_submitted_absent data s Hc).
Qed.

Lemma rev_job_returns (data : JValue) (r : Rev.St) :
  outcome (Rev.onSparkJobStart data r) = inr tt.
Proof.
  destruct (getActiveCell (currentCellTracker r)) as [cell|] eqn:Hc.
  - now rewrite (Handlers.rev_job_start data r cell Hc).
  - now rewrite (Handlers.rev_job_start_absent data r Hc).
Qed.

Lemma rev_stage_returns (data : JValue) (r : Rev.St) :
  outcome (Rev.onSparkStageSubmitted data r) = inr tt.
Proof.
  destruct (getActiveCell (currentCellTracker r)) as [cell|] eqn:Hc.
  - now rewrite (Handlers.rev_stage_submitted data r cell Hc).
  - now rewrite (Handlers.rev_stage_submitted_absent data r Hc).
Qed.

Section Generic.
Context {G : Type}.
Variable onSparkJobStart : JValue -> M (State G) unit.
Variable onSparkStageSubmitted : JValue -> M (State G) unit.
Hypothesis job_returns : forall data s, outcome (onSparkJobStart data s) = inr tt.
Hypothesis stage_returns : forall data s,
  outcome (onSparkStageSubmitted data s) = inr tt.

Lemma handle_outcome (m : ICommMsgMsg) (s : State G) :
  outcome (Monitor.handleMessage onSparkJobStart onSparkStageSubmitted m s)
  = if strict_eq_string (msgtype m) "fromscala" then
      match JSON.parse (parse_argument m) with
      | inl e => inl e
      | inr JNull => inl TypeError
      | inr _ => inr tt
      end
    else inr tt.
Proof.
  destruct (strict_eq_string (msgtype m) "fromscala") eqn:H.
  2:{ now rewrite (Dispatch.other_envelope _ _ m s H). }
  destruct (JSON.parse (parse_argument m)) as [e|data] eqn:P.
  { now rewrite (Dispatch.parse_throws _ _ m s e H P). }
  destruct (get_msgtype data) as [e|kind] eqn:K.
  { rewrite (Dispatch.kind_throws _ _ m s data e H P K).
    destruct data; simpl in K; try discriminate K. now injection K as <-. }
  assert (outcome (Monitor.handleMessage onSparkJobStart onSparkStageSubmitted m s)
          = inr tt) as Hok.
  { pose proof (job_returns data s) as Hj.
    pose proof (stage_returns data s) as Hs.
    unfold Monitor.handleMessage, bind, lift, emit, ret, outcome in *. simpl.
    rewrite H, (Dispatch.fromscala_truthy _ H), P. simpl. rewrite K. simpl.
    repeat match goal with
           | |- context [if strict_eq_string kind ?l then _ else _] =>
               destruct (strict_eq_string kind l)
           end;
      try reflexivity.
    - destruct (onSparkJobStart data s) as [[[e|[]] s1] t1];
        [discriminate Hj|reflexivity].
    - destruct (onSparkStageSubmitted data s) as [[[e|[]] s1] t1];
        [discriminate Hs|reflexivity]. }
  rewrite Hok. destruct data; simpl in K; try discriminate K; reflexivity.
Qed.

End Generic.
End Throws.

(** X17.  [handleMessage] throws in two cases only, both on a
    ['fromscala'] envelope: a [SyntaxError] when the payload is not valid
    JSON, a [TypeError] when the payload is the JSON [null].  On any other
    message, whatever its kind and whether or not a cell is active, it
    returns normally. *)
Theorem throws_exactly (m : ICommMsgMsg) (s : Lab.St) (r : Rev.St) :
  let expected :=
    if strict_eq_string (msgtype m) "fromscala" then
      match JSON.parse (parse_argument m) with
      | inl e => inl e
      | inr JNull => inl TypeError
      | inr _ => inr tt
      end
    else inr tt in
  outcome (Lab.handleMessage m s) = expected
  /\ outcome (Rev.handleMessage m r) = expected.
Proof.
  intros expected. split.
  - apply Throws.handle_outcome;
      [apply Throws.lab_job_returns | apply Throws.lab_stage_returns].
  - apply Throws.handle_outcome;
      [apply Throws.rev_job_returns | apply Throws.rev_stage_returns].
Qed.
